(** * The KYC ledger and its credential proofs

    A shallow embedding of [ikyc/blockchain]: [transaction.py], [block.py],
    [storage.py], [zk_proofs.py] and [utils.py], together with the part of
    the Python runtime those modules lean on ([hashlib.sha256],
    [json.dumps], [float.__repr__], [str], [bytes.fromhex], [time.time],
    [os.urandom], [os.listdir]).

    Layout: the runtime model first ([SHA256], [Py]), then one module per
    source file, then the properties. *)

From Stdlib Require Import ZArith List String Ascii Bool Lia.
From Stdlib Require Import Strings.Byte.
From Stdlib Require Import Floats.SpecFloat.
From Stdlib Require Import Sorting.Sorted.
Import ListNotations.

Open Scope bool_scope.
Open Scope Z_scope.

(* ------------------------------------------------------------------ *)
(** ** SHA-256 (FIPS 180-4), on 32-bit words carried by [Z] *)

Module SHA256.

Definition w32 (x : Z) : Z := Z.land x 0xFFFFFFFF.
Definition add32 (x y : Z) : Z := w32 (x + y).
Definition rotr (n x : Z) : Z := Z.lor (Z.shiftr x n) (w32 (Z.shiftl x (32 - n))).
Definition not32 (x : Z) : Z := Z.lxor x 0xFFFFFFFF.

Definition Ch (x y z : Z) := Z.lxor (Z.land x y) (Z.land (not32 x) z).
Definition Maj (x y z : Z) := Z.lxor (Z.lxor (Z.land x y) (Z.land x z)) (Z.land y z).
Definition Sigma0 (x : Z) := Z.lxor (Z.lxor (rotr 2 x) (rotr 13 x)) (rotr 22 x).
Definition Sigma1 (x : Z) := Z.lxor (Z.lxor (rotr 6 x) (rotr 11 x)) (rotr 25 x).
Definition sigma0 (x : Z) := Z.lxor (Z.lxor (rotr 7 x) (rotr 18 x)) (Z.shiftr x 3).
Definition sigma1 (x : Z) := Z.lxor (Z.lxor (rotr 17 x) (rotr 19 x)) (Z.shiftr x 10).

(** The constants are the first 32 bits of the fractional parts of the
    cube roots (for [K]) and of the square roots (for [H0]) of the first
    primes; they are computed here rather than listed. *)

Definition is_prime (n : nat) : bool :=
  (1 <? n)%nat && forallb (fun d => negb (n mod d =? 0)%nat) (seq 2 (n - 2)).

Definition primes (count : nat) : list Z :=
  map Z.of_nat (firstn count (filter is_prime (seq 2 400))).

(** the integer part of the [r]-th root of [n], built bit by bit *)
Fixpoint iroot (r : Z) (n : Z) (bits : nat) (x : Z) : Z :=
  match bits with
  | O => x
  | S bits' =>
      let x' := x + 2 ^ Z.of_nat bits' in
      iroot r n bits' (if x' ^ r <=? n then x' else x)
  end.

Definition root_fraction (r p : Z) : Z := w32 (iroot r (p * 2 ^ (32 * r)) 40 0).

Definition K : list Z := Eval vm_compute in map (root_fraction 3) (primes 64).

Definition H0 : list Z := Eval vm_compute in map (root_fraction 2) (primes 8).

(** The [width] low bytes of [x], most significant first. *)
Definition be_bytes (width : nat) (x : Z) : list Z :=
  map (fun i => Z.land (Z.shiftr x (8 * Z.of_nat i)) 0xFF) (rev (seq 0 width)).

Definition pad (msg : list Z) : list Z :=
  let len := Z.of_nat (List.length msg) in
  msg ++ [0x80] ++ repeat 0 (Z.to_nat ((55 - len) mod 64)) ++ be_bytes 8 (8 * len).

Fixpoint words (fuel : nat) (bs : list Z) : list Z :=
  match fuel, bs with
  | S fuel', b0 :: b1 :: b2 :: b3 :: rest =>
      (Z.shiftl b0 24 + Z.shiftl b1 16 + Z.shiftl b2 8 + b3) :: words fuel' rest
  | _, _ => []
  end.

(** The message schedule, most recent word first. *)
Fixpoint schedule (n : nat) (recent : list Z) : list Z :=
  match n with
  | O => recent
  | S n' =>
      let w := add32 (add32 (sigma1 (nth 1 recent 0)) (nth 6 recent 0))
                     (add32 (sigma0 (nth 14 recent 0)) (nth 15 recent 0)) in
      schedule n' (w :: recent)
  end.

Definition round (st : list Z) (kw : Z * Z) : list Z :=
  match st with
  | [a; b; c; d; e; f; g; h] =>
      let t1 := add32 (add32 (add32 h (Sigma1 e)) (add32 (Ch e f g) (fst kw))) (snd kw) in
      let t2 := add32 (Sigma0 a) (Maj a b c) in
      [add32 t1 t2; a; b; c; add32 d t1; e; f; g]
  | _ => st
  end.

Definition compress (st : list Z) (block : list Z) : list Z :=
  let w := rev (schedule 48 (rev block)) in
  map (fun p => add32 (fst p) (snd p)) (combine st (fold_left round (combine K w) st)).

Fixpoint blocks (fuel : nat) (ws : list Z) (st : list Z) : list Z :=
  match fuel with
  | O => st
  | S fuel' =>
      match ws with
      | [] => st
      | _ => blocks fuel' (skipn 16 ws) (compress st (firstn 16 ws))
      end
  end.

Definition digest_words (msg : list Z) : list Z :=
  let bs := pad msg in
  let ws := words (List.length bs) bs in
  blocks (List.length ws) ws H0.

Definition hex_digit (d : Z) : ascii :=
  ascii_of_N (Z.to_N (if d <? 10 then 48 + d else 87 + d)).

Definition hex_word (w : Z) : list ascii :=
  map (fun i => hex_digit (Z.land (Z.shiftr w (4 * Z.of_nat i)) 0xF)) (rev (seq 0 8)).

(** [hashlib.sha256(data).hexdigest()] *)
Definition hexdigest (data : list byte) : string :=
  string_of_list_ascii
    (flat_map hex_word (digest_words (map (fun b => Z.of_N (Byte.to_N b)) data))).

End SHA256.

(* ------------------------------------------------------------------ *)
(** ** The Python runtime the sources rely on *)

Module Py.

Inductive exn :=
  | IndexError | KeyError | TypeError | ValueError | AttributeError | OverflowError
  | OSError.

(** *** [str]: the list of its code points; the model keeps to code points
    below 256, one [ascii] each *)

Definition dquote : ascii := "034"%char.
Definition backslash : ascii := "092"%char.

Definition startswith (s p : string) : bool := String.prefix p s.

(** [s * n] *)
Definition str_mul (s : string) (n : Z) : string :=
  String.concat EmptyString (repeat s (Z.to_nat n)).

Fixpoint digits_fuel (fuel : nat) (n : Z) (acc : list ascii) : list ascii :=
  match fuel with
  | O => acc
  | S fuel' =>
      let acc' := ascii_of_N (Z.to_N (48 + n mod 10)) :: acc in
      if n <? 10 then acc' else digits_fuel fuel' (n / 10) acc'
  end.

Definition digits (n : Z) : list ascii :=
  digits_fuel (S (Z.to_nat (Z.log2 n))) n [].

(** [str(n)] for an [int] *)
Definition str_of_int (n : Z) : string :=
  if n <? 0 then String "-" (string_of_list_ascii (digits (- n)))
  else string_of_list_ascii (digits n).

(** [s.encode('utf-8')] *)
Definition encode (s : string) : list byte :=
  flat_map
    (fun c => let n := N_of_ascii c in
              if (n <? 128)%N then [byte_of_ascii c]
              else [byte_of_ascii (ascii_of_N (192 + n / 64));
                    byte_of_ascii (ascii_of_N (128 + n mod 64))])
    (list_ascii_of_string s).

(** *** [bytes]: [hex] and [fromhex] *)

Definition hex_of_byte (b : byte) : list ascii :=
  let n := Z.of_N (Byte.to_N b) in [SHA256.hex_digit (n / 16); SHA256.hex_digit (n mod 16)].

Definition hex (bs : list byte) : string :=
  string_of_list_ascii (flat_map hex_of_byte bs).

Definition hexval (c : ascii) : option N :=
  let n := N_of_ascii c in
  if (48 <=? n)%N && (n <=? 57)%N then Some (n - 48)%N
  else if (97 <=? n)%N && (n <=? 102)%N then Some (n - 87)%N
  else if (65 <=? n)%N && (n <=? 70)%N then Some (n - 55)%N
  else None.

Definition isspace (c : ascii) : bool :=
  let n := N_of_ascii c in ((9 <=? n)%N && (n <=? 13)%N) || (n =? 32)%N.

Fixpoint fromhex_chars (cs : list ascii) : option (list byte) :=
  match cs with
  | [] => Some []
  | c :: rest =>
      if isspace c then fromhex_chars rest
      else match hexval c, rest with
           | Some hi, c' :: rest' =>
               match hexval c' with
               | Some lo =>
                   option_map (cons (byte_of_ascii (ascii_of_N (16 * hi + lo))))
                              (fromhex_chars rest')
               | None => None
               end
           | _, _ => None
           end
  end.

(** [bytes.fromhex(s)]; [None] stands for its [ValueError] *)
Definition fromhex (s : string) : option (list byte) :=
  fromhex_chars (list_ascii_of_string s).

(** *** [float]: IEEE 754 binary64, as [SpecFloat] has it *)

Definition pyfloat := spec_float.
Definition prec := 53.
Definition emax := 1024.

Definition fzero : pyfloat := S754_zero false.
Definition float_sub (x y : pyfloat) : pyfloat := SFsub prec emax x y.
Definition float_ltb (x y : pyfloat) : bool := SFltb x y.
Definition float_truthy (x : pyfloat) : bool := negb (SFeqb x fzero).

(** [float(n)] for an [int], which overflows on the large ones *)
Definition float_of_int (n : Z) : exn + pyfloat :=
  match binary_normalize prec emax n 0 false with
  | S754_infinity _ => inl OverflowError
  | f => inr f
  end.

(** [int(x)] for a [float]: truncation towards zero *)
Definition int_of_float (x : pyfloat) : exn + Z :=
  match x with
  | S754_zero _ => inr 0
  | S754_infinity _ => inl OverflowError
  | S754_nan => inl ValueError
  | S754_finite s m e =>
      let a := if 0 <=? e then Zpos m * 2 ^ e else Zpos m / 2 ^ (- e) in
      inr (if s then - a else a)
  end.

(** [float.__repr__]: the shortest decimal that reads back as the same
    float, the closest one among the shortest.  A decimal [d * 10^k] is
    compared with [x * 2^(e-2)] after both are brought to integers. *)
Section Shortest.
Variables (m : positive) (e : Z).

Let s := e - 2.
Let v4 := 4 * Zpos m.
Let hi4 := v4 + 2.
Let lo4 :=
  if (Zpos m =? 2 ^ (prec - 1)) && (emin prec emax <? e) then v4 - 1 else v4 - 2.
Let closed := Z.even (Zpos m).

Definition lhs (k x : Z) : Z := x * 2 ^ Z.max s 0 * 10 ^ Z.max (- k) 0.
Definition rhs (k d : Z) : Z := d * 10 ^ Z.max k 0 * 2 ^ Z.max (- s) 0.

(** least [p] with [m * 2^e < 10^p], searched upwards from an underestimate *)
Fixpoint decpt_from (fuel : nat) (p : Z) : Z :=
  match fuel with
  | O => p
  | S fuel' => if lhs p v4 <? rhs p 1 then p else decpt_from fuel' (p + 1)
  end.

Definition decpt : Z :=
  decpt_from 8 ((Z.log2 (Zpos m) + e) * 30103 / 100000 - 1).

Definition inside (k d : Z) : bool :=
  if closed then (lhs k lo4 <=? rhs k d) && (rhs k d <=? lhs k hi4)
  else (lhs k lo4 <? rhs k d) && (rhs k d <? lhs k hi4).

(** the [n]-digit decimals next to the float, if one of them reads back *)
Definition candidate (n : Z) : option (Z * Z) :=
  let k := decpt - n in
  let d := lhs k v4 / rhs k 1 in
  let below := Z.abs (lhs k v4 - rhs k d) in
  let above := Z.abs (rhs k (d + 1) - lhs k v4) in
  match inside k d, inside k (d + 1) with
  | true, true =>
      if below <? above then Some (d, k)
      else if above <? below then Some (d + 1, k)
      else Some (if Z.even d then d else d + 1, k)
  | true, false => Some (d, k)
  | false, true => Some (d + 1, k)
  | false, false => None
  end.

Fixpoint shortest_from (fuel : nat) (n : Z) : Z * Z :=
  match fuel with
  | O => (Zpos m, 0)
  | S fuel' =>
      match candidate n with
      | Some dk => dk
      | None => shortest_from fuel' (n + 1)
      end
  end.

Definition shortest : Z * Z := shortest_from 17 1.
End Shortest.

Fixpoint strip_zeros (fuel : nat) (d k : Z) : Z * Z :=
  match fuel with
  | O => (d, k)
  | S fuel' =>
      if (d mod 10 =? 0) && (0 <? d) then strip_zeros fuel' (d / 10) (k + 1) else (d, k)
  end.

Definition zeros (n : Z) : list ascii := repeat "0"%char (Z.to_nat n).

Definition repr_finite (m : positive) (e : Z) : string :=
  let (d0, k0) := shortest m e in
  let (d, k) := strip_zeros 20 d0 k0 in
  let ds := digits d in
  let n := Z.of_nat (List.length ds) in
  let pt := n + k in
  string_of_list_ascii
    (if (16 <? pt) || (pt <? -3) then
       let ex := pt - 1 in
       let mant := match ds with
                   | [] => []
                   | [c] => [c]
                   | c :: rest => c :: "."%char :: rest
                   end in
       let exd := digits (Z.abs ex) in
       mant ++ "e"%char :: (if ex <? 0 then "-"%char else "+"%char)
            :: (if Z.abs ex <? 10 then "0"%char :: exd else exd)
     else if pt <=? 0 then "0"%char :: "."%char :: zeros (- pt) ++ ds
     else if n <=? pt then ds ++ zeros (pt - n) ++ [ "."%char; "0"%char ]
     else firstn (Z.to_nat pt) ds ++ "."%char :: skipn (Z.to_nat pt) ds).

Definition float_repr (x : pyfloat) : string :=
  match x with
  | S754_zero false => "0.0"
  | S754_zero true => "-0.0"
  | S754_infinity false => "inf"
  | S754_infinity true => "-inf"
  | S754_nan => "nan"
  | S754_finite false m e => repr_finite m e
  | S754_finite true m e => String "-" (repr_finite m e)
  end.

(** *** Values: the JSON-shaped part of Python's object universe

    A [dict] keeps its items in insertion order, under [str] keys. *)

#[local] Set Warnings "-register-all".

Inductive value :=
  | VNone
  | VBool (b : bool)
  | VInt (n : Z)
  | VFloat (x : pyfloat)
  | VStr (s : string)
  | VList (l : list value)
  | VDict (d : list (string * value)).

Definition dict := list (string * value).

(** [bool(v)] *)
Definition truthy (v : value) : bool :=
  match v with
  | VNone => false
  | VBool b => b
  | VInt n => negb (n =? 0)
  | VFloat x => float_truthy x
  | VStr s => negb (String.eqb s EmptyString)
  | VList l => match l with [] => false | _ => true end
  | VDict d => match d with [] => false | _ => true end
  end.

(** [d.get(k)] *)
Fixpoint dict_get (k : string) (d : dict) : option value :=
  match d with
  | [] => None
  | (k', v) :: d' => if String.eqb k k' then Some v else dict_get k d'
  end.

(** [k in d] *)
Definition dict_in (k : string) (d : dict) : bool :=
  match dict_get k d with Some _ => true | None => false end.

(** [d[k] = v]: in place when the key is there, at the end when it is not *)
Fixpoint dict_set (k : string) (v : value) (d : dict) : dict :=
  match d with
  | [] => [(k, v)]
  | (k', v') :: d' => if String.eqb k k' then (k, v) :: d' else (k', v') :: dict_set k v d'
  end.

(** [d.pop(k, None)], keeping the dict only *)
Fixpoint dict_pop (k : string) (d : dict) : dict :=
  match d with
  | [] => []
  | (k', v') :: d' => if String.eqb k k' then d' else (k', v') :: dict_pop k d'
  end.

(** *** [json.dumps(v, sort_keys=True)] *)

Definition hex4 (n : Z) : list ascii :=
  map (fun i => SHA256.hex_digit (Z.land (Z.shiftr n (4 * Z.of_nat i)) 0xF)) (rev (seq 0 4)).

(** one character of a JSON string, with [ensure_ascii] on *)
Definition escape_char (c : ascii) : list ascii :=
  let n := Z.of_N (N_of_ascii c) in
  if n =? 34 then [backslash; dquote]
  else if n =? 92 then [backslash; backslash]
  else if n =? 10 then [backslash; "n"%char]
  else if n =? 13 then [backslash; "r"%char]
  else if n =? 9 then [backslash; "t"%char]
  else if n =? 8 then [backslash; "b"%char]
  else if n =? 12 then [backslash; "f"%char]
  else if (32 <=? n) && (n <=? 126) then [c]
  else backslash :: "u"%char :: hex4 n.

Definition json_str (s : string) : string :=
  string_of_list_ascii
    (dquote :: flat_map escape_char (list_ascii_of_string s) ++ [dquote]).

Definition json_float (x : pyfloat) : string :=
  match x with
  | S754_nan => "NaN"
  | S754_infinity false => "Infinity"
  | S754_infinity true => "-Infinity"
  | _ => float_repr x
  end.

(** stable insertion of an item among items sorted by key *)
Fixpoint insert_item (kv : string * string) (l : list (string * string))
  : list (string * string) :=
  match l with
  | [] => [kv]
  | kv' :: l' =>
      if String.ltb (fst kv) (fst kv') then kv :: l else kv' :: insert_item kv l'
  end.

Definition sort_items (l : list (string * string)) : list (string * string) :=
  fold_left (fun acc kv => insert_item kv acc) l [].

Fixpoint json_dumps (v : value) : string :=
  match v with
  | VNone => "null"
  | VBool true => "true"
  | VBool false => "false"
  | VInt n => str_of_int n
  | VFloat x => json_float x
  | VStr s => json_str s
  | VList l => "[" ++ String.concat ", " (map json_dumps l) ++ "]"
  | VDict d =>
      "{" ++ String.concat ", "
               (map (fun kv => json_str (fst kv) ++ ": " ++ snd kv)
                    (sort_items (map (fun kv => (fst kv, json_dumps (snd kv))) d)))
          ++ "}"
  end%string.

(** *** The world: the clock behind [time.time()], the entropy behind
    [os.urandom], and the files, each holding the document that
    [json.dump] wrote and [json.load] reads back *)

Record world := mkWorld {
  clock : nat -> pyfloat;
  ticks : nat;
  isoformat : pyfloat -> string;
  entropy : nat -> byte;
  drawn : nat;
  files : list (string * value);
  stdout : list string
}.

(** A call returns, raises, or is still running when the fuel is out. *)
Inductive outcome (A : Type) :=
  | Ok (a : A) (w : world)
  | Raise (e : exn) (w : world)
  | OutOfFuel.
Arguments Ok {A} a w.
Arguments Raise {A} e w.
Arguments OutOfFuel {A}.

Definition M (A : Type) := world -> outcome A.

Definition ret {A} (a : A) : M A := fun w => Ok a w.
Definition raise {A} (e : exn) : M A := fun w => Raise e w.
Definition bind {A B} (m : M A) (k : A -> M B) : M B :=
  fun w => match m w with
           | Ok a w' => k a w'
           | Raise e w' => Raise e w'
           | OutOfFuel => OutOfFuel
           end.

(** [try: m except Exception as e: h e] *)
Definition try_except {A} (m : M A) (h : exn -> M A) : M A :=
  fun w => match m w with
           | Raise e w' => h e w'
           | r => r
           end.

Definition lift {A} (r : exn + A) : M A :=
  match r with inl e => raise e | inr a => ret a end.

Definition tick (w : world) : world :=
  mkWorld (clock w) (S (ticks w)) (isoformat w) (entropy w) (drawn w) (files w) (stdout w).

(** [time()] *)
Definition time : M pyfloat := fun w => Ok (clock w (ticks w)) (tick w).

(** [datetime.now().isoformat()]: the clock, as the host renders it *)
Definition now_isoformat : M string :=
  fun w => Ok (isoformat w (clock w (ticks w))) (tick w).

(** [os.urandom(n)] *)
Definition urandom (n : nat) : M (list byte) :=
  fun w => Ok (map (fun i => entropy w (drawn w + i)%nat) (seq 0 n))
              (mkWorld (clock w) (ticks w) (isoformat w) (entropy w) (drawn w + n)%nat
                       (files w) (stdout w)).

(** [os.path.exists(path)] of a path that is no directory on the host.
    The world keeps files only: a directory is there through the files
    kept below it and is no path of the world itself, so the facts that
    ask for a missing file ask as well that the path is no directory. *)
Definition path_exists (path : string) : M bool :=
  fun w => Ok (dict_in path (files w)) w.

(** [json.load] of the file at [path] *)
Definition json_load (path : string) : M value :=
  fun w => match dict_get path (files w) with
           | Some doc => Ok doc w
           | None => Raise OSError w
           end.

(** [json.dump(doc, f)] into the file at [path], opened with ['w'] *)
Definition json_dump (doc : value) (path : string) : M unit :=
  fun w => Ok tt (mkWorld (clock w) (ticks w) (isoformat w) (entropy w) (drawn w)
                          (dict_set path doc (files w)) (stdout w)).

Definition print (line : string) : M unit :=
  fun w => Ok tt (mkWorld (clock w) (ticks w) (isoformat w) (entropy w) (drawn w)
                          (files w) (stdout w ++ [line])).

(** *** Subscripts and iteration over values that came out of a document *)

(** [v[k]] for a [str] key *)
Definition getitem (v : value) (k : string) : M value :=
  match v with
  | VDict d => match dict_get k d with Some x => ret x | None => raise KeyError end
  | _ => raise TypeError
  end.

(** [for x in v] *)
Definition iterate (v : value) : M (list value) :=
  match v with
  | VList l => ret l
  | VDict d => ret (map (fun kv => VStr (fst kv)) d)
  | VStr s => ret (map (fun c => VStr (String c EmptyString)) (list_ascii_of_string s))
  | _ => raise TypeError
  end.

(** The records below give their fields the types the sources annotate;
    a document that holds another type there is refused with [TypeError],
    where the sources, unannotated at run time, would carry it along. *)
Definition as_str (v : value) : M string :=
  match v with VStr s => ret s | _ => raise TypeError end.

Definition as_int (v : value) : M Z :=
  match v with VInt n => ret n | _ => raise TypeError end.

(** [str(e)] for an exception: the model keeps the class name only *)
Definition str_exn (e : exn) : string :=
  match e with
  | IndexError => "IndexError"
  | KeyError => "KeyError"
  | TypeError => "TypeError"
  | ValueError => "ValueError"
  | AttributeError => "AttributeError"
  | OverflowError => "OverflowError"
  | OSError => "OSError"
  end.

(** [for x in l: body], threading what the body builds *)
Fixpoint for_each {A B} (l : list A) (acc : B) (body : B -> A -> M B) : M B :=
  match l with
  | [] => ret acc
  | x :: l' => bind (body acc x) (fun acc' => for_each l' acc' body)
  end.

(** *** More of [str], [bytes] and [list] *)

(** [s.endswith(suffix)] *)
Definition endswith (s suffix : string) : bool :=
  let n := String.length s in
  let k := String.length suffix in
  (k <=? n)%nat && String.eqb (substring (n - k) k s) suffix.

(** [bs.decode('utf-8')], with [None] for its [UnicodeDecodeError].  A
    sequence for a code point above 255 has no [str] in the model and is
    refused like an ill-formed one. *)
Fixpoint decode (bs : list byte) : option string :=
  match bs with
  | [] => Some EmptyString
  | b :: rest =>
      let n := Byte.to_N b in
      if (n <? 128)%N then option_map (String (ascii_of_byte b)) (decode rest)
      else match rest with
           | b' :: rest' =>
               let n' := Byte.to_N b' in
               if ((n =? 194)%N || (n =? 195)%N) && (128 <=? n')%N && (n' <? 192)%N
               then option_map (String (ascii_of_N ((n - 192) * 64 + (n' - 128))))
                               (decode rest')
               else None
           | [] => None
           end
  end.

(** [l.sort(reverse=True)] for a list of [str] *)
Fixpoint insert_desc (s : string) (l : list string) : list string :=
  match l with
  | [] => [s]
  | s' :: l' => if String.ltb s' s then s :: l else s' :: insert_desc s l'
  end.

Definition sort_reverse (l : list string) : list string :=
  fold_left (fun acc s => insert_desc s acc) l [].

(** A [dict] under [str] keys whose values are not JSON-shaped: [d.get(k)]
    and [d[k] = v]. *)
Fixpoint assoc_get {A} (k : string) (d : list (string * A)) : option A :=
  match d with
  | [] => None
  | (k', v) :: d' => if String.eqb k k' then Some v else assoc_get k d'
  end.

Fixpoint assoc_set {A} (k : string) (v : A) (d : list (string * A)) : list (string * A) :=
  match d with
  | [] => [(k, v)]
  | (k', v') :: d' => if String.eqb k k' then (k, v) :: d' else (k', v') :: assoc_set k v d'
  end.

(** [datetime.now().strftime("%Y%m%d_%H%M%S")]: the digits of the date
    and of the time of day in what [isoformat] renders,
    [YYYY-MM-DDTHH:MM:SS] *)
Definition now_strftime : M string :=
  fun w => let iso := isoformat w (clock w (ticks w)) in
           Ok (String.concat EmptyString
                 [substring 0 4 iso; substring 5 2 iso; substring 8 2 iso; "_"%string;
                  substring 11 2 iso; substring 14 2 iso; substring 17 2 iso])
              (tick w).

(** *** [repr] and [str] *)

Definition hex2 (n : Z) : list ascii := [SHA256.hex_digit (n / 16); SHA256.hex_digit (n mod 16)].

(** [str.isprintable] of one code point below 256 *)
Definition printable (n : Z) : bool :=
  ((32 <=? n) && (n <? 127)) || ((161 <=? n) && (n <=? 255) && negb (n =? 173)).

Definition squote : ascii := "039"%char.

Definition repr_char (quote c : ascii) : list ascii :=
  let n := Z.of_N (N_of_ascii c) in
  if Ascii.eqb c quote || Ascii.eqb c backslash then [backslash; c]
  else if n =? 9 then [backslash; "t"%char]
  else if n =? 10 then [backslash; "n"%char]
  else if n =? 13 then [backslash; "r"%char]
  else if printable n then [c]
  else backslash :: "x"%char :: hex2 n.

(** [repr(s)] for a [str]: single quotes, unless the text has one and no
    double quote *)
Definition repr_str (s : string) : string :=
  let cs := list_ascii_of_string s in
  let quote := if existsb (Ascii.eqb squote) cs && negb (existsb (Ascii.eqb dquote) cs)
               then dquote else squote in
  string_of_list_ascii (quote :: flat_map (repr_char quote) cs ++ [quote]).

Fixpoint repr (v : value) : string :=
  match v with
  | VNone => "None"
  | VBool true => "True"
  | VBool false => "False"
  | VInt n => str_of_int n
  | VFloat x => float_repr x
  | VStr s => repr_str s
  | VList l => "[" ++ String.concat ", " (map repr l) ++ "]"
  | VDict d =>
      "{" ++ String.concat ", " (map (fun kv => repr_str (fst kv) ++ ": " ++ repr (snd kv)) d)
          ++ "}"
  end%string.

(** [str(v)] *)
Definition str (v : value) : string :=
  match v with
  | VStr s => s
  | _ => repr v
  end.

End Py.

Declare Scope py_scope.
Delimit Scope py_scope with py.
Notation "x <- m ;; k" := (Py.bind m (fun x => k))
  (at level 61, m at next level, right associativity) : py_scope.
Notation "m ;;; k" := (Py.bind m (fun _ => k))
  (at level 61, right associativity) : py_scope.
Open Scope py_scope.

Import Py.
Open Scope string_scope.
Open Scope list_scope.

(* ------------------------------------------------------------------ *)
(** ** transaction.py *)

Module Transaction.

Record t := mk {
  sender : string;
  recipient : string;
  payload : value;
  timestamp : value;
  signature : string;
  tx_hash : string
}.

Definition compute_hash (self : t) : string :=
  let tx_dict := VDict [("sender", VStr (sender self));
                        ("recipient", VStr (recipient self));
                        ("payload", payload self);
                        ("timestamp", timestamp self);
                        ("signature", VStr (signature self))] in
  let tx_string := encode (json_dumps tx_dict) in
  SHA256.hexdigest tx_string.

Definition set_tx_hash (self : t) (h : string) : t :=
  mk (sender self) (recipient self) (payload self) (timestamp self) (signature self) h.

(** [Transaction(sender, recipient, payload, timestamp, signature)];
    the defaults are [timestamp=None] and [signature=''] *)
Definition init (sender recipient : string) (payload timestamp : value)
    (signature : string) : M t :=
  ts <- (if truthy timestamp then ret timestamp else now <- time ;; ret (VFloat now)) ;;
  let self := mk sender recipient payload ts signature EmptyString in
  ret (set_tx_hash self (compute_hash self)).

Definition to_dict (self : t) : value :=
  VDict [("sender", VStr (sender self));
         ("recipient", VStr (recipient self));
         ("payload", payload self);
         ("timestamp", timestamp self);
         ("signature", VStr (signature self));
         ("tx_hash", VStr (tx_hash self))].

End Transaction.

(* ------------------------------------------------------------------ *)
(** ** block.py

    The diagnostic [print]s of this file are left out of the model. *)

Module Block.

Record t := mk {
  index : Z;
  transactions : list Transaction.t;
  timestamp : value;
  previous_hash : string;
  nonce : Z;
  hash : string
}.

Definition compute_hash (self : t) : string :=
  let block_data := VDict [("index", VInt (index self));
                           ("transactions", VList (map Transaction.to_dict (transactions self)));
                           ("timestamp", timestamp self);
                           ("previous_hash", VStr (previous_hash self));
                           ("nonce", VInt (nonce self))] in
  let block_string := encode (json_dumps block_data) in
  SHA256.hexdigest block_string.

Definition set_nonce (self : t) (n : Z) : t :=
  mk (index self) (transactions self) (timestamp self) (previous_hash self) n (hash self).

Definition set_hash (self : t) (h : string) : t :=
  mk (index self) (transactions self) (timestamp self) (previous_hash self) (nonce self) h.

(** [Block(index, transactions, timestamp, previous_hash, nonce)];
    the defaults are [timestamp=None], [previous_hash=''] and [nonce=0] *)
Definition init (index : Z) (transactions : list Transaction.t) (timestamp : value)
    (previous_hash : string) (nonce : Z) : M t :=
  ts <- (if truthy timestamp then ret timestamp else now <- time ;; ret (VFloat now)) ;;
  let self := mk index transactions ts previous_hash nonce EmptyString in
  ret (set_hash self (compute_hash self)).

End Block.

Module Blockchain.

(** the class attribute [Blockchain.difficulty] *)
Definition difficulty : Z := 2.

(** An instance; [instance_difficulty] is the attribute [difficulty] of the
    instance itself, which only [load_blockchain] ever sets. *)
Record t := mk {
  unconfirmed_transactions : list Transaction.t;
  chain : list Block.t;
  instance_difficulty : option value
}.

(** [self.difficulty]: the instance attribute when there is one, the class
    attribute otherwise *)
Definition get_difficulty (self : t) : value :=
  match instance_difficulty self with
  | Some d => d
  | None => VInt difficulty
  end.

Definition set_chain (self : t) (c : list Block.t) : t :=
  mk (unconfirmed_transactions self) c (instance_difficulty self).

Definition set_unconfirmed_transactions (self : t) (q : list Transaction.t) : t :=
  mk q (chain self) (instance_difficulty self).

(** [self.chain[-1]] *)
Definition last_block (self : t) : M Block.t :=
  match rev (chain self) with
  | [] => raise IndexError
  | b :: _ => ret b
  end.

(** The loop of [proof_of_work], entered with [computed_hash] already
    known for the block as it stands. *)
Fixpoint pow_loop (fuel : nat) (block : Block.t) : M (Block.t * string) :=
  let computed_hash := Block.compute_hash block in
  if startswith computed_hash (str_mul "0" difficulty) then ret (block, computed_hash)
  else match fuel with
       | O => fun _ => OutOfFuel
       | S fuel' => pow_loop fuel' (Block.set_nonce block (Block.nonce block + 1))
       end.

(** [proof_of_work(block)]: the block comes back with the nonce it was
    left at *)
Definition proof_of_work (fuel : nat) (self : t) (block : Block.t) : M (Block.t * string) :=
  pow_loop fuel (Block.set_nonce block 0).

Definition create_genesis_block (fuel : nat) (self : t) : M t :=
  now <- time ;;
  genesis_block <- Block.init 0 [] (VFloat now) "0" 0 ;;
  r <- proof_of_work fuel self genesis_block ;;
  let (genesis_block, proof) := r : Block.t * string in
  let genesis_block := Block.set_hash genesis_block proof in
  ret (set_chain self (chain self ++ [genesis_block])).

(** [Blockchain()] *)
Definition init (fuel : nat) : M t :=
  create_genesis_block fuel (mk [] [] None).

Definition is_valid_proof (self : t) (block : Block.t) (block_hash : string) : bool :=
  startswith block_hash (str_mul "0" difficulty)
  && String.eqb block_hash (Block.compute_hash block).

(** [add_block(block, proof)]: the answer, the block as the call leaves it,
    and the chain object *)
Definition add_block (self : t) (block : Block.t) (proof : string)
  : M (bool * Block.t * t) :=
  last <- last_block self ;;
  if negb (String.eqb (Block.previous_hash block) (Block.hash last)) then
    ret (false, block, self)
  else if negb (is_valid_proof self block proof) then
    ret (false, block, self)
  else
    let block := Block.set_hash block proof in
    ret (true, block, set_chain self (chain self ++ [block])).

Definition add_new_transaction (self : t) (transaction : Transaction.t) : t :=
  set_unconfirmed_transactions self (unconfirmed_transactions self ++ [transaction]).

(** [mine()]: what it returns, and the chain object *)
Definition mine (fuel : nat) (self : t) : M (option Block.t * t) :=
  match unconfirmed_transactions self with
  | [] => ret (None, self)
  | _ =>
      last <- last_block self ;;
      now <- time ;;
      last' <- last_block self ;;
      new_block <- Block.init (Block.index last + 1) (unconfirmed_transactions self)
                              (VFloat now) (Block.hash last') 0 ;;
      r <- proof_of_work fuel self new_block ;;
      let (new_block, proof) := r : Block.t * string in
      r' <- add_block self new_block proof ;;
      let '(added, new_block, self) := r' : bool * Block.t * t in
      if added then ret (Some new_block, set_unconfirmed_transactions self [])
      else ret (None, self)
  end.

Fixpoint check_chain_from (previous_hash : string) (chain : list Block.t) : bool :=
  match chain with
  | [] => true
  | block :: rest =>
      if negb (String.eqb (Block.previous_hash block) previous_hash) then false
      else
        let computed_hash := Block.compute_hash block in
        if negb (String.eqb (Block.hash block) computed_hash) then false
        else if negb (Z.eqb (Block.index block) 0)
                && negb (startswith (Block.hash block) (str_mul "0" difficulty))
        then false
        else check_chain_from (Block.hash block) rest
  end.

Definition check_chain_validity (self : t) (chain : list Block.t) : bool :=
  check_chain_from "0" chain.

End Blockchain.


(* ------------------------------------------------------------------ *)
(** ** storage.py *)

Module BlockchainStorage.

Record t := mk {
  storage_path : string;
  chain_file : string;
  backup_dir : string;
  metadata_file : string
}.

(** [os.path.join(a, b)] on a POSIX host *)
Definition path_join (a b : string) : string :=
  if startswith b "/" then b
  else if String.eqb a EmptyString then b
  else if String.eqb (substring (String.length a - 1) 1 a) "/" then (a ++ b)%string
  else (a ++ "/" ++ b)%string.

(** [BlockchainStorage(storage_path)]; the directories it makes are not
    part of the model *)
Definition init (storage_path : string) : t :=
  mk storage_path
     (path_join storage_path "blockchain.json")
     (path_join storage_path "backups")
     (path_join storage_path "metadata.json").

Definition block_data_of (block : Block.t) : value :=
  VDict [("index", VInt (Block.index block));
         ("timestamp", Block.timestamp block);
         ("previous_hash", VStr (Block.previous_hash block));
         ("nonce", VInt (Block.nonce block));
         ("hash", VStr (Block.hash block));
         ("transactions", VList (map Transaction.to_dict (Block.transactions block)))].

Definition _save_metadata (self : t) (metadata : value) : M bool :=
  try_except (json_dump metadata (metadata_file self) ;;; ret true)
             (fun e => print ("Error saving metadata: " ++ str_exn e) ;;; ret false).

Definition save_blockchain (self : t) (blockchain : Blockchain.t) : M bool :=
  try_except
    (saved_at <- now_isoformat ;;
     last_block_hash <- match Blockchain.chain blockchain with
                        | [] => ret VNone
                        | _ => last <- Blockchain.last_block blockchain ;;
                               ret (VStr (Block.hash last))
                        end ;;
     let metadata :=
       VDict [("total_blocks", VInt (Z.of_nat (List.length (Blockchain.chain blockchain))));
              ("difficulty", Blockchain.get_difficulty blockchain);
              ("saved_at", VStr saved_at);
              ("last_block_hash", last_block_hash)] in
     let blockchain_data :=
       VDict [("chain", VList (map block_data_of (Blockchain.chain blockchain)));
              ("metadata", metadata)] in
     json_dump blockchain_data (chain_file self) ;;;
     _save_metadata self metadata ;;;
     print ("Blockchain saved successfully to " ++ chain_file self) ;;;
     ret true)
    (fun e => print ("Error saving blockchain: " ++ str_exn e) ;;; ret false).

(** The body of the inner loop of [load_blockchain]: one transaction
    rebuilt from [tx_data] and appended. *)
Definition load_transaction (transactions : list Transaction.t) (tx_data : value)
  : M (list Transaction.t) :=
  sender <- bind (getitem tx_data "sender") as_str ;;
  recipient <- bind (getitem tx_data "recipient") as_str ;;
  payload <- getitem tx_data "payload" ;;
  timestamp <- getitem tx_data "timestamp" ;;
  signature <- bind (getitem tx_data "signature") as_str ;;
  transaction <- Transaction.init sender recipient payload timestamp signature ;;
  stored <- bind (getitem tx_data "tx_hash") as_str ;;
  let transaction := Transaction.set_tx_hash transaction stored in
  ret (transactions ++ [transaction]).

(** The body of the outer loop: one block rebuilt from [block_data] and
    appended to the chain. *)
Definition load_block (chain : list Block.t) (block_data : value) : M (list Block.t) :=
  tx_list <- bind (getitem block_data "transactions") iterate ;;
  transactions <- for_each tx_list [] load_transaction ;;
  index <- bind (getitem block_data "index") as_int ;;
  timestamp <- getitem block_data "timestamp" ;;
  previous_hash <- bind (getitem block_data "previous_hash") as_str ;;
  nonce <- bind (getitem block_data "nonce") as_int ;;
  block <- Block.init index transactions timestamp previous_hash nonce ;;
  stored <- bind (getitem block_data "hash") as_str ;;
  let block := Block.set_hash block stored in
  ret (chain ++ [block]).

Definition load_blockchain (fuel : nat) (self : t) : M (option Blockchain.t) :=
  try_except
    (present <- path_exists (chain_file self) ;;
     if negb present then
       print "No saved blockchain found. Creating new blockchain." ;;;
       blockchain <- Blockchain.init fuel ;;
       ret (Some blockchain)
     else
       blockchain_data <- json_load (chain_file self) ;;
       d <- match blockchain_data with
            | VDict d => ret d
            | _ => raise TypeError
            end ;;
       difficulty <- match dict_get "metadata" d with
                     | Some (VDict metadata) =>
                         ret (match dict_get "difficulty" metadata with
                              | Some x => x
                              | None => VInt 2
                              end)
                     | Some _ => raise AttributeError
                     | None => ret (VInt 2)
                     end ;;
       block_list <- bind (getitem blockchain_data "chain") iterate ;;
       chain <- for_each block_list [] load_block ;;
       let blockchain := Blockchain.mk [] chain (Some difficulty) in
       print ("Blockchain loaded successfully from " ++ chain_file self) ;;;
       print ("Total blocks: " ++ str_of_int (Z.of_nat (List.length chain))) ;;;
       if Blockchain.check_chain_validity blockchain (Blockchain.chain blockchain) then
         print "Loaded blockchain is valid." ;;;
         ret (Some blockchain)
       else
         print "WARNING: Loaded blockchain failed validation!" ;;;
         ret (Some blockchain))
    (fun e => print ("Error loading blockchain: " ++ str_exn e) ;;; ret None).

(** *** Backups *)

Definition set_chain_file (self : t) (path : string) : t :=
  mk (storage_path self) path (backup_dir self) (metadata_file self).

(** what is left of [p] up to its first ["/"] *)
Fixpoint first_component (p : string) : string :=
  match p with
  | EmptyString => EmptyString
  | String c rest => if Ascii.eqb c "/" then EmptyString else String c (first_component rest)
  end.

(** [os.listdir(path)]: the names, each once, under which the files kept
    below [path] sit in it *)
Definition listdir (path : string) : M (list string) :=
  fun w =>
    let prefix := path_join path EmptyString in
    let names :=
      flat_map (fun kv =>
                  let p := fst kv : string in
                  if startswith p prefix then
                    let name := first_component
                                  (substring (String.length prefix)
                                             (String.length p - String.length prefix) p) in
                    if String.eqb name EmptyString then [] else [name]
                  else [])
               (files w) in
    Ok (nodup string_dec names) w.

(** [create_backup(blockchain, backup_name)]; the default is
    [backup_name=None].  As in [save_blockchain], opening the file for
    writing is taken to succeed. *)
Definition create_backup (self : t) (blockchain : Blockchain.t) (backup_name : option string)
  : M bool :=
  try_except
    (backup_name <- match backup_name with
                    | None =>
                        timestamp <- now_strftime ;;
                        ret ("blockchain_backup_" ++ timestamp ++ ".json")%string
                    | Some name => ret name
                    end ;;
     let backup_path := path_join (backup_dir self) backup_name in
     backup_created_at <- now_isoformat ;;
     last_block_hash <- match Blockchain.chain blockchain with
                        | [] => ret VNone
                        | _ => last <- Blockchain.last_block blockchain ;;
                               ret (VStr (Block.hash last))
                        end ;;
     let blockchain_data :=
       VDict [("chain", VList (map block_data_of (Blockchain.chain blockchain)));
              ("metadata",
               VDict [("total_blocks",
                       VInt (Z.of_nat (List.length (Blockchain.chain blockchain))));
                      ("difficulty", Blockchain.get_difficulty blockchain);
                      ("backup_created_at", VStr backup_created_at);
                      ("last_block_hash", last_block_hash)])] in
     json_dump blockchain_data backup_path ;;;
     print ("Backup created: " ++ backup_path) ;;;
     ret true)
    (fun e => print ("Error creating backup: " ++ str_exn e) ;;; ret false).

Definition list_backups (self : t) : M (list string) :=
  try_except
    (names <- listdir (backup_dir self) ;;
     let backups := filter (fun f => endswith f ".json") names in
     ret (sort_reverse backups))
    (fun e => print ("Error listing backups: " ++ str_exn e) ;;; ret []).

(** [load_from_backup(backup_filename)]: what it returns, and the storage
    object as the call leaves it.  The one [except] clause stands once for
    each stretch of the body, with the object as an exception raised there
    would find it. *)
Definition load_from_backup (fuel : nat) (self : t) (backup_filename : string)
  : M (option Blockchain.t * t) :=
  let failed (self : t) (e : exn) : M (option Blockchain.t * t) :=
    print ("Error loading from backup: " ++ str_exn e) ;;; ret (None, self) in
  let backup_path := path_join (backup_dir self) backup_filename in
  let original_chain_file := chain_file self in
  let pointed := set_chain_file self backup_path in
  let restored := set_chain_file pointed original_chain_file in
  try_except
    (present <- path_exists backup_path ;;
     if negb present then
       print ("Backup file not found: " ++ backup_filename) ;;; ret (None, self)
     else
       try_except
         (blockchain <- load_blockchain fuel pointed ;;
          try_except
            (match blockchain with
             | Some _ => print ("Blockchain restored from backup: " ++ backup_filename)
             | None => ret tt
             end ;;;
             ret (blockchain, restored))
            (failed restored))
         (failed pointed))
    (failed self).

End BlockchainStorage.

(* ------------------------------------------------------------------ *)
(** ** zk_proofs.py *)

(** The RSA keys and the PSS signature of the [cryptography] package,
    taken as an interface: [sign sk data] is
    [sk.sign(data, PSS(MGF1(SHA256), MAX_LENGTH), SHA256)], which draws its
    salt from the world, and [verify pk signature data] tells whether
    [pk.verify(signature, data, ...)] returns rather than raises. *)
Record pss_scheme := {
  private_key_t : Type;
  public_key_t : Type;
  generate_private_key : Z -> M private_key_t;
  public_key_of : private_key_t -> public_key_t;
  sign : private_key_t -> list byte -> M (list byte);
  verify : public_key_t -> list byte -> list byte -> bool
}.

(** The PEM text of a public key, likewise an interface: [public_bytes pk]
    is [pk.public_bytes(Encoding.PEM, PublicFormat.SubjectPublicKeyInfo)]
    and [load_pem_public_key data] is
    [serialization.load_pem_public_key(data, default_backend())]. *)
Record pem_codec (rsa : pss_scheme) := {
  public_bytes : public_key_t rsa -> list byte;
  load_pem_public_key : list byte -> exn + public_key_t rsa
}.
Arguments public_bytes {rsa} _ _.
Arguments load_pem_public_key {rsa} _ _.

Module ZKProofGenerator.

Section Generator.
Variable rsa : pss_scheme.

Record t := mk {
  key_size : Z;
  private_key : private_key_t rsa;
  public_key : public_key_t rsa
}.

(** [ZKProofGenerator(key_size)]; the default is [key_size=2048] *)
Definition init (key_size : Z) : M t :=
  private_key <- generate_private_key rsa key_size ;;
  ret (mk key_size private_key (public_key_of rsa private_key)).

Definition _create_commitment (self : t) (data : value) : string :=
  let data_string := json_dumps data in
  SHA256.hexdigest (encode data_string).

Definition _generate_challenge (self : t) : M string :=
  challenge_bytes <- urandom 32 ;;
  ret (SHA256.hexdigest challenge_bytes).

Definition _generate_proof_id (self : t) : M string :=
  random_bytes <- urandom 16 ;;
  now <- time ;;
  seconds <- lift (int_of_float now) ;;
  let timestamp := str_of_int seconds in
  let proof_data := (timestamp ++ hex random_bytes)%string in
  ret (substring 0 16 (SHA256.hexdigest (encode proof_data))).

Definition _sign_proof (self : t) (proof : dict) : M (list byte) :=
  let proof_copy := proof in
  let proof_copy := dict_pop "proof_signature" proof_copy in
  let proof_copy := dict_pop "sharing_signature" proof_copy in
  let proof_data := encode (json_dumps (VDict proof_copy)) in
  sign rsa (private_key self) proof_data.

(** [k in v], for whatever [v] a proof holds under ['public_claims'] *)
Definition contains (v : value) (k : string) : M bool :=
  match v with
  | VDict d => ret (dict_in k d)
  | VStr s => ret (match String.index 0 k s with Some _ => true | None => false end)
  | VList l => ret (existsb (fun x => match x with
                                      | VStr s => String.eqb s k
                                      | _ => false
                                      end) l)
  | _ => raise TypeError
  end.

(** [v.get(k)] *)
Definition get (v : value) (k : string) : M value :=
  match v with
  | VDict d => ret (match dict_get k d with Some x => x | None => VNone end)
  | _ => raise AttributeError
  end.

Definition required_fields : list string :=
  ["proof_type"; "commitment_hash"; "challenge"; "public_claims"; "proof_id"; "generated_at"].

Definition required_claims : list string :=
  ["verification_level"; "issuing_institution"; "verification_completed"].

Fixpoint all_claims_in (public_claims : value) (claims : list string) : M bool :=
  match claims with
  | [] => ret true
  | claim :: rest =>
      present <- contains public_claims claim ;;
      if negb present then ret false else all_claims_in public_claims rest
  end.

Definition _validate_proof_structure (self : t) (proof : dict) : M bool :=
  if negb (forallb (fun field => dict_in field proof) required_fields) then ret false
  else
    let public_claims := match dict_get "public_claims" proof with
                         | Some v => v
                         | None => VDict []
                         end in
    all_claims_in public_claims required_claims.

(** [86400], as the float it is compared with *)
Definition day : pyfloat := binary_normalize prec emax 86400 0 false.

(** [x - v] for a float [x] *)
Definition float_minus (x : pyfloat) (v : value) : M pyfloat :=
  match v with
  | VFloat y => ret (float_sub x y)
  | VInt n => y <- lift (float_of_int n) ;; ret (float_sub x y)
  | VBool b => y <- lift (float_of_int (if b then 1 else 0)) ;; ret (float_sub x y)
  | _ => raise TypeError
  end.

Definition verify_kyc_proof (self : t) (proof : dict) (public_key' : option (public_key_t rsa))
  : M value :=
  try_except
    (let verification_key := match public_key' with
                             | Some k => k
                             | None => public_key self
                             end in
     let signature_hex := match dict_get "proof_signature" proof with
                          | Some v => v
                          | None => VNone
                          end in
     if negb (truthy signature_hex) then
       verified_at <- time ;;
       ret (VDict [("valid", VBool false);
                   ("reason", VStr "Missing proof signature");
                   ("verified_at", VFloat verified_at)])
     else
       signature <- match signature_hex with
                    | VStr s => match fromhex s with
                                | Some bs => ret bs
                                | None => raise ValueError
                                end
                    | _ => raise TypeError
                    end ;;
       let proof_copy := dict_pop "proof_signature" proof in
       let proof_data := encode (json_dumps (VDict proof_copy)) in
       let signature_valid := verify rsa verification_key signature proof_data in
       structure_valid <- _validate_proof_structure self proof ;;
       now <- time ;;
       proof_age <- float_minus now (match dict_get "generated_at" proof with
                                     | Some v => v
                                     | None => VInt 0
                                     end) ;;
       let not_expired := float_ltb proof_age day in
       let overall_valid := signature_valid && structure_valid && not_expired in
       let public_claims := match dict_get "public_claims" proof with
                            | Some v => v
                            | None => VDict []
                            end in
       verification_level <- get public_claims "verification_level" ;;
       issuing_institution <- get public_claims "issuing_institution" ;;
       verified_at <- time ;;
       let verification_result :=
         [("valid", VBool overall_valid);
          ("signature_verified", VBool signature_valid);
          ("structure_valid", VBool structure_valid);
          ("not_expired", VBool not_expired);
          ("proof_age_seconds", VFloat proof_age);
          ("public_claims", public_claims);
          ("verification_level", verification_level);
          ("issuing_institution", issuing_institution);
          ("privacy_preserved", VBool true);
          ("verified_at", VFloat verified_at)] in
       if negb overall_valid then
         let reasons :=
           (if negb signature_valid then [VStr "Invalid cryptographic signature"] else [])
           ++ (if negb structure_valid then [VStr "Invalid proof structure"] else [])
           ++ (if negb not_expired then [VStr "Proof expired"] else []) in
         ret (VDict (dict_set "failure_reasons" (VList reasons) verification_result))
       else ret (VDict verification_result))
    (fun e =>
       verified_at <- time ;;
       ret (VDict [("valid", VBool false);
                   ("reason", VStr ("Verification error: " ++ str_exn e));
                   ("verified_at", VFloat verified_at)])).

Definition generate_kyc_proof (self : t) (customer_data : value)
    (verification_level issuing_institution : string) : M value :=
  timestamp <- time ;;
  let commitment_data :=
    VDict [("customer_pii", customer_data);
           ("verification_details",
            VDict [("level", VStr verification_level);
                   ("issuer", VStr issuing_institution);
                   ("timestamp", VFloat timestamp)])] in
  let commitment_hash := _create_commitment self commitment_data in
  challenge <- _generate_challenge self ;;
  let public_claims :=
    VDict [("verification_level", VStr verification_level);
           ("issuing_institution", VStr issuing_institution);
           ("verification_completed", VBool true);
           ("meets_compliance", VBool true);
           ("timestamp", VFloat timestamp)] in
  proof_id <- _generate_proof_id self ;;
  generated_at <- time ;;
  let proof :=
    [("proof_type", VStr "kyc_verification_proof");
     ("commitment_hash", VStr commitment_hash);
     ("challenge", VStr challenge);
     ("public_claims", public_claims);
     ("proof_signature", VNone);
     ("proof_id", VStr proof_id);
     ("generated_at", VFloat generated_at)] in
  proof_signature <- _sign_proof self proof ;;
  ret (VDict (dict_set "proof_signature" (VStr (hex proof_signature)) proof)).

Definition level_hierarchy : dict := [("CIP", VInt 1); ("CDD", VInt 2); ("EDD", VInt 3)].

(** [level_hierarchy.get(level, default)]; a list or a dict is no key *)
Definition level_value (level : value) (default : Z) : M Z :=
  match level with
  | VStr s => ret (match dict_get s level_hierarchy with
                   | Some (VInt n) => n
                   | _ => default
                   end)
  | VList _ | VDict _ => raise TypeError
  | _ => ret default
  end.

(** [str(v)], as an f-string renders a value *)
Definition format_value (v : value) : string :=
  match v with
  | VNone => "None"
  | VBool true => "True"
  | VBool false => "False"
  | VInt n => str_of_int n
  | VFloat x => float_repr x
  | VStr s => s
  | _ => json_dumps v
  end.

(** the default is [required_verification_level='CDD'] *)
Definition generate_cross_institution_proof (self : t) (original_proof : dict)
    (requesting_institution required_verification_level : string) : M value :=
  original_verification <- verify_kyc_proof self original_proof None ;;
  valid <- getitem original_verification "valid" ;;
  if negb (truthy valid) then
    timestamp <- time ;;
    ret (VDict [("sharing_approved", VBool false);
                ("reason", VStr "Original proof is invalid");
                ("timestamp", VFloat timestamp)])
  else
    let original_level :=
      match original_verification with
      | VDict d => match dict_get "verification_level" d with
                   | Some v => v
                   | None => VStr "NONE"
                   end
      | _ => VStr "NONE"
      end in
    original_level_value <- level_value original_level 0 ;;
    required_level_value <- level_value (VStr required_verification_level) 2 ;;
    if Z.ltb original_level_value required_level_value then
      timestamp <- time ;;
      ret (VDict [("sharing_approved", VBool false);
                  ("reason", VStr ("Verification level " ++ format_value original_level
                                   ++ " insufficient for requirement "
                                   ++ required_verification_level));
                  ("timestamp", VFloat timestamp)])
    else
      original_issuer <- get original_verification "issuing_institution" ;;
      sharing_timestamp <- time ;;
      let sharing_proof :=
        [("proof_type", VStr "cross_institution_sharing");
         ("original_proof_id", match dict_get "proof_id" original_proof with
                               | Some v => v
                               | None => VNone
                               end);
         ("sharing_approved", VBool true);
         ("requesting_institution", VStr requesting_institution);
         ("verification_level_confirmed", original_level);
         ("original_issuer", original_issuer);
         ("shared_claims",
          VDict [("kyc_completed", VBool true);
                 ("verification_level", original_level);
                 ("compliance_status", VStr "VERIFIED");
                 ("issuing_institution", original_issuer)]);
         ("privacy_preserved", VBool true);
         ("customer_data_protected", VBool true);
         ("sharing_timestamp", VFloat sharing_timestamp)] in
      sharing_signature <- _sign_proof self sharing_proof ;;
      ret (VDict (dict_set "sharing_signature" (VStr (hex sharing_signature)) sharing_proof)).

End Generator.

Section Pem.
Variable rsa : pss_scheme.
Variable pem : pem_codec rsa.

Definition get_public_key_pem (self : t rsa) : M string :=
  match decode (public_bytes pem (public_key rsa self)) with
  | Some text => ret text
  | None => raise ValueError
  end.

Definition load_public_key_from_pem (self : t rsa) (pem_data : string)
  : M (public_key_t rsa) :=
  lift (load_pem_public_key pem (encode pem_data)).

End Pem.

End ZKProofGenerator.

Module ZKProofManager.

Section Manager.
Variable rsa : pss_scheme.
Variable pem : pem_codec rsa.

Record t := mk {
  institution_keys : list (string * public_key_t rsa);
  proof_store : list (string * dict)
}.

(** [ZKProofManager()] *)
Definition init : t := mk [] [].

(** [register_institution(institution_id, public_key_pem)]: the answer,
    and the manager as the call leaves it *)
Definition register_institution (self : t) (institution_id public_key_pem : string)
  : M (bool * t) :=
  try_except
    (zkp <- ZKProofGenerator.init rsa 2048 ;;
     public_key <- ZKProofGenerator.load_public_key_from_pem rsa pem zkp public_key_pem ;;
     ret (true, mk (assoc_set institution_id public_key (institution_keys self))
                   (proof_store self)))
    (fun e =>
       print ("Failed to register institution " ++ institution_id ++ ": " ++ str_exn e) ;;;
       ret (false, self)).

Definition store_proof (self : t) (proof_id : string) (proof : dict) : bool * t :=
  (true, mk (institution_keys self) (assoc_set proof_id proof (proof_store self))).

Definition verify_stored_proof (self : t) (proof_id institution_id : string) : M value :=
  match assoc_get proof_id (proof_store self) with
  | None =>
      verified_at <- time ;;
      ret (VDict [("valid", VBool false);
                  ("reason", VStr "Proof not found");
                  ("verified_at", VFloat verified_at)])
  | Some proof =>
      match assoc_get institution_id (institution_keys self) with
      | None =>
          verified_at <- time ;;
          ret (VDict [("valid", VBool false);
                      ("reason", VStr "Institution not registered");
                      ("verified_at", VFloat verified_at)])
      | Some public_key =>
          zkp <- ZKProofGenerator.init rsa 2048 ;;
          ZKProofGenerator.verify_kyc_proof rsa zkp proof (Some public_key)
      end
  end.

End Manager.

End ZKProofManager.

(* ------------------------------------------------------------------ *)
(** ** utils.py *)

Module Utils.

Definition hash_data (data : value) : string :=
  let json_string := match data with
                     | VDict _ => json_dumps data
                     | _ => str data
                     end in
  SHA256.hexdigest (encode json_string).

Definition validate_kyc_level (level : string) : bool :=
  let valid_levels := ["CIP"; "CDD"; "EDD"] in
  existsb (String.eqb level) valid_levels.

End Utils.

(* ------------------------------------------------------------------ *)
(** ** Vocabulary of the properties *)

Open Scope Z_scope.

(** *** block.py *)

(** The prefix that mining and validation ask of a hash. *)
Definition zero_prefix : string := str_mul "0" Blockchain.difficulty.

Definition meets_difficulty (h : string) : bool := startswith h zero_prefix.

(** The number of ['0'] characters a string begins with. *)
Fixpoint leading_zeros (s : string) : nat :=
  match s with
  | String "0" s' => S (leading_zeros s')
  | _ => O
  end.

(** [first_nonce b k]: counting from the nonce [b] has, [k] is the first
    offset at which the hash meets the difficulty. *)
Definition first_nonce (b : Block.t) (k : nat) : Prop :=
  meets_difficulty (Block.compute_hash (Block.set_nonce b (Block.nonce b + Z.of_nat k))) = true
  /\ forall j, (j < k)%nat ->
       meets_difficulty
         (Block.compute_hash (Block.set_nonce b (Block.nonce b + Z.of_nat j))) = false.

(** The three checks [check_chain_validity] makes on one block, given the
    hash of the block before it. *)
Definition block_ok (prev : string) (b : Block.t) : bool :=
  String.eqb (Block.previous_hash b) prev
  && String.eqb (Block.hash b) (Block.compute_hash b)
  && (Z.eqb (Block.index b) 0 || meets_difficulty (Block.hash b)).

(** The hash the walk carries out of a chain it entered with [prev]. *)
Fixpoint last_hash (prev : string) (chain : list Block.t) : string :=
  match chain with
  | [] => prev
  | b :: rest => last_hash (Block.hash b) rest
  end.

(** The three conditions on a chain, as the specification words them.
    [hash_before prev chain i] is the hash of the block before position
    [i], the virtual [prev] at the head. *)
Definition hash_before (prev : string) (chain : list Block.t) (i : nat) : string :=
  match i with
  | O => prev
  | S j => match nth_error chain j with Some a => Block.hash a | None => prev end
  end.

Definition linked_from (prev : string) (chain : list Block.t) : Prop :=
  forall i b, nth_error chain i = Some b -> Block.previous_hash b = hash_before prev chain i.

Definition hashes_recompute (chain : list Block.t) : Prop :=
  forall b, In b chain -> Block.hash b = Block.compute_hash b.

Definition work_shown (chain : list Block.t) : Prop :=
  forall b, In b chain -> Block.index b <> 0 ->
            startswith (Block.hash b) (str_mul "0" Blockchain.difficulty) = true.

(** The chains the class itself builds: a new one, one with a
    transaction added, one that [mine] was called on. *)
Inductive built : Blockchain.t -> Prop :=
  | built_init fuel w blockchain w' :
      Blockchain.init fuel w = Ok blockchain w' -> built blockchain
  | built_add blockchain transaction :
      built blockchain -> built (Blockchain.add_new_transaction blockchain transaction)
  | built_mine fuel blockchain w result blockchain' w' :
      built blockchain ->
      Blockchain.mine fuel blockchain w = Ok (result, blockchain') w' ->
      built blockchain'.

(** Replacing the payload of the [j]-th transaction of a block, every
    stored hash left as it was. *)
Definition set_payload (tx : Transaction.t) (p : value) : Transaction.t :=
  Transaction.mk (Transaction.sender tx) (Transaction.recipient tx) p
                 (Transaction.timestamp tx) (Transaction.signature tx)
                 (Transaction.tx_hash tx).

Fixpoint alter_nth (txs : list Transaction.t) (j : nat) (p : value) : list Transaction.t :=
  match txs, j with
  | [], _ => []
  | tx :: rest, O => set_payload tx p :: rest
  | tx :: rest, S j' => tx :: alter_nth rest j' p
  end.

Definition alter_payload (b : Block.t) (j : nat) (p : value) : Block.t :=
  Block.mk (Block.index b) (alter_nth (Block.transactions b) j p) (Block.timestamp b)
           (Block.previous_hash b) (Block.nonce b) (Block.hash b).

(** *** Sample data *)

(** The float [m * 2^e]. *)
Definition flt (m e : Z) : pyfloat := binary_normalize prec emax m e false.

(** A world whose clock reads 1700000069.0, then 1700000100.5, then [t]
    for ever, with entropy that is all zero bytes and no file. *)
Definition sample_world (t : pyfloat) : world :=
  mkWorld (fun n => match n with
                    | O => flt 1700000069 0
                    | S O => flt 3400000201 (-1)
                    | _ => t
                    end)
          0 (fun _ => "2023-11-14T22:14:29") (fun _ => x00%byte) 0 [] [].

Definition sample_payload : value :=
  VDict [("kyc_id", VStr "kyc_001"); ("status", VStr "APPROVED")].

(** Scenario A: a new chain, one transaction, one call of [mine]. *)
Definition scenario_A (fuel : nat) : M (option Block.t * Blockchain.t) :=
  blockchain <- Blockchain.init fuel ;;
  tx <- Transaction.init "Bank_A" "Customer_123" sample_payload VNone EmptyString ;;
  Blockchain.mine fuel (Blockchain.add_new_transaction blockchain tx).

(** The block [b] with nonce [k], sealed with the hash it then has. *)
Definition sealed (b : Block.t) (k : nat) : Block.t :=
  let b' := Block.set_nonce b (Z.of_nat k) in
  Block.set_hash b' (Block.compute_hash b').

(** The genesis block, the transaction and the two mined blocks of
    scenario A in [sample_world], with the digests [hashlib] gives. *)
Definition sample_genesis : Block.t :=
  Block.mk 0 [] (VFloat (flt 1700000069 0)) "0" 0
           "00c9bc19f38bab5d215a337b2258357eb63bc1d77041407a0cdc695cf0a58314".

Definition sample_tx : Transaction.t :=
  Transaction.mk "Bank_A" "Customer_123" sample_payload (VFloat (flt 3400000201 (-1)))
                 EmptyString
                 "b5cf05012d697707905379b116c93527ed3466701120d9a0c918df3e5d2add67".

Definition sample_block (t : pyfloat) (nonce : Z) (hash : string) : Block.t :=
  Block.mk 1 [sample_tx] (VFloat t) (Block.hash sample_genesis) nonce hash.

Definition sample_block_232 : Block.t :=
  sample_block (flt 1700000232 0) 0
               "00a86398db8cc55a665d88a1d0338ae9ab70f7fee61ae294bf4a5d685db14ee5".

Definition sample_block_201 : Block.t :=
  sample_block (flt 1700000201 0) 1
               "000eedb21d391a804ccdd938cbbb55d3c940e883372327967b9d920746a81953".

(** The chain of scenario A before [mine], and the world it is mined in. *)
Definition sample_pending : Blockchain.t := Blockchain.mk [sample_tx] [sample_genesis] None.

Definition world_at (t : pyfloat) : world :=
  mkWorld (fun _ => t) 0 (fun _ => "2023-11-14T22:14:29") (fun _ => x00%byte) 0 [] [].

(** Scenario A's chain after [mine] at 1700000232.0, and a payload to
    tamper with. *)
Definition sample_mined_chain : list Block.t := [sample_genesis; sample_block_232].

Definition tampered_payload : value :=
  VDict [("kyc_id", VStr "kyc_001"); ("status", VStr "REJECTED")].

(** *** storage.py *)

(** What the round trip is asked to preserve of a block. *)
Definition block_view (b : Block.t) : Z * Z * string * string * list string :=
  (Block.index b, Block.nonce b, Block.previous_hash b, Block.hash b,
   map Transaction.tx_hash (Block.transactions b)).

(** The metadata and the document [save_blockchain] writes, given what
    the host's clock rendered for [saved_at]. *)
Definition metadata_of (blockchain : Blockchain.t) (saved_at : string) : value :=
  VDict [("total_blocks", VInt (Z.of_nat (List.length (Blockchain.chain blockchain))));
         ("difficulty", Blockchain.get_difficulty blockchain);
         ("saved_at", VStr saved_at);
         ("last_block_hash", match rev (Blockchain.chain blockchain) with
                             | [] => VNone
                             | last :: _ => VStr (Block.hash last)
                             end)].

Definition snapshot_of (blockchain : Blockchain.t) (saved_at : string) : value :=
  VDict [("chain", VList (map BlockchainStorage.block_data_of (Blockchain.chain blockchain)));
         ("metadata", metadata_of blockchain saved_at)].

(** The world [save_blockchain] leaves behind. *)
Definition saved_world (self : BlockchainStorage.t) (blockchain : Blockchain.t) (w : world)
  : world :=
  let saved_at := isoformat w (clock w (ticks w)) in
  mkWorld (clock w) (S (ticks w)) (isoformat w) (entropy w) (drawn w)
          (dict_set (BlockchainStorage.metadata_file self) (metadata_of blockchain saved_at)
             (dict_set (BlockchainStorage.chain_file self) (snapshot_of blockchain saved_at)
                (files w)))
          (stdout w ++ [("Blockchain saved successfully to "
                         ++ BlockchainStorage.chain_file self)%string]).

(** [v[k]] and the elements of [for x in v], as pure lookups. *)
Definition item (v : value) (k : string) : option value :=
  match v with
  | VDict d => dict_get k d
  | _ => None
  end.

Definition elements (v : value) : option (list value) :=
  match v with
  | VList l => Some l
  | VDict d => Some (map (fun kv => VStr (fst kv)) d)
  | VStr s => Some (map (fun c => VStr (String c EmptyString)) (list_ascii_of_string s))
  | _ => None
  end.

(** A transaction, and a block, rebuilt from their entries in a snapshot:
    every field but the timestamp is the stored one. *)
Definition tx_loaded_from (tx_data : value) (tx : Transaction.t) : Prop :=
  item tx_data "sender" = Some (VStr (Transaction.sender tx))
  /\ item tx_data "recipient" = Some (VStr (Transaction.recipient tx))
  /\ item tx_data "payload" = Some (Transaction.payload tx)
  /\ item tx_data "signature" = Some (VStr (Transaction.signature tx))
  /\ item tx_data "tx_hash" = Some (VStr (Transaction.tx_hash tx)).

Definition block_loaded_from (block_data : value) (b : Block.t) : Prop :=
  item block_data "index" = Some (VInt (Block.index b))
  /\ item block_data "previous_hash" = Some (VStr (Block.previous_hash b))
  /\ item block_data "nonce" = Some (VInt (Block.nonce b))
  /\ item block_data "hash" = Some (VStr (Block.hash b))
  /\ exists txs_value tx_list,
       item block_data "transactions" = Some txs_value
       /\ elements txs_value = Some tx_list
       /\ Forall2 tx_loaded_from tx_list (Block.transactions b).

(** The difficulty [load_blockchain] reads out of a document. *)
Definition stored_difficulty (top : dict) : option value :=
  match dict_get "metadata" top with
  | Some (VDict metadata) =>
      Some (match dict_get "difficulty" metadata with Some x => x | None => VInt 2 end)
  | Some _ => None
  | None => Some (VInt 2)
  end.

(** The three lines [load_blockchain] prints once a chain is rebuilt. *)
Definition load_report (self : BlockchainStorage.t) (chain : list Block.t) (valid : bool)
  : list string :=
  [("Blockchain loaded successfully from " ++ BlockchainStorage.chain_file self)%string;
   ("Total blocks: " ++ str_of_int (Z.of_nat (List.length chain)))%string;
   if valid then "Loaded blockchain is valid."
   else "WARNING: Loaded blockchain failed validation!"].

(** A snapshot that was edited by hand: the status in the payload of the
    transaction of scenario A is rewritten, the stored [tx_hash] is left
    as it was, and the block is mined again (nonce 92). *)
Definition forged_tx : Transaction.t := set_payload sample_tx tampered_payload.

Definition forged_block : Block.t :=
  Block.mk 1 [forged_tx] (VFloat (flt 1700000232 0)) (Block.hash sample_genesis) 92
           "001bfd0295704a76b3c0b14f0438008b3f074fea80c6525aaba41d5c60e20535".

Definition forged_snapshot (difficulty : value) : value :=
  VDict [("chain", VList [BlockchainStorage.block_data_of sample_genesis;
                          BlockchainStorage.block_data_of forged_block]);
         ("metadata", VDict [("total_blocks", VInt 2);
                             ("difficulty", difficulty);
                             ("saved_at", VStr "2023-11-14T22:17:12");
                             ("last_block_hash", VStr (Block.hash forged_block))])].

Definition sample_storage : BlockchainStorage.t := BlockchainStorage.init "blockchain_data".

Definition forged_world (difficulty : value) : world :=
  mkWorld (fun _ => flt 1700000300 0) 0 (fun _ => "2023-11-14T22:18:20")
          (fun _ => x00%byte) 0
          [(BlockchainStorage.chain_file sample_storage, forged_snapshot difficulty)] [].

(** A snapshot of the genesis block alone whose timestamp was moved by a
    second, the stored hash left as it was; the chain it loads as, with
    the transaction of scenario A added. *)
Definition edited_genesis : Block.t :=
  Block.mk 0 [] (VFloat (flt 1700000070 0)) "0" 0 (Block.hash sample_genesis).

Definition edited_world : world :=
  mkWorld (fun _ => flt 1700000300 0) 0 (fun _ => "2023-11-14T22:18:20")
          (fun _ => x00%byte) 0
          [(BlockchainStorage.chain_file sample_storage,
            VDict [("chain", VList [BlockchainStorage.block_data_of edited_genesis]);
                   ("metadata", VDict [("total_blocks", VInt 1);
                                       ("difficulty", VInt 2);
                                       ("saved_at", VStr "2023-11-14T22:17:12");
                                       ("last_block_hash",
                                        VStr (Block.hash edited_genesis))])])] [].

Definition edited_pending : Blockchain.t :=
  Blockchain.mk [sample_tx] [edited_genesis] (Some (VInt 2)).

(** *** zk_proofs.py *)

(** What is asked of the signature scheme: signing returns, with a
    signature that is not empty and that the public key of the signing
    key accepts for the signed data. *)
Definition pss_correct (rsa : pss_scheme) : Prop :=
  forall sk data w, exists signature w',
    sign rsa sk data w = Ok signature w'
    /\ signature <> []
    /\ verify rsa (public_key_of rsa sk) signature data = true.

(** A generator whose public key is the one of its private key, as
    [ZKProofGenerator.__init__] builds it. *)
Definition key_pair_ok {rsa} (self : ZKProofGenerator.t rsa) : Prop :=
  ZKProofGenerator.public_key rsa self
  = public_key_of rsa (ZKProofGenerator.private_key rsa self).

(** The fixed ordinal mapping of the specification: CIP 1, CDD 2, EDD 3. *)
Definition level_rank (level : string) : option Z :=
  if String.eqb level "CIP" then Some 1
  else if String.eqb level "CDD" then Some 2
  else if String.eqb level "EDD" then Some 3
  else None.

(** What [generate_kyc_proof] reads off the world [w] it starts in: the
    timestamp of the claims, the challenge, the proof id (given the whole
    seconds of the second clock reading) and [generated_at]. *)
Definition drawn_bytes (w : world) (from count : nat) : list byte :=
  map (fun i => entropy w (from + i)%nat) (seq 0 count).

Definition claims_timestamp (w : world) : pyfloat := clock w (ticks w).

Definition challenge_of (w : world) : string :=
  SHA256.hexdigest (drawn_bytes w (drawn w) 32).

Definition proof_id_of (w : world) (seconds : Z) : string :=
  substring 0 16
    (SHA256.hexdigest
       (encode (str_of_int seconds ++ hex (drawn_bytes w (drawn w + 32) 16))%string)).

Definition generated_at_of (w : world) : pyfloat := clock w (S (S (ticks w))).

Definition public_claims_of (level issuer : string) (w : world) : value :=
  VDict [("verification_level", VStr level);
         ("issuing_institution", VStr issuer);
         ("verification_completed", VBool true);
         ("meets_compliance", VBool true);
         ("timestamp", VFloat (claims_timestamp w))].

(** The SHA-256 commitment to the customer data. *)
Definition commitment_of (customer_data : value) (level issuer : string) (w : world)
  : string :=
  SHA256.hexdigest
    (encode (json_dumps
               (VDict [("customer_pii", customer_data);
                       ("verification_details",
                        VDict [("level", VStr level);
                               ("issuer", VStr issuer);
                               ("timestamp", VFloat (claims_timestamp w))])]))).

(** The proof, with [signature] under ['proof_signature']. *)
Definition proof_of (customer_data : value) (level issuer : string) (w : world)
    (seconds : Z) (signature : value) : dict :=
  [("proof_type", VStr "kyc_verification_proof");
   ("commitment_hash", VStr (commitment_of customer_data level issuer w));
   ("challenge", VStr (challenge_of w));
   ("public_claims", public_claims_of level issuer w);
   ("proof_signature", signature);
   ("proof_id", VStr (proof_id_of w seconds));
   ("generated_at", VFloat (generated_at_of w))].

(** The world in which [generate_kyc_proof] signs. *)
Definition signing_world (w : world) : world :=
  mkWorld (clock w) (S (S (S (ticks w)))) (isoformat w) (entropy w) (drawn w + 32 + 16)%nat
          (files w) (stdout w).

(** Every key of a value, and every value inside it, at any depth. *)
Fixpoint all_keys (v : value) : list string :=
  match v with
  | VList l => flat_map all_keys l
  | VDict d => flat_map (fun kv => fst kv :: all_keys (snd kv)) d
  | _ => []
  end.

Fixpoint subvalues (v : value) : list value :=
  v :: match v with
       | VList l => flat_map subvalues l
       | VDict d => flat_map (fun kv => subvalues (snd kv)) d
       | _ => []
       end.

(** A stand-in scheme for the examples: the signature of [data] is a byte
    1 followed by [data] itself, and every key is [tt]. *)
Definition bytes_eqb (a b : list byte) : bool :=
  if list_eq_dec Byte.byte_eq_dec a b then true else false.

Definition toy_scheme : pss_scheme :=
  {| private_key_t := unit;
     public_key_t := unit;
     generate_private_key := fun _ => ret tt;
     public_key_of := fun _ => tt;
     sign := fun _ data => ret (x01%byte :: data);
     verify := fun _ signature data => bytes_eqb signature (x01%byte :: data) |}.

Definition toy_generator : ZKProofGenerator.t toy_scheme :=
  ZKProofGenerator.mk toy_scheme 2048 tt tt.

Definition john_doe : value := VDict [("name", VStr "John Doe")].

(** What [verify_kyc_proof] reads for the public claims of a proof. *)
Definition public_claims_or_empty (proof : dict) : value :=
  match dict_get "public_claims" proof with Some v => v | None => VDict [] end.

(** The value [verify_kyc_proof] subtracts from the clock. *)
Definition generated_at_or_0 (proof : dict) : value :=
  match dict_get "generated_at" proof with Some v => v | None => VInt 0 end.

(** The proof the stand-in generator issues for [customer_data] at
    [level] in [sample_world], and the world it leaves. *)
Definition sample_proof_for (customer_data : value) (level : string) : dict :=
  let w := sample_world (flt 1700000232 0) in
  let unsigned := proof_of customer_data level "Bank_A" w 1700000100 VNone in
  proof_of customer_data level "Bank_A" w 1700000100
           (VStr (hex (x01%byte
                       :: encode (json_dumps (VDict (dict_pop "proof_signature" unsigned)))))).

Definition sample_proof (level : string) : dict := sample_proof_for john_doe level.

Definition sample_proof_world : world := signing_world (sample_world (flt 1700000232 0)).

(** Customer data that happens to use a name and a value the proof uses. *)
Definition coinciding_data : dict := [("verification_level", VStr "CDD")].

(** A proof whose id was rewritten after signing. *)
Definition tampered_proof : dict := dict_set "proof_id" (VStr "0000000000000000") (sample_proof "CDD").

(** A computation that reads nothing and writes nothing: it returns or
    raises, in the world it was given. *)
Definition pure_like {A} (m : M A) : Prop :=
  forall w, (exists a, m w = Ok a w) \/ (exists e, m w = Raise e w).

(** *** More of block.py *)

(** The queue after the transactions [txs] were added to it one by one. *)
Definition add_all (self : Blockchain.t) (txs : list Transaction.t) : Blockchain.t :=
  fold_left Blockchain.add_new_transaction txs self.

(** Two blocks that differ at most by their nonce. *)
Definition same_but_nonce (a b : Block.t) : Prop :=
  Block.index a = Block.index b
  /\ Block.transactions a = Block.transactions b
  /\ Block.timestamp a = Block.timestamp b
  /\ Block.previous_hash a = Block.previous_hash b
  /\ Block.hash a = Block.hash b.

(** What [Blockchain()] and [mine()] keep of a chain: the block at
    position [i] has index [i], the first block has no transaction and
    every later one has at least one. *)
Fixpoint numbered_from (i : Z) (chain : list Block.t) : Prop :=
  match chain with
  | [] => True
  | b :: rest =>
      Block.index b = i
      /\ (i = 0 -> Block.transactions b = [])
      /\ (i <> 0 -> Block.transactions b <> [])
      /\ numbered_from (i + 1) rest
  end.

(** *** More of storage.py *)

(** A block that the constructors rebuild as it is: neither its
    timestamp nor one of its transactions' is falsy. *)
Definition stamped (b : Block.t) : bool :=
  truthy (Block.timestamp b)
  && forallb (fun tx => truthy (Transaction.timestamp tx)) (Block.transactions b).

(** The world after [lines] were printed. *)
Definition printed (w : world) (lines : list string) : world :=
  mkWorld (clock w) (ticks w) (isoformat w) (entropy w) (drawn w) (files w)
          (stdout w ++ lines).

(** The difficulty [load_blockchain] takes from a metadata object. *)
Definition difficulty_in (metadata : dict) : value :=
  match dict_get "difficulty" metadata with Some x => x | None => VInt 2 end.

(** A document in the layout [save_blockchain] and [create_backup] write. *)
Definition document_of (chain : list Block.t) (metadata : dict) : value :=
  VDict [("chain", VList (map BlockchainStorage.block_data_of chain));
         ("metadata", VDict metadata)].

(** The metadata of a backup, given what the clock rendered for
    [backup_created_at]. *)
Definition backup_metadata_of (blockchain : Blockchain.t) (created_at : string) : dict :=
  [("total_blocks", VInt (Z.of_nat (List.length (Blockchain.chain blockchain))));
   ("difficulty", Blockchain.get_difficulty blockchain);
   ("backup_created_at", VStr created_at);
   ("last_block_hash", match rev (Blockchain.chain blockchain) with
                       | [] => VNone
                       | last :: _ => VStr (Block.hash last)
                       end)].

(** A name that names a file of its own inside a directory: not empty,
    without ["/"], and neither ["."] nor [".."]. *)
Definition plain_name (name : string) : bool :=
  negb (String.eqb name EmptyString)
  && String.eqb (BlockchainStorage.first_component name) name
  && negb (String.eqb name ".") && negb (String.eqb name "..").

(** A computation that may read the clock but writes no file, prints
    nothing and does not run out of fuel. *)
Definition quiet {A} (m : M A) : Prop :=
  forall w, match m w with
            | Ok _ w' => files w' = files w /\ stdout w' = stdout w
            | Raise _ w' => files w' = files w /\ stdout w' = stdout w
            | OutOfFuel => False
            end.

(** A world whose one file, at [path], holds [doc]. *)
Definition stored (path : string) (doc : value) : world :=
  mkWorld (fun _ => flt 1700000300 0) 0 (fun _ => "2023-11-14T22:18:20")
          (fun _ => x00%byte) 0 [(path, doc)] [].

(** The world [create_backup] leaves behind when it writes under
    [backup_name]. *)
Definition backed_up_world (self : BlockchainStorage.t) (blockchain : Blockchain.t)
    (backup_name : string) (w : world) : world :=
  let created_at := isoformat w (clock w (ticks w)) in
  let backup_path := BlockchainStorage.path_join (BlockchainStorage.backup_dir self)
                                                 backup_name in
  mkWorld (clock w) (S (ticks w)) (isoformat w) (entropy w) (drawn w)
          (dict_set backup_path
                    (document_of (Blockchain.chain blockchain)
                                 (backup_metadata_of blockchain created_at))
                    (files w))
          (stdout w ++ [("Backup created: " ++ backup_path)%string]).

(** The name [create_backup] makes up when it is given none. *)
Definition default_backup_name (w : world) : string :=
  let iso := isoformat w (clock w (ticks w)) in
  ("blockchain_backup_"
   ++ String.concat EmptyString
        [substring 0 4 iso; substring 5 2 iso; substring 8 2 iso; "_";
         substring 11 2 iso; substring 14 2 iso; substring 17 2 iso]
   ++ ".json")%string.

(** Strings in descending order, none twice. *)
Definition descending (l : list string) : Prop :=
  StronglySorted (fun a b => String.ltb b a = true) l.

(** Whether a file of the world is kept below [path], which makes [path]
    a directory of the host and not a file. *)
Definition has_files_below (path : string) (w : world) : bool :=
  existsb (fun kv => startswith (fst kv) (path ++ "/")) (files w).

(** *** More of zk_proofs.py *)

(** The short answer of [verify_kyc_proof] and of [verify_stored_proof]
    when they give up. *)
Definition rejection (reason : string) (verified_at : pyfloat) : dict :=
  [("valid", VBool false); ("reason", VStr reason); ("verified_at", VFloat verified_at)].

(** The reasons [verify_kyc_proof] lists, one for each check that failed. *)
Definition failure_reasons_of (signature_valid structure_valid not_expired : bool)
  : list value :=
  (if signature_valid then [] else [VStr "Invalid cryptographic signature"])
  ++ (if structure_valid then [] else [VStr "Invalid proof structure"])
  ++ (if not_expired then [] else [VStr "Proof expired"]).

(** The composite answer of [verify_kyc_proof]. *)
Definition verification_of (signature_valid structure_valid : bool) (proof_age : pyfloat)
    (public_claims verification_level issuing_institution : value) (verified_at : pyfloat)
  : dict :=
  let not_expired := float_ltb proof_age ZKProofGenerator.day in
  let overall_valid := signature_valid && structure_valid && not_expired in
  [("valid", VBool overall_valid);
   ("signature_verified", VBool signature_valid);
   ("structure_valid", VBool structure_valid);
   ("not_expired", VBool not_expired);
   ("proof_age_seconds", VFloat proof_age);
   ("public_claims", public_claims);
   ("verification_level", verification_level);
   ("issuing_institution", issuing_institution);
   ("privacy_preserved", VBool true);
   ("verified_at", VFloat verified_at)]
  ++ (if overall_valid then []
      else [("failure_reasons",
             VList (failure_reasons_of signature_valid structure_valid not_expired))]).

(** What [verify_kyc_proof] takes for the signature of a proof. *)
Definition signature_or_none (proof : dict) : value :=
  match dict_get "proof_signature" proof with Some v => v | None => VNone end.

(** The rank [generate_cross_institution_proof] gives a level, [default]
    for a level that is not in its table. *)
Definition rank_or (default : Z) (level : string) : Z :=
  match level_rank level with Some r => r | None => default end.

(** The sharing proof before it is signed. *)
Definition sharing_proof_of (original_proof : dict) (requesting_institution : string)
    (original_level original_issuer : value) (sharing_timestamp : pyfloat) : dict :=
  [("proof_type", VStr "cross_institution_sharing");
   ("original_proof_id", match dict_get "proof_id" original_proof with
                         | Some v => v
                         | None => VNone
                         end);
   ("sharing_approved", VBool true);
   ("requesting_institution", VStr requesting_institution);
   ("verification_level_confirmed", original_level);
   ("original_issuer", original_issuer);
   ("shared_claims",
    VDict [("kyc_completed", VBool true);
           ("verification_level", original_level);
           ("compliance_status", VStr "VERIFIED");
           ("issuing_institution", original_issuer)]);
   ("privacy_preserved", VBool true);
   ("customer_data_protected", VBool true);
   ("sharing_timestamp", VFloat sharing_timestamp)].

(** The characters of a digest. *)
Definition hex_characters : list ascii := list_ascii_of_string "0123456789abcdef".

Definition lowercase_hex (s : string) : Prop :=
  Forall (fun c => In c hex_characters) (list_ascii_of_string s).

(** What is asked of the PEM codec: the bytes of a key decode as UTF-8,
    and the text they give loads back as the key. *)
Definition pem_correct {rsa} (pem : pem_codec rsa) : Prop :=
  forall pk, exists text,
    decode (public_bytes pem pk) = Some text
    /\ load_pem_public_key pem (encode text) = inr pk.

(** What is asked of key generation: it returns, and leaves the clock
    alone. *)
Definition keygen_ok (rsa : pss_scheme) : Prop :=
  forall key_size w, exists sk w',
    generate_private_key rsa key_size w = Ok sk w'
    /\ clock w' = clock w /\ ticks w' = ticks w.

(** A stand-in codec for the stand-in scheme: the one key is written
    [KEY]. *)
Definition toy_codec : pem_codec toy_scheme :=
  Build_pem_codec toy_scheme
    (fun _ => encode "KEY")
    (fun data => if bytes_eqb data (encode "KEY") then inr tt else inl ValueError).

(** *** JSON texts and utils.py *)

(** Items in ascending order of their keys, no key twice. *)
Definition ascending_keys {A} (l : list (string * A)) : Prop :=
  StronglySorted (fun a b => String.ltb (fst a) (fst b) = true) l.

(* ------------------------------------------------------------------ *)
(** ** Running the monad *)

Lemma bind_ok {A B} (m : M A) (k : A -> M B) w a w' :
  m w = Ok a w' -> bind m k w = k a w'.
Proof. intros E. unfold bind. now rewrite E. Qed.

Lemma try_except_ok {A} (m : M A) (h : exn -> M A) w a w' :
  m w = Ok a w' -> try_except m h w = Ok a w'.
Proof. intros E. unfold try_except. now rewrite E. Qed.

Lemma bind_inv {A B} (m : M A) (k : A -> M B) w b w' :
  bind m k w = Ok b w' -> exists a w1, m w = Ok a w1 /\ k a w1 = Ok b w'.
Proof. unfold bind. destruct (m w) as [a w1| |]; [eauto|discriminate|discriminate]. Qed.

Lemma ret_inv {A} (a b : A) w w' : ret a w = Ok b w' -> a = b /\ w = w'.
Proof. unfold ret. intros H. now injection H. Qed.

Lemma try_except_some {A} (m : M (option A)) (h : exn -> M (option A)) w a w' :
  (forall e w0 r w1, h e w0 = Ok r w1 -> r = None) ->
  try_except m h w = Ok (Some a) w' -> m w = Ok (Some a) w'.
Proof.
  intros Hh. unfold try_except. destruct (m w) as [r w1|e w1|]; [auto| |discriminate].
  intros H. apply Hh in H. discriminate H.
Qed.

(* ------------------------------------------------------------------ *)
(** ** The runtime on known values *)

(** The digests and the float and JSON texts below are the ones CPython
    prints for the same inputs. *)
Example sha256_of_abc :
  SHA256.hexdigest (encode "abc")
  = "ba7816bf8f01cfea414140de5dae2223b00361a396177a9cb410ff61f20015ad".
Proof. vm_compute. reflexivity. Qed.

Example sha256_of_nothing :
  SHA256.hexdigest []
  = "e3b0c44298fc1c149afbf4c8996fb92427ae41e4649b934ca495991b7852b855".
Proof. vm_compute. reflexivity. Qed.

Example float_repr_samples :
  float_repr (flt 3400000201 (-1)) = "1700000100.5"
  /\ float_repr (flt 3602879701896397 (-55)) = "0.1"
  /\ float_repr (flt 10000000000000000000000 0) = "1e+22"
  /\ float_repr (flt 1 (-1074)) = "5e-324".
Proof. vm_compute. repeat split. Qed.

Example json_dumps_sample_digest :
  SHA256.hexdigest
    (encode (json_dumps (VDict [("b", VList [VInt 1; VBool true; VNone;
                                             VFloat (flt 3 (-1))]);
                                ("a", VStr (String (ascii_of_nat 233) EmptyString))])))
  = "b79ab438f975ab13ed80c748bbe88d7924c1ff2b3416148dbf8f6ab539800f12".
Proof. vm_compute. reflexivity. Qed.

Example sample_tx_hash_recomputes :
  Transaction.compute_hash sample_tx = Transaction.tx_hash sample_tx.
Proof. vm_compute. reflexivity. Qed.

(* ------------------------------------------------------------------ *)
(** ** Properties of block.py *)

Lemma zero_prefix_is_00 : zero_prefix = "00".
Proof. reflexivity. Qed.

(** The hash of a block looks at neither its [hash] field nor, once the
    nonce is overwritten, its former nonce. *)
Lemma compute_hash_set_hash b h :
  Block.compute_hash (Block.set_hash b h) = Block.compute_hash b.
Proof. reflexivity. Qed.

Lemma compute_hash_set_nonce_set_hash b h n :
  Block.compute_hash (Block.set_nonce (Block.set_hash b h) n)
  = Block.compute_hash (Block.set_nonce b n).
Proof. reflexivity. Qed.

Lemma set_nonce_same b : Block.set_nonce b (Block.nonce b) = b.
Proof. now destruct b. Qed.

Lemma set_hash_same b : Block.set_hash b (Block.hash b) = b.
Proof. now destruct b. Qed.

#[global] Opaque Block.compute_hash Transaction.compute_hash SHA256.hexdigest json_dumps.

Lemma last_block_snoc self old last w :
  Blockchain.chain self = old ++ [last] -> Blockchain.last_block self w = Ok last w.
Proof.
  intros E. unfold Blockchain.last_block. rewrite E, rev_app_distr. reflexivity.
Qed.

Lemma last_block_nil self w :
  Blockchain.chain self = [] -> Blockchain.last_block self w = Raise IndexError w.
Proof. intros E. unfold Blockchain.last_block. now rewrite E. Qed.

(** *** The nonce search *)

Lemma pow_loop_unfold fuel b :
  Blockchain.pow_loop fuel b =
  if meets_difficulty (Block.compute_hash b) then ret (b, Block.compute_hash b)
  else match fuel with
       | O => fun _ => OutOfFuel
       | S fuel' => Blockchain.pow_loop fuel' (Block.set_nonce b (Block.nonce b + 1))
       end.
Proof. destruct fuel; reflexivity. Qed.

Lemma first_nonce_shift b k :
  meets_difficulty (Block.compute_hash b) = false ->
  first_nonce (Block.set_nonce b (Block.nonce b + 1)) k -> first_nonce b (S k).
Proof.
  intros Hb [Hk Hlt]. cbn [Block.nonce Block.set_nonce] in Hk, Hlt.
  split.
  - cbn [Block.set_nonce]. rewrite Nat2Z.inj_succ.
    replace (Block.nonce b + Z.succ (Z.of_nat k)) with (Block.nonce b + 1 + Z.of_nat k) by lia.
    exact Hk.
  - intros [|j] Hj.
    + rewrite Z.add_0_r, set_nonce_same. exact Hb.
    + rewrite Nat2Z.inj_succ.
      replace (Block.nonce b + Z.succ (Z.of_nat j)) with (Block.nonce b + 1 + Z.of_nat j) by lia.
      apply (Hlt j). lia.
Qed.

Lemma first_nonce_unshift b k :
  meets_difficulty (Block.compute_hash b) = false ->
  first_nonce b (S k) -> first_nonce (Block.set_nonce b (Block.nonce b + 1)) k.
Proof.
  intros Hb [Hk Hlt]. split; cbn [Block.nonce Block.set_nonce].
  - rewrite Nat2Z.inj_succ in Hk.
    replace (Block.nonce b + 1 + Z.of_nat k) with (Block.nonce b + Z.succ (Z.of_nat k)) by lia.
    exact Hk.
  - intros j Hj.
    replace (Block.nonce b + 1 + Z.of_nat j) with (Block.nonce b + Z.of_nat (S j)) by lia.
    apply Hlt. lia.
Qed.

(** Two first nonces of one block are the same. *)
Lemma first_nonce_unique b k k' : first_nonce b k -> first_nonce b k' -> k = k'.
Proof.
  intros [Hk Hlt] [Hk' Hlt'].
  destruct (Nat.lt_trichotomy k k') as [H|[H|H]]; [|exact H|].
  - specialize (Hlt' k H). congruence.
  - specialize (Hlt k' H). congruence.
Qed.

(** Enough fuel finds the first nonce. *)
Lemma pow_loop_finds fuel : forall b k w,
  first_nonce b k -> (k <= fuel)%nat ->
  Blockchain.pow_loop fuel b w =
  Ok (Block.set_nonce b (Block.nonce b + Z.of_nat k),
      Block.compute_hash (Block.set_nonce b (Block.nonce b + Z.of_nat k))) w.
Proof.
  induction fuel as [|fuel IH]; intros b k w Hk Hle; rewrite pow_loop_unfold.
  - assert (k = 0)%nat as -> by lia. destruct Hk as [Hk _].
    cbn [Z.of_nat] in *. rewrite Z.add_0_r, set_nonce_same in *. now rewrite Hk.
  - destruct k as [|k].
    + destruct Hk as [Hk _].
      cbn [Z.of_nat] in *. rewrite Z.add_0_r, set_nonce_same in *. now rewrite Hk.
    + assert (Hb : meets_difficulty (Block.compute_hash b) = false).
      { destruct Hk as [_ Hlt]. specialize (Hlt 0%nat ltac:(lia)).
        cbn [Z.of_nat] in Hlt. now rewrite Z.add_0_r, set_nonce_same in Hlt. }
      rewrite Hb. rewrite (IH _ k w (first_nonce_unshift b k Hb Hk) ltac:(lia)).
      cbn [Block.nonce Block.set_nonce].
      replace (Block.nonce b + 1 + Z.of_nat k) with (Block.nonce b + Z.of_nat (S k)) by lia.
      reflexivity.
Qed.

(** What the search returns is the first nonce, and the world is untouched. *)
Lemma pow_loop_returns fuel : forall b b' h w w',
  Blockchain.pow_loop fuel b w = Ok (b', h) w' ->
  w' = w /\ exists k, (k <= fuel)%nat /\ first_nonce b k
    /\ b' = Block.set_nonce b (Block.nonce b + Z.of_nat k)
    /\ h = Block.compute_hash b'.
Proof.
  induction fuel as [|fuel IH]; intros b b' h w w'; rewrite pow_loop_unfold;
    destruct (meets_difficulty (Block.compute_hash b)) eqn:Hb; intros H.
  1,3: injection H as <- <- <-; split; [reflexivity|]; exists 0%nat;
       cbn [Z.of_nat]; rewrite Z.add_0_r, set_nonce_same;
       (split; [lia|]); (split; [|split; reflexivity]);
       (split; [rewrite Z.add_0_r, set_nonce_same; exact Hb | intros j Hj; lia]).
  - discriminate H.
  - apply IH in H as [-> (k & Hle & Hk & -> & ->)]. split; [reflexivity|].
    exists (S k). split; [lia|]. split; [now apply first_nonce_shift|].
    cbn [Block.nonce Block.set_nonce].
    replace (Block.nonce b + 1 + Z.of_nat k) with (Block.nonce b + Z.of_nat (S k)) by lia.
    split; reflexivity.
Qed.

(** *** The chain walk *)

Lemma check_chain_from_cons prev b rest :
  Blockchain.check_chain_from prev (b :: rest) =
  block_ok prev b && Blockchain.check_chain_from (Block.hash b) rest.
Proof.
  unfold block_ok, meets_difficulty, zero_prefix. cbn [Blockchain.check_chain_from].
  destruct (String.eqb (Block.previous_hash b) prev); [|reflexivity].
  destruct (String.eqb (Block.hash b) (Block.compute_hash b)); [|reflexivity].
  destruct (Z.eqb (Block.index b) 0); [reflexivity|].
  destruct (startswith (Block.hash b) (str_mul "0" Blockchain.difficulty)); reflexivity.
Qed.

Lemma check_chain_from_app pre : forall prev post,
  Blockchain.check_chain_from prev (pre ++ post) =
  Blockchain.check_chain_from prev pre && Blockchain.check_chain_from (last_hash prev pre) post.
Proof.
  induction pre as [|b pre IH]; intros prev post.
  - reflexivity.
  - rewrite <- app_comm_cons, !check_chain_from_cons, IH.
    cbn [last_hash]. now rewrite andb_assoc.
Qed.

Lemma last_hash_snoc old last prev :
  last_hash prev (old ++ [last]) = Block.hash last.
Proof. revert prev. induction old as [|b old IH]; intros prev; [reflexivity|apply IH]. Qed.

Lemma block_ok_true prev b :
  block_ok prev b = true <->
  Block.previous_hash b = prev
  /\ Block.hash b = Block.compute_hash b
  /\ (Block.index b <> 0 -> meets_difficulty (Block.hash b) = true).
Proof.
  unfold block_ok. rewrite !andb_true_iff, orb_true_iff, !String.eqb_eq, Z.eqb_eq.
  split.
  - intros [[H1 H2] H3]. repeat split; try assumption. intros Hi. now destruct H3.
  - intros (H1 & H2 & H3). repeat split; try assumption.
    destruct (Z.eq_dec (Block.index b) 0); [now left|right; auto].
Qed.

Lemma hash_before_succ prev b rest i c :
  nth_error rest (S i) = Some c ->
  hash_before prev (b :: rest) (S (S i)) = hash_before (Block.hash b) rest (S i).
Proof.
  intros Hc. cbn [hash_before nth_error].
  destruct (nth_error rest i) eqn:E; [reflexivity|].
  apply nth_error_None in E.
  assert (nth_error rest (S i) = None) as E' by (apply nth_error_None; lia).
  congruence.
Qed.

Lemma linked_from_cons prev b rest :
  linked_from prev (b :: rest) <->
  Block.previous_hash b = prev /\ linked_from (Block.hash b) rest.
Proof.
  unfold linked_from. split.
  - intros H. split; [exact (H 0%nat b eq_refl)|].
    intros i c Hc. specialize (H (S i) c Hc). destruct i; [exact H|].
    rewrite H. now apply hash_before_succ with c.
  - intros [H0 H] [|i] c Hc.
    + injection Hc as <-. exact H0.
    + specialize (H i c Hc). destruct i; [exact H|].
      rewrite H. symmetry. now apply hash_before_succ with c.
Qed.

Lemma check_chain_from_true chain : forall prev,
  Blockchain.check_chain_from prev chain = true <->
  linked_from prev chain /\ hashes_recompute chain /\ work_shown chain.
Proof.
  induction chain as [|b rest IH]; intros prev.
  - split; [|reflexivity]. intros _. repeat split.
    + intros [|i] c Hc; discriminate Hc.
    + intros c [].
    + intros c [].
  - rewrite check_chain_from_cons, andb_true_iff, block_ok_true, IH, linked_from_cons.
    unfold hashes_recompute, work_shown, meets_difficulty, zero_prefix. split.
    + intros [(H1 & H2 & H3) (H4 & H5 & H6)]. repeat split; try assumption.
      * intros c [<-|Hc]; auto.
      * intros c [<-|Hc]; auto.
    + intros ((H1 & H4) & H5 & H6). repeat split; try assumption.
      * apply H5. now left.
      * apply H6. now left.
      * intros c Hc. apply H5. now right.
      * intros c Hc. apply H6. now right.
Qed.

(** *** Constructors and [add_block] *)

Lemma time_eq w : time w = Ok (clock w (ticks w)) (tick w).
Proof. reflexivity. Qed.

Lemma Block_init_eq i txs ts prev n w :
  Block.init i txs ts prev n w =
  let ts' := if truthy ts then ts else VFloat (clock w (ticks w)) in
  let b := Block.mk i txs ts' prev n EmptyString in
  Ok (Block.set_hash b (Block.compute_hash b)) (if truthy ts then w else tick w).
Proof. unfold Block.init, bind. destruct (truthy ts); reflexivity. Qed.

Lemma Block_init_fields i txs ts prev n w b w' :
  Block.init i txs ts prev n w = Ok b w' ->
  Block.index b = i /\ Block.transactions b = txs /\ Block.previous_hash b = prev
  /\ Block.nonce b = n /\ Block.hash b = Block.compute_hash b.
Proof.
  rewrite Block_init_eq. cbv zeta. intros H. injection H as <- _. repeat split.
Qed.

Lemma add_block_eq self block proof w old last :
  Blockchain.chain self = old ++ [last] ->
  Blockchain.add_block self block proof w =
  if negb (String.eqb (Block.previous_hash block) (Block.hash last)) then
    Ok (false, block, self) w
  else if negb (Blockchain.is_valid_proof self block proof) then Ok (false, block, self) w
  else Ok (true, Block.set_hash block proof,
           Blockchain.set_chain self (Blockchain.chain self ++ [Block.set_hash block proof])) w.
Proof.
  intros E. unfold Blockchain.add_block, bind. rewrite (last_block_snoc _ _ _ _ E).
  destruct (negb _); [reflexivity|]. destruct (negb _); reflexivity.
Qed.

(** C3.  With [last] the last block of the chain: [add_block(block, proof)]
    answers false and leaves block and chain as they were as soon as
    [block.previous_hash] differs from [last.hash], or [proof] does not
    start with the zero prefix, or [proof] differs from
    [block.compute_hash()]; otherwise it sets [block.hash] to [proof],
    appends that block and answers true. *)
Theorem add_block_rejects_or_appends self block proof w old last :
  Blockchain.chain self = old ++ [last] ->
  (Block.previous_hash block <> Block.hash last
   \/ startswith proof (str_mul "0" Blockchain.difficulty) = false
   \/ proof <> Block.compute_hash block ->
   Blockchain.add_block self block proof w = Ok (false, block, self) w)
  /\ (Block.previous_hash block = Block.hash last ->
      startswith proof (str_mul "0" Blockchain.difficulty) = true ->
      proof = Block.compute_hash block ->
      Blockchain.add_block self block proof w =
      Ok (true, Block.set_hash block proof,
          Blockchain.mk (Blockchain.unconfirmed_transactions self)
                        (Blockchain.chain self ++ [Block.set_hash block proof])
                        (Blockchain.instance_difficulty self)) w).
Proof.
  intros E. rewrite (add_block_eq _ _ _ _ _ _ E). unfold Blockchain.is_valid_proof. split.
  - intros [H|[H|H]].
    + apply String.eqb_neq in H. now rewrite H.
    + rewrite H. now destruct (negb _).
    + apply String.eqb_neq in H. rewrite H, andb_false_r. now destruct (negb _).
  - intros H1 H2 H3. apply String.eqb_eq in H1, H3. now rewrite H1, H2, H3.
Qed.

(** C3 at the sample chain: a block that names the wrong predecessor is
    refused, and the mined block of scenario A is taken. *)
Lemma add_block_rejects_or_appends_witness :
  Blockchain.add_block sample_pending sample_genesis (Block.hash sample_genesis)
                       (world_at fzero)
  = Ok (false, sample_genesis, sample_pending) (world_at fzero)
  /\ Blockchain.add_block sample_pending sample_block_232 (Block.hash sample_block_232)
                          (world_at fzero)
     = Ok (true, sample_block_232,
           Blockchain.mk [sample_tx] [sample_genesis; sample_block_232] None)
          (world_at fzero).
Proof.
  split.
  - apply (add_block_rejects_or_appends sample_pending sample_genesis
             (Block.hash sample_genesis) (world_at fzero) [] sample_genesis eq_refl).
    left. intros H. vm_compute in H. discriminate H.
  - apply (add_block_rejects_or_appends sample_pending sample_block_232
             (Block.hash sample_block_232) (world_at fzero) [] sample_genesis eq_refl).
    + reflexivity.
    + reflexivity.
    + vm_compute. reflexivity.
Defined.

(** *** [check_chain_validity] *)

Lemma block_ok_false prev b :
  block_ok prev b = false <->
  Block.previous_hash b <> prev
  \/ Block.hash b <> Block.compute_hash b
  \/ (Block.index b <> 0 /\ startswith (Block.hash b) (str_mul "0" Blockchain.difficulty) = false).
Proof.
  unfold block_ok, meets_difficulty, zero_prefix.
  rewrite !andb_false_iff, orb_false_iff, !String.eqb_neq, Z.eqb_neq. tauto.
Qed.

(** C2.  [check_chain_validity] answers true exactly when, walking from
    the virtual previous hash "0", every block names the hash of the
    block before it, every stored hash is the recomputed one, and every
    block whose index is not 0 has a hash that starts with [difficulty]
    zeros.  A block that breaks one of the three makes the answer false
    whatever follows it; and a payload altered after hashing, in a chain
    that was valid, makes the answer false as soon as the alteration
    changes the digest of the block. *)
Theorem check_chain_validity_characterised (self : Blockchain.t) (chain : list Block.t) :
  (Blockchain.check_chain_validity self chain = true <->
   linked_from "0" chain /\ hashes_recompute chain /\ work_shown chain)
  /\ (forall pre b post,
        chain = pre ++ b :: post ->
        Block.previous_hash b <> last_hash "0" pre
        \/ Block.hash b <> Block.compute_hash b
        \/ (Block.index b <> 0
            /\ startswith (Block.hash b) (str_mul "0" Blockchain.difficulty) = false) ->
        Blockchain.check_chain_validity self chain = false)
  /\ (forall pre b post j p,
        chain = pre ++ b :: post ->
        Blockchain.check_chain_validity self chain = true ->
        Block.compute_hash (alter_payload b j p) <> Block.compute_hash b ->
        Blockchain.check_chain_validity self (pre ++ alter_payload b j p :: post) = false).
Proof.
  unfold Blockchain.check_chain_validity. split; [apply check_chain_from_true|]. split.
  - intros pre b post -> Hbad. apply block_ok_false in Hbad.
    rewrite check_chain_from_app, check_chain_from_cons, Hbad.
    now rewrite andb_false_r.
  - intros pre b post j p -> Hok Hneq.
    rewrite check_chain_from_app, check_chain_from_cons in Hok.
    apply andb_true_iff in Hok as [Hpre Hok]. apply andb_true_iff in Hok as [Hb _].
    apply block_ok_true in Hb as (_ & Hhash & _).
    rewrite check_chain_from_app, check_chain_from_cons, Hpre.
    assert (block_ok (last_hash "0" pre) (alter_payload b j p) = false) as ->; [|reflexivity].
    apply block_ok_false. right. left. cbn [alter_payload Block.hash].
    rewrite Hhash. congruence.
Qed.

(** C2 at the mined chain of scenario A: it is valid, and rewriting the
    status in the payload of its transaction is detected. *)
Lemma check_chain_validity_characterised_witness :
  Blockchain.check_chain_validity sample_pending sample_mined_chain = true
  /\ Blockchain.check_chain_validity sample_pending
       [sample_genesis; alter_payload sample_block_232 0 tampered_payload] = false.
Proof.
  split; [vm_compute; reflexivity|].
  apply (proj2 (proj2 (check_chain_validity_characterised sample_pending sample_mined_chain))
           [sample_genesis] sample_block_232 [] 0%nat tampered_payload eq_refl).
  - vm_compute. reflexivity.
  - intros H. vm_compute in H. discriminate H.
Defined.

(** *** [mine] *)

Lemma chain_nil_or_snoc (c : list Block.t) : c = [] \/ exists old last, c = old ++ [last].
Proof.
  destruct c as [|b c]; [now left|right].
  destruct (@exists_last _ (b :: c)) as (old & last & E); [discriminate|eauto].
Qed.

Lemma startswith_leading_zeros s :
  startswith s (str_mul "0" Blockchain.difficulty) = true -> (2 <= leading_zeros s)%nat.
Proof.
  change (str_mul "0" Blockchain.difficulty) with "00". unfold startswith.
  destruct s as [|c [|c' s]]; cbn [prefix]; try discriminate.
  - destruct (ascii_dec "0" c); discriminate.
  - destruct (ascii_dec "0" c) as [<-|]; [|discriminate].
    destruct (ascii_dec "0" c') as [<-|]; [|discriminate].
    intros _. cbn [leading_zeros]. lia.
Qed.

(** The block [mine] builds, before the nonce search: [cand] in what follows. *)
Lemma mine_eq fuel self w old last :
  Blockchain.chain self = old ++ [last] ->
  Blockchain.unconfirmed_transactions self <> [] ->
  Blockchain.mine fuel self w =
  match Block.init (Block.index last + 1) (Blockchain.unconfirmed_transactions self)
                   (VFloat (clock w (ticks w))) (Block.hash last) 0 (tick w) with
  | Ok cand w1 =>
      match Blockchain.pow_loop fuel cand w1 with
      | Ok (nb, proof) w2 =>
          Ok (Some (Block.set_hash nb proof),
              Blockchain.mk [] (Blockchain.chain self ++ [Block.set_hash nb proof])
                            (Blockchain.instance_difficulty self)) w2
      | Raise e w2 => Raise e w2
      | OutOfFuel => OutOfFuel
      end
  | Raise e w1 => Raise e w1
  | OutOfFuel => OutOfFuel
  end.
Proof.
  intros E Hq. unfold Blockchain.mine.
  destruct (Blockchain.unconfirmed_transactions self) as [|tx q] eqn:Eq; [contradiction|].
  unfold bind at 1. rewrite (last_block_snoc _ _ _ _ E).
  unfold bind at 1. rewrite time_eq.
  unfold bind at 1. rewrite (last_block_snoc _ _ _ _ E).
  unfold bind at 1.
  destruct (Block.init _ _ _ _ _ _) as [cand w1| |] eqn:Ei; [|reflexivity|reflexivity].
  destruct (Block_init_fields _ _ _ _ _ _ _ _ Ei) as (Hi & Ht & Hp & Hn & Hh).
  unfold bind at 1. unfold Blockchain.proof_of_work.
  rewrite <- Hn, set_nonce_same.
  destruct (Blockchain.pow_loop fuel cand w1) as [[nb proof] w2| |] eqn:Epow;
    [|reflexivity|reflexivity].
  apply pow_loop_returns in Epow as (-> & k & _ & [Hk _] & -> & ->).
  unfold bind. rewrite (add_block_eq _ _ _ _ _ _ E).
  cbn [Block.previous_hash Block.set_nonce]. rewrite Hp, String.eqb_refl.
  unfold Blockchain.is_valid_proof. fold zero_prefix.
  unfold meets_difficulty in Hk. rewrite Hk, String.eqb_refl. reflexivity.
Qed.

Lemma mine_finds fuel self w old last cand w1 k :
  Blockchain.chain self = old ++ [last] ->
  Blockchain.unconfirmed_transactions self <> [] ->
  Block.init (Block.index last + 1) (Blockchain.unconfirmed_transactions self)
             (VFloat (clock w (ticks w))) (Block.hash last) 0 (tick w) = Ok cand w1 ->
  first_nonce cand k -> (k <= fuel)%nat ->
  Blockchain.mine fuel self w =
  Ok (Some (sealed cand k),
      Blockchain.mk [] (Blockchain.chain self ++ [sealed cand k])
                    (Blockchain.instance_difficulty self)) w1.
Proof.
  intros E Hq Ei Hk Hle. rewrite (mine_eq _ _ _ _ _ E Hq), Ei.
  rewrite (pow_loop_finds fuel cand k w1 Hk Hle).
  destruct (Block_init_fields _ _ _ _ _ _ _ _ Ei) as (_ & _ & _ & Hn & _).
  rewrite Hn, Z.add_0_l. reflexivity.
Qed.

Lemma mine_returns fuel self w nb self' w' :
  Blockchain.mine fuel self w = Ok (Some nb, self') w' ->
  exists old last cand k,
    Blockchain.chain self = old ++ [last]
    /\ Blockchain.unconfirmed_transactions self <> []
    /\ Block.init (Block.index last + 1) (Blockchain.unconfirmed_transactions self)
                  (VFloat (clock w (ticks w))) (Block.hash last) 0 (tick w) = Ok cand w'
    /\ first_nonce cand k /\ (k <= fuel)%nat
    /\ nb = sealed cand k
    /\ self' = Blockchain.mk [] (Blockchain.chain self ++ [nb])
                             (Blockchain.instance_difficulty self).
Proof.
  intros H.
  assert (Hq : Blockchain.unconfirmed_transactions self <> []).
  { intros Eq. unfold Blockchain.mine in H. rewrite Eq in H. discriminate H. }
  destruct (chain_nil_or_snoc (Blockchain.chain self)) as [E|(old & last & E)].
  { unfold Blockchain.mine in H.
    destruct (Blockchain.unconfirmed_transactions self); [contradiction|].
    unfold bind at 1 in H. rewrite (last_block_nil _ _ E) in H. discriminate H. }
  rewrite (mine_eq _ _ _ _ _ E Hq) in H.
  destruct (Block.init _ _ _ _ _ _) as [cand w1| |] eqn:Ei; try discriminate H.
  destruct (Blockchain.pow_loop fuel cand w1) as [[b proof] w2| |] eqn:Epow; try discriminate H.
  apply pow_loop_returns in Epow as (-> & k & Hle & Hk & -> & ->).
  destruct (Block_init_fields _ _ _ _ _ _ _ _ Ei) as (_ & _ & _ & Hn & _).
  injection H as <- <- <-. exists old, last, cand, k.
  rewrite Hn, Z.add_0_l.
  split; [exact E|]. split; [exact Hq|]. split; [exact Ei|].
  split; [exact Hk|]. split; [exact Hle|]. split; reflexivity.
Qed.

(** The least index at which a boolean predicate holds. *)
Lemma least_true (n : nat) : forall P : nat -> bool,
  P n = true -> exists k, (k <= n)%nat /\ P k = true /\ forall j, (j < k)%nat -> P j = false.
Proof.
  induction n as [|n IH]; intros P Hn.
  - exists 0%nat. repeat split; [lia|exact Hn|intros j Hj; lia].
  - destruct (P 0%nat) eqn:H0.
    + exists 0%nat. repeat split; [lia|exact H0|intros j Hj; lia].
    + destruct (IH (fun j => P (S j)) Hn) as (k & Hle & Hk & Hlt).
      exists (S k). repeat split; [lia|exact Hk|].
      intros [|j] Hj; [exact H0|apply Hlt; lia].
Qed.

Lemma first_nonce_exists b n :
  Block.nonce b = 0 ->
  startswith (Block.compute_hash (Block.set_nonce b (Z.of_nat n)))
             (str_mul "0" Blockchain.difficulty) = true ->
  exists k, (k <= n)%nat /\ first_nonce b k.
Proof.
  intros Hn H.
  destruct (least_true n
              (fun j => meets_difficulty (Block.compute_hash (Block.set_nonce b (Z.of_nat j)))) H)
    as (k & Hle & Hk & Hlt).
  exists k. split; [exact Hle|]. unfold first_nonce. rewrite Hn.
  split; [exact Hk|exact Hlt].
Qed.

Lemma sealed_fields cand k :
  Block.index (sealed cand k) = Block.index cand
  /\ Block.transactions (sealed cand k) = Block.transactions cand
  /\ Block.previous_hash (sealed cand k) = Block.previous_hash cand
  /\ Block.nonce (sealed cand k) = Z.of_nat k
  /\ Block.hash (sealed cand k) = Block.compute_hash (sealed cand k).
Proof.
  unfold sealed. cbn [Block.index Block.transactions Block.previous_hash Block.nonce
                       Block.hash Block.set_hash Block.set_nonce].
  repeat split.
Qed.

Lemma sealed_block_ok cand k prev :
  Block.nonce cand = 0 -> Block.previous_hash cand = prev -> first_nonce cand k ->
  block_ok prev (sealed cand k) = true.
Proof.
  intros Hn Hp [Hk _]. rewrite Hn, Z.add_0_l in Hk.
  apply block_ok_true. destruct (sealed_fields cand k) as (_ & _ & H3 & _ & H5).
  split; [congruence|]. split; [exact H5|]. intros _. exact Hk.
Qed.

(** C4, as amended.  The block a successful [mine()] returns has a hash
    that is its recomputed hash and starts with [difficulty] zeros, so it
    has at least that many leading zeros; its nonce is the least
    non-negative integer whose hash starts so. *)
Theorem mined_block_has_least_nonce fuel self w nb self' w' :
  Blockchain.mine fuel self w = Ok (Some nb, self') w' ->
  startswith (Block.hash nb) (str_mul "0" Blockchain.difficulty) = true
  /\ (Z.to_nat Blockchain.difficulty <= leading_zeros (Block.hash nb))%nat
  /\ Block.hash nb = Block.compute_hash nb
  /\ 0 <= Block.nonce nb
  /\ forall n, 0 <= n < Block.nonce nb ->
       startswith (Block.compute_hash (Block.set_nonce nb n))
                  (str_mul "0" Blockchain.difficulty) = false.
Proof.
  intros H. apply mine_returns in H as (old & last & cand & k & _ & _ & Ei & Hk & _ & -> & _).
  destruct (Block_init_fields _ _ _ _ _ _ _ _ Ei) as (_ & _ & _ & Hn & _).
  destruct (sealed_fields cand k) as (_ & _ & _ & H4 & H5).
  destruct Hk as [Hk Hlt]. rewrite Hn in Hk, Hlt. rewrite Z.add_0_l in Hk.
  assert (Hz : startswith (Block.hash (sealed cand k)) (str_mul "0" Blockchain.difficulty) = true)
    by exact Hk.
  split; [exact Hz|]. split; [exact (startswith_leading_zeros _ Hz)|].
  split; [exact H5|]. rewrite H4. split; [lia|].
  intros n Hrange. unfold sealed. rewrite compute_hash_set_nonce_set_hash.
  cbn [Block.set_nonce Block.index Block.transactions Block.timestamp Block.previous_hash
       Block.hash].
  specialize (Hlt (Z.to_nat n) ltac:(lia)). rewrite Z.add_0_l, Z2Nat.id in Hlt by lia.
  exact Hlt.
Qed.

(** C4, as amended, at scenario A mined at 1700000201.0: nonce 0 fails,
    nonce 1 is taken. *)
Lemma mined_block_has_least_nonce_witness :
  startswith (Block.hash sample_block_201) (str_mul "0" Blockchain.difficulty) = true
  /\ (Z.to_nat Blockchain.difficulty <= leading_zeros (Block.hash sample_block_201))%nat
  /\ Block.hash sample_block_201 = Block.compute_hash sample_block_201
  /\ 0 <= Block.nonce sample_block_201
  /\ forall n, 0 <= n < Block.nonce sample_block_201 ->
       startswith (Block.compute_hash (Block.set_nonce sample_block_201 n))
                  (str_mul "0" Blockchain.difficulty) = false.
Proof.
  apply (mined_block_has_least_nonce 5 sample_pending (world_at (flt 1700000201 0))
           sample_block_201
           (Blockchain.mk [] [sample_genesis; sample_block_201] None)
           (tick (world_at (flt 1700000201 0)))).
  vm_compute. reflexivity.
Defined.

(** C4 as it is worded fails: scenario A mined at 1700000201.0 returns a
    block whose hash has three leading zeros, not exactly [difficulty]. *)
Lemma mined_hash_not_exactly_difficulty_zeros :
  ~ (forall fuel self w nb self' w',
       Blockchain.mine fuel self w = Ok (Some nb, self') w' ->
       leading_zeros (Block.hash nb) = Z.to_nat Blockchain.difficulty).
Proof.
  intros H.
  specialize (H 5%nat sample_pending (world_at (flt 1700000201 0)) sample_block_201
                (Blockchain.mk [] [sample_genesis; sample_block_201] None)
                (tick (world_at (flt 1700000201 0)))).
  assert (E : leading_zeros (Block.hash sample_block_201) = Z.to_nat Blockchain.difficulty).
  { apply H. vm_compute. reflexivity. }
  vm_compute in E. discriminate E.
Qed.

(** *** A new chain, and [mine] on a valid chain *)

Lemma init_eq fuel w :
  Blockchain.init fuel w =
  match Block.init 0 [] (VFloat (clock w (ticks w))) "0" 0 (tick w) with
  | Ok cand w1 =>
      match Blockchain.pow_loop fuel cand w1 with
      | Ok (g, proof) w2 => Ok (Blockchain.mk [] [Block.set_hash g proof] None) w2
      | Raise e w2 => Raise e w2
      | OutOfFuel => OutOfFuel
      end
  | Raise e w1 => Raise e w1
  | OutOfFuel => OutOfFuel
  end.
Proof.
  unfold Blockchain.init, Blockchain.create_genesis_block.
  unfold bind at 1. rewrite time_eq. unfold bind at 1.
  destruct (Block.init _ _ _ _ _ _) as [cand w1| |] eqn:Ei; [|reflexivity|reflexivity].
  destruct (Block_init_fields _ _ _ _ _ _ _ _ Ei) as (_ & _ & _ & Hn & _).
  unfold bind, Blockchain.proof_of_work. rewrite <- Hn, set_nonce_same.
  destruct (Blockchain.pow_loop fuel cand w1) as [[g proof] w2| |]; reflexivity.
Qed.

Lemma init_returns fuel w bc w' :
  Blockchain.init fuel w = Ok bc w' ->
  exists cand k,
    Block.init 0 [] (VFloat (clock w (ticks w))) "0" 0 (tick w) = Ok cand w'
    /\ first_nonce cand k /\ bc = Blockchain.mk [] [sealed cand k] None.
Proof.
  rewrite init_eq. intros H.
  destruct (Block.init _ _ _ _ _ _) as [cand w1| |] eqn:Ei; try discriminate H.
  destruct (Blockchain.pow_loop fuel cand w1) as [[b proof] w2| |] eqn:Epow; try discriminate H.
  apply pow_loop_returns in Epow as (-> & k & Hle & Hk & -> & ->).
  destruct (Block_init_fields _ _ _ _ _ _ _ _ Ei) as (_ & _ & _ & Hn & _).
  injection H as <- <-. exists cand, k. rewrite Hn, Z.add_0_l.
  split; [reflexivity|]. split; [exact Hk|reflexivity].
Qed.

Lemma genesis_chain_valid self cand k w w1 ts :
  Block.init 0 [] ts "0" 0 w = Ok cand w1 -> first_nonce cand k ->
  Blockchain.check_chain_validity self [sealed cand k] = true.
Proof.
  intros Ei Hk. destruct (Block_init_fields _ _ _ _ _ _ _ _ Ei) as (_ & _ & Hp & Hn & _).
  unfold Blockchain.check_chain_validity. rewrite check_chain_from_cons.
  now rewrite (sealed_block_ok cand k "0" Hn Hp Hk).
Qed.

Lemma mine_keeps_chain_valid fuel self w result self' w' :
  (exists old last, Blockchain.chain self = old ++ [last]) ->
  Blockchain.check_chain_validity self (Blockchain.chain self) = true ->
  Blockchain.mine fuel self w = Ok (result, self') w' ->
  (exists old last, Blockchain.chain self' = old ++ [last])
  /\ Blockchain.check_chain_validity self' (Blockchain.chain self') = true.
Proof.
  intros (old & last & E) Hvalid H.
  destruct (Blockchain.unconfirmed_transactions self) as [|tx q] eqn:Eq.
  - unfold Blockchain.mine in H. rewrite Eq in H. apply ret_inv in H as [[= <- <-] _].
    split; [eauto|exact Hvalid].
  - assert (Hq : Blockchain.unconfirmed_transactions self <> []) by (rewrite Eq; discriminate).
    rewrite (mine_eq _ _ _ _ _ E Hq) in H.
    destruct (Block.init _ _ _ _ _ _) as [cand wc| |] eqn:Ei; try discriminate H.
    destruct (Blockchain.pow_loop fuel cand wc) as [[b p] wp| |] eqn:Epow; try discriminate H.
    apply pow_loop_returns in Epow as (-> & k & _ & Hk & -> & ->).
    destruct (Block_init_fields _ _ _ _ _ _ _ _ Ei) as (_ & _ & Hp & Hnonce & _).
    injection H as <- <- <-. rewrite Hnonce, Z.add_0_l. fold (sealed cand k).
    cbn [Blockchain.chain]. split; [eauto|].
    unfold Blockchain.check_chain_validity in *.
    rewrite check_chain_from_app, Hvalid, E, last_hash_snoc, check_chain_from_cons.
    now rewrite (sealed_block_ok cand k (Block.hash last) Hnonce Hp Hk).
Qed.

Lemma built_chain_valid blockchain :
  built blockchain ->
  (exists old last, Blockchain.chain blockchain = old ++ [last])
  /\ Blockchain.check_chain_validity blockchain (Blockchain.chain blockchain) = true.
Proof.
  induction 1 as [fuel w blockchain w' Hinit|blockchain transaction _ IH
                  |fuel blockchain w result blockchain' w' _ IH Hmine].
  - apply init_returns in Hinit as (g & k & Eg & Hk & ->). cbn [Blockchain.chain].
    split; [exists [], (sealed g k); reflexivity|].
    exact (genesis_chain_valid _ _ _ _ _ _ Eg Hk).
  - exact IH.
  - destruct IH as [Hlast Hvalid]. exact (mine_keeps_chain_valid _ _ _ _ _ _ Hlast Hvalid Hmine).
Qed.

(** C1, as amended.  On a chain that has a last block, with a
    transaction waiting, [mine()] returns as soon as the fuel reaches a
    nonce that meets the difficulty: it appends exactly one block, with
    the next index, the last block's hash as [previous_hash] and the
    queued transactions; it empties the queue and returns that block.
    The chain it leaves passes [check_chain_validity] exactly when the
    chain it found did.  [Blockchain()] returns a valid one-block chain,
    and every chain that [Blockchain()], [add_new_transaction] and
    [mine()] build is valid and has a last block.  From a new chain, one
    transaction added and mined gives a valid chain of length 2 and an
    empty queue. *)
Theorem mine_appends_one_block_and_keeps_validity :
  (forall fuel self w old last cand w1 n,
      Blockchain.chain self = old ++ [last] ->
      Blockchain.unconfirmed_transactions self <> [] ->
      Block.init (Block.index last + 1) (Blockchain.unconfirmed_transactions self)
                 (VFloat (clock w (ticks w))) (Block.hash last) 0 (tick w) = Ok cand w1 ->
      startswith (Block.compute_hash (Block.set_nonce cand (Z.of_nat n)))
                 (str_mul "0" Blockchain.difficulty) = true ->
      (n <= fuel)%nat ->
      exists new_block self',
        Blockchain.mine fuel self w = Ok (Some new_block, self') w1
        /\ Blockchain.chain self' = Blockchain.chain self ++ [new_block]
        /\ Block.index new_block = Block.index last + 1
        /\ Block.previous_hash new_block = Block.hash last
        /\ Block.transactions new_block = Blockchain.unconfirmed_transactions self
        /\ Blockchain.unconfirmed_transactions self' = []
        /\ Blockchain.check_chain_validity self' (Blockchain.chain self')
           = Blockchain.check_chain_validity self (Blockchain.chain self))
  /\ (forall fuel w cand w1 n,
        Block.init 0 [] (VFloat (clock w (ticks w))) "0" 0 (tick w) = Ok cand w1 ->
        startswith (Block.compute_hash (Block.set_nonce cand (Z.of_nat n)))
                   (str_mul "0" Blockchain.difficulty) = true ->
        (n <= fuel)%nat ->
        exists genesis,
          Blockchain.init fuel w = Ok (Blockchain.mk [] [genesis] None) w1
          /\ Blockchain.check_chain_validity (Blockchain.mk [] [genesis] None) [genesis] = true)
  /\ (forall blockchain,
        built blockchain ->
        (exists old last, Blockchain.chain blockchain = old ++ [last])
        /\ Blockchain.check_chain_validity blockchain (Blockchain.chain blockchain) = true)
  /\ (forall fuel w blockchain w1 transaction w2 result w3,
        Blockchain.init fuel w = Ok blockchain w1 ->
        Blockchain.mine fuel (Blockchain.add_new_transaction blockchain transaction) w2
        = Ok result w3 ->
        exists new_block,
          fst result = Some new_block
          /\ List.length (Blockchain.chain (snd result)) = 2%nat
          /\ Blockchain.unconfirmed_transactions (snd result) = []
          /\ Blockchain.check_chain_validity (snd result) (Blockchain.chain (snd result))
             = true).
Proof.
  split; [|split; [|split; [exact built_chain_valid|]]].
  - intros fuel self w old last cand w1 n E Hq Ei Hn Hle.
    destruct (Block_init_fields _ _ _ _ _ _ _ _ Ei) as (Hi & Ht & Hp & Hnonce & _).
    destruct (first_nonce_exists cand n Hnonce Hn) as (k & Hk_le & Hk).
    exists (sealed cand k), (Blockchain.mk [] (Blockchain.chain self ++ [sealed cand k])
                                            (Blockchain.instance_difficulty self)).
    destruct (sealed_fields cand k) as (H1 & H2 & H3 & _ & _).
    split; [apply (mine_finds _ _ _ _ _ _ _ _ E Hq Ei Hk); lia|].
    split; [reflexivity|]. split; [congruence|]. split; [congruence|].
    split; [congruence|]. split; [reflexivity|].
    cbn [Blockchain.chain]. unfold Blockchain.check_chain_validity.
    rewrite check_chain_from_app. rewrite E at 2. rewrite last_hash_snoc, check_chain_from_cons.
    rewrite (sealed_block_ok cand k (Block.hash last) Hnonce Hp Hk).
    cbn [Blockchain.check_chain_from andb]. apply andb_true_r.
  - intros fuel w cand w1 n Ei Hn Hle.
    destruct (Block_init_fields _ _ _ _ _ _ _ _ Ei) as (_ & _ & _ & Hnonce & _).
    destruct (first_nonce_exists cand n Hnonce Hn) as (k & Hk_le & Hk).
    exists (sealed cand k). split.
    + rewrite init_eq, Ei, (pow_loop_finds fuel cand k w1 Hk ltac:(lia)).
      rewrite Hnonce, Z.add_0_l. reflexivity.
    + exact (genesis_chain_valid _ _ _ _ _ _ Ei Hk).
  - intros fuel w blockchain w1 transaction w2 result w3 Hinit Hmine.
    apply init_returns in Hinit as (g & kg & Eg & Hkg & ->).
    destruct (Block_init_fields _ _ _ _ _ _ _ _ Eg) as (_ & _ & Hpg & Hng & _). clear Eg.
    set (self := Blockchain.add_new_transaction _ transaction) in Hmine.
    assert (E : Blockchain.chain self = [] ++ [sealed g kg]) by reflexivity.
    assert (Hq : Blockchain.unconfirmed_transactions self <> []) by discriminate.
    rewrite (mine_eq fuel self w2 _ _ E Hq) in Hmine.
    destruct (Block.init _ _ _ _ _ _) as [cand wc| |] eqn:Ei; try discriminate Hmine.
    destruct (Blockchain.pow_loop fuel cand wc) as [[b p] wp| |] eqn:Epow;
      try discriminate Hmine.
    apply pow_loop_returns in Epow as (-> & k & _ & Hk & -> & ->).
    destruct (Block_init_fields _ _ _ _ _ _ _ _ Ei) as (_ & _ & Hp & Hnonce & _).
    injection Hmine as <- <-. rewrite Hnonce, Z.add_0_l. fold (sealed cand k).
    exists (sealed cand k). cbn [fst snd Blockchain.chain Blockchain.unconfirmed_transactions].
    split; [reflexivity|]. split; [reflexivity|]. split; [reflexivity|].
    unfold Blockchain.check_chain_validity.
    rewrite !check_chain_from_cons.
    rewrite (sealed_block_ok g kg "0" Hng Hpg Hkg).
    now rewrite (sealed_block_ok cand k _ Hnonce Hp Hk).
Qed.

(** C1, as amended, at scenario A, mined at 1700000232.0 with fuel for
    five nonces, and at the chain whose genesis block was edited: the
    block is appended there too, and the chain stays as invalid as it
    was. *)
Lemma mine_appends_one_block_and_keeps_validity_witness :
  (exists new_block self',
      Blockchain.mine 5 sample_pending (world_at (flt 1700000232 0))
      = Ok (Some new_block, self') (tick (world_at (flt 1700000232 0)))
      /\ Blockchain.chain self' = Blockchain.chain sample_pending ++ [new_block]
      /\ Block.index new_block = Block.index sample_genesis + 1
      /\ Block.previous_hash new_block = Block.hash sample_genesis
      /\ Block.transactions new_block = Blockchain.unconfirmed_transactions sample_pending
      /\ Blockchain.unconfirmed_transactions self' = []
      /\ Blockchain.check_chain_validity self' (Blockchain.chain self')
         = Blockchain.check_chain_validity sample_pending (Blockchain.chain sample_pending))
  /\ (exists new_block self',
         Blockchain.mine 5 edited_pending (world_at (flt 1700000232 0))
         = Ok (Some new_block, self') (tick (world_at (flt 1700000232 0)))
         /\ Blockchain.chain self' = Blockchain.chain edited_pending ++ [new_block]
         /\ Block.index new_block = Block.index edited_genesis + 1
         /\ Block.previous_hash new_block = Block.hash edited_genesis
         /\ Block.transactions new_block = Blockchain.unconfirmed_transactions edited_pending
         /\ Blockchain.unconfirmed_transactions self' = []
         /\ Blockchain.check_chain_validity self' (Blockchain.chain self')
            = Blockchain.check_chain_validity edited_pending (Blockchain.chain edited_pending))
  /\ (exists genesis,
         Blockchain.init 5 (sample_world (flt 1700000232 0))
         = Ok (Blockchain.mk [] [genesis] None) (tick (sample_world (flt 1700000232 0)))
         /\ Blockchain.check_chain_validity (Blockchain.mk [] [genesis] None) [genesis] = true)
  /\ (exists new_block,
         Some sample_block_232 = Some new_block
         /\ List.length sample_mined_chain = 2%nat
         /\ @nil Transaction.t = []
         /\ Blockchain.check_chain_validity (Blockchain.mk [] sample_mined_chain None)
                                            sample_mined_chain = true).
Proof.
  destruct mine_appends_one_block_and_keeps_validity as (Hmine & Hinit & _ & Hscenario).
  split; [|split; [|split]].
  - apply (Hmine 5%nat sample_pending (world_at (flt 1700000232 0)) [] sample_genesis
                 sample_block_232 (tick (world_at (flt 1700000232 0))) 0%nat).
    + reflexivity.
    + discriminate.
    + vm_compute. reflexivity.
    + vm_compute. reflexivity.
    + lia.
  - apply (Hmine 5%nat edited_pending (world_at (flt 1700000232 0)) [] edited_genesis
                 sample_block_232 (tick (world_at (flt 1700000232 0))) 0%nat).
    + reflexivity.
    + discriminate.
    + vm_compute. reflexivity.
    + vm_compute. reflexivity.
    + lia.
  - apply (Hinit 5%nat (sample_world (flt 1700000232 0)) sample_genesis
                 (tick (sample_world (flt 1700000232 0))) 0%nat).
    + vm_compute. reflexivity.
    + vm_compute. reflexivity.
    + lia.
  - apply (Hscenario 5%nat (sample_world (flt 1700000232 0))
                     (Blockchain.mk [] [sample_genesis] None)
                     (tick (sample_world (flt 1700000232 0)))
                     sample_tx
                     (tick (tick (sample_world (flt 1700000232 0))))
                     (Some sample_block_232, Blockchain.mk [] sample_mined_chain None)
                     (tick (tick (tick (sample_world (flt 1700000232 0)))))).
    + vm_compute. reflexivity.
    + vm_compute. reflexivity.
Defined.

(** The edited snapshot loads, with the warning, as the chain of one
    block that fails validation. *)
Example edited_snapshot_loads_with_a_warning :
  BlockchainStorage.load_blockchain 0 sample_storage edited_world
  = Ok (Some (Blockchain.mk [] [edited_genesis] (Some (VInt 2))))
       (mkWorld (clock edited_world) 0 (isoformat edited_world) (entropy edited_world) 0
                (files edited_world)
                ["Blockchain loaded successfully from blockchain_data/blockchain.json";
                 "Total blocks: 1";
                 "WARNING: Loaded blockchain failed validation!"]).
Proof. vm_compute. reflexivity. Qed.

(** C1 as it is worded fails: the chain that [load_blockchain] returns
    for the edited snapshot does not pass [check_chain_validity]; with a
    transaction added, [mine()] at 1700000232.0 appends a block to it and
    returns that block, and the chain it leaves does not pass either. *)
Lemma mine_on_invalid_chain_leaves_it_invalid :
  ~ (forall fuel self w new_block self' w',
       Blockchain.unconfirmed_transactions self <> [] ->
       Blockchain.mine fuel self w = Ok (Some new_block, self') w' ->
       Blockchain.check_chain_validity self' (Blockchain.chain self') = true).
Proof.
  intros H.
  specialize (H 5%nat edited_pending (world_at (flt 1700000232 0)) sample_block_232
                (Blockchain.mk [] [edited_genesis; sample_block_232] (Some (VInt 2)))
                (tick (world_at (flt 1700000232 0)))
                ltac:(discriminate) ltac:(vm_compute; reflexivity)).
  vm_compute in H. discriminate H.
Qed.

(** Scenario A itself, run in the sample world. *)
Example scenario_A_runs :
  scenario_A 5 (sample_world (flt 1700000232 0))
  = Ok (Some sample_block_232, Blockchain.mk [] sample_mined_chain None)
       (tick (tick (tick (sample_world (flt 1700000232 0))))).
Proof. vm_compute. reflexivity. Qed.

(* ------------------------------------------------------------------ *)
(** ** Properties of storage.py *)

Lemma dict_get_set_same k v d : dict_get k (dict_set k v d) = Some v.
Proof.
  induction d as [|[k' v'] d IH]; cbn [dict_set dict_get].
  - now rewrite String.eqb_refl.
  - destruct (String.eqb k k') eqn:E; cbn [dict_get].
    + now rewrite String.eqb_refl.
    + now rewrite E.
Qed.

Lemma dict_get_set_other k k' v d : k <> k' -> dict_get k (dict_set k' v d) = dict_get k d.
Proof.
  intros Hne. induction d as [|[k'' v''] d IH]; cbn [dict_set dict_get].
  - apply String.eqb_neq in Hne. now rewrite Hne.
  - destruct (String.eqb k' k'') eqn:E; cbn [dict_get].
    + apply String.eqb_eq in E as <-. apply String.eqb_neq in Hne. now rewrite Hne.
    + now rewrite IH.
Qed.

Lemma append_cancel_l (a b c : string) : (a ++ b = a ++ c)%string -> b = c.
Proof. induction a as [|x a IH]; cbn; intros H; [exact H|injection H as H; auto]. Qed.

Lemma append_assoc (a b c : string) : ((a ++ b) ++ c = a ++ (b ++ c))%string.
Proof. induction a as [|x a IH]; cbn; [reflexivity|now rewrite IH]. Qed.

Lemma path_join_same_prefix a b :
  startswith b "/" = false ->
  BlockchainStorage.path_join a b =
  (BlockchainStorage.path_join a EmptyString ++ b)%string.
Proof.
  intros Hb. unfold BlockchainStorage.path_join. rewrite Hb.
  change (startswith EmptyString "/") with false. cbv iota.
  destruct (String.eqb a EmptyString); [reflexivity|].
  destruct (String.eqb _ "/"); now rewrite !append_assoc.
Qed.

(** The snapshot and the metadata never share a file. *)
Lemma chain_file_not_metadata_file path :
  BlockchainStorage.chain_file (BlockchainStorage.init path)
  <> BlockchainStorage.metadata_file (BlockchainStorage.init path).
Proof.
  cbn [BlockchainStorage.init BlockchainStorage.chain_file BlockchainStorage.metadata_file].
  rewrite (path_join_same_prefix path "blockchain.json") by reflexivity.
  rewrite (path_join_same_prefix path "metadata.json") by reflexivity.
  intros H. apply append_cancel_l in H. discriminate H.
Qed.

(** *** Loading what was saved *)

Lemma Transaction_init_eq s r p ts sig w :
  Transaction.init s r p ts sig w =
  let ts' := if truthy ts then ts else VFloat (clock w (ticks w)) in
  let tx := Transaction.mk s r p ts' sig EmptyString in
  Ok (Transaction.set_tx_hash tx (Transaction.compute_hash tx)) (if truthy ts then w else tick w).
Proof. unfold Transaction.init, bind. destruct (truthy ts); reflexivity. Qed.

Lemma load_transaction_to_dict acc tx w :
  exists tx' w',
    BlockchainStorage.load_transaction acc (Transaction.to_dict tx) w = Ok (acc ++ [tx']) w'
    /\ Transaction.tx_hash tx' = Transaction.tx_hash tx.
Proof.
  unfold BlockchainStorage.load_transaction, Transaction.to_dict.
  unfold bind, getitem. cbn [dict_get String.eqb Ascii.eqb Bool.eqb ret as_str].
  rewrite Transaction_init_eq. cbv zeta.
  eexists _, _. split; [reflexivity|]. reflexivity.
Qed.

Lemma load_transactions_to_dict txs : forall acc w,
  exists txs' w',
    for_each (map Transaction.to_dict txs) acc BlockchainStorage.load_transaction w
    = Ok (acc ++ txs') w'
    /\ map Transaction.tx_hash txs' = map Transaction.tx_hash txs.
Proof.
  induction txs as [|tx txs IH]; intros acc w.
  - exists [], w. rewrite app_nil_r. split; reflexivity.
  - destruct (load_transaction_to_dict acc tx w) as (tx' & w1 & E1 & H1).
    destruct (IH (acc ++ [tx']) w1) as (txs' & w2 & E2 & H2).
    exists (tx' :: txs'), w2. cbn [map for_each]. unfold bind. rewrite E1, E2.
    rewrite <- app_assoc. split; [reflexivity|]. cbn [map]. now rewrite H1, H2.
Qed.

Lemma load_block_data_of acc b w :
  exists b' w',
    BlockchainStorage.load_block acc (BlockchainStorage.block_data_of b) w = Ok (acc ++ [b']) w'
    /\ block_view b' = block_view b.
Proof.
  unfold BlockchainStorage.load_block, BlockchainStorage.block_data_of.
  destruct (load_transactions_to_dict (Block.transactions b) [] w) as (txs' & w1 & E1 & H1).
  unfold bind, getitem. cbn [dict_get String.eqb Ascii.eqb Bool.eqb ret iterate as_str as_int].
  rewrite E1. cbn [app].
  unfold bind, getitem. cbn [dict_get String.eqb Ascii.eqb Bool.eqb ret as_str as_int].
  rewrite Block_init_eq. cbv zeta.
  eexists _, _. split; [reflexivity|]. unfold block_view.
  cbn [Block.index Block.nonce Block.previous_hash Block.hash Block.transactions Block.set_hash].
  now rewrite H1.
Qed.

Lemma load_blocks_data_of chain : forall acc w,
  exists chain' w',
    for_each (map BlockchainStorage.block_data_of chain) acc BlockchainStorage.load_block w
    = Ok (acc ++ chain') w'
    /\ map block_view chain' = map block_view chain.
Proof.
  induction chain as [|b chain IH]; intros acc w.
  - exists [], w. rewrite app_nil_r. split; reflexivity.
  - destruct (load_block_data_of acc b w) as (b' & w1 & E1 & H1).
    destruct (IH (acc ++ [b']) w1) as (chain' & w2 & E2 & H2).
    exists (b' :: chain'), w2. cbn [map for_each]. unfold bind. rewrite E1, E2.
    rewrite <- app_assoc. split; [reflexivity|]. cbn [map]. now rewrite H1, H2.
Qed.

Lemma save_blockchain_eq self blockchain w :
  BlockchainStorage.save_blockchain self blockchain w = Ok true (saved_world self blockchain w).
Proof.
  unfold BlockchainStorage.save_blockchain, try_except, saved_world, snapshot_of, metadata_of.
  unfold bind at 1. unfold now_isoformat.
  destruct (chain_nil_or_snoc (Blockchain.chain blockchain)) as [E|(old & last & E)].
  - rewrite E. reflexivity.
  - unfold bind at 1. 
    assert (Hl : forall w0, match Blockchain.chain blockchain with
                 | [] => ret VNone
                 | _ :: _ => last0 <- Blockchain.last_block blockchain;; ret (VStr (Block.hash last0))
                 end w0 = Ok (VStr (Block.hash last)) w0).
    { intros w0. destruct (Blockchain.chain blockchain) eqn:Ec.
      - destruct old; discriminate E.
      - unfold bind. rewrite (last_block_snoc blockchain old last w0) by congruence. reflexivity. }
    rewrite Hl. rewrite E, rev_app_distr. reflexivity.
Qed.

(** C8.  Saving a blockchain and loading it back gives a chain with as
    many blocks and, block for block in the same order, the same index,
    nonce, previous hash and hash, and transaction for transaction the
    same [tx_hash]. *)
Theorem save_then_load_round_trip fuel path blockchain w :
  exists w1 loaded w2,
    BlockchainStorage.save_blockchain (BlockchainStorage.init path) blockchain w = Ok true w1
    /\ BlockchainStorage.load_blockchain fuel (BlockchainStorage.init path) w1
       = Ok (Some loaded) w2
    /\ List.length (Blockchain.chain loaded) = List.length (Blockchain.chain blockchain)
    /\ map block_view (Blockchain.chain loaded) = map block_view (Blockchain.chain blockchain).
Proof.
  set (self := BlockchainStorage.init path).
  exists (saved_world self blockchain w).
  assert (Hfile : dict_get (BlockchainStorage.chain_file self)
                           (files (saved_world self blockchain w))
                  = Some (snapshot_of blockchain (isoformat w (clock w (ticks w))))).
  { unfold saved_world. cbn [files].
    rewrite dict_get_set_other by apply chain_file_not_metadata_file.
    apply dict_get_set_same. }
  destruct (load_blocks_data_of (Blockchain.chain blockchain) []
              (saved_world self blockchain w)) as (chain' & w2 & Eload & Hview).
  cbn [app] in Eload.
  assert (Hlen : List.length chain' = List.length (Blockchain.chain blockchain)).
  { rewrite <- (length_map block_view chain'), Hview. apply length_map. }
  assert (Hlast : forall ok : bool, exists w3,
             (print ("Blockchain loaded successfully from " ++ BlockchainStorage.chain_file self);;;
              print ("Total blocks: " ++ str_of_int (Z.of_nat (List.length chain')));;;
              if ok then print "Loaded blockchain is valid.";;;
                         ret (Some (Blockchain.mk [] chain' (Some (Blockchain.get_difficulty blockchain))))
              else print "WARNING: Loaded blockchain failed validation!";;;
                   ret (Some (Blockchain.mk [] chain' (Some (Blockchain.get_difficulty blockchain))))) w2
             = Ok (Some (Blockchain.mk [] chain' (Some (Blockchain.get_difficulty blockchain)))) w3).
  { intros [|]; eexists; reflexivity. }
  destruct (Hlast (Blockchain.check_chain_validity
                     (Blockchain.mk [] chain' (Some (Blockchain.get_difficulty blockchain)))
                     chain')) as (w3 & Efinal).
  exists (Blockchain.mk [] chain' (Some (Blockchain.get_difficulty blockchain))), w3.
  split; [apply save_blockchain_eq|]. split; [|split; assumption].
  apply try_except_ok.
  rewrite (bind_ok _ _ _ true (saved_world self blockchain w))
    by (unfold path_exists, dict_in; now rewrite Hfile).
  cbn [negb].
  rewrite (bind_ok _ _ _ (snapshot_of blockchain (isoformat w (clock w (ticks w))))
                   (saved_world self blockchain w))
    by (unfold json_load; now rewrite Hfile).
  unfold snapshot_of at 1.
  rewrite (bind_ok _ _ _ _ _ eq_refl).
  rewrite (bind_ok _ _ _ (Blockchain.get_difficulty blockchain) (saved_world self blockchain w))
    by reflexivity.
  rewrite (bind_ok _ _ _ (map BlockchainStorage.block_data_of (Blockchain.chain blockchain))
                   (saved_world self blockchain w)) by reflexivity.
  rewrite (bind_ok _ _ _ _ _ Eload).
  exact Efinal.
Qed.

(** *** Loading any snapshot *)

Lemma getitem_ok v k w x w' : getitem v k w = Ok x w' -> w' = w /\ item v k = Some x.
Proof.
  destruct v; try discriminate. cbn [getitem item].
  destruct (dict_get k d); [|discriminate]. intros H. apply ret_inv in H as [-> ->]. now split.
Qed.

Lemma as_str_ok v w s w' : as_str v w = Ok s w' -> w' = w /\ v = VStr s.
Proof. destruct v; try discriminate. intros H. apply ret_inv in H as [-> ->]. now split. Qed.

Lemma as_int_ok v w n w' : as_int v w = Ok n w' -> w' = w /\ v = VInt n.
Proof. destruct v; try discriminate. intros H. apply ret_inv in H as [-> ->]. now split. Qed.

Lemma iterate_ok v w l w' : iterate v w = Ok l w' -> w' = w /\ elements v = Some l.
Proof.
  destruct v; try discriminate; intros H; apply ret_inv in H as [<- ->]; now split.
Qed.

Lemma getitem_as_str_ok v k w s w' :
  bind (getitem v k) as_str w = Ok s w' -> w' = w /\ item v k = Some (VStr s).
Proof.
  intros H. apply bind_inv in H as (x & w1 & H1 & H2).
  apply getitem_ok in H1 as [-> H1]. apply as_str_ok in H2 as [-> ->]. now split.
Qed.

Lemma getitem_as_int_ok v k w n w' :
  bind (getitem v k) as_int w = Ok n w' -> w' = w /\ item v k = Some (VInt n).
Proof.
  intros H. apply bind_inv in H as (x & w1 & H1 & H2).
  apply getitem_ok in H1 as [-> H1]. apply as_int_ok in H2 as [-> ->]. now split.
Qed.

Lemma stdout_tick w : stdout (tick w) = stdout w.
Proof. reflexivity. Qed.

(** [load_transaction] appends one transaction whose fields are the stored
    ones, the [tx_hash] among them, and prints nothing. *)
Lemma load_transaction_ok acc tx_data w acc' w' :
  BlockchainStorage.load_transaction acc tx_data w = Ok acc' w' ->
  stdout w' = stdout w
  /\ exists tx, acc' = acc ++ [tx] /\ tx_loaded_from tx_data tx.
Proof.
  unfold BlockchainStorage.load_transaction. intros H.
  apply bind_inv in H as (sender & w1 & H1 & H). apply getitem_as_str_ok in H1 as [-> H1].
  apply bind_inv in H as (recipient & w1 & H2 & H). apply getitem_as_str_ok in H2 as [-> H2].
  apply bind_inv in H as (payload & w1 & H3 & H). apply getitem_ok in H3 as [-> H3].
  apply bind_inv in H as (timestamp & w1 & H4 & H). apply getitem_ok in H4 as [-> H4].
  apply bind_inv in H as (signature & w1 & H5 & H). apply getitem_as_str_ok in H5 as [-> H5].
  apply bind_inv in H as (tx & w1 & H6 & H). rewrite Transaction_init_eq in H6.
  cbv zeta in H6. injection H6 as <- <-.
  apply bind_inv in H as (stored & w2 & H7 & H). apply getitem_as_str_ok in H7 as [-> H7].
  apply ret_inv in H as [<- <-].
  split; [now destruct (truthy timestamp)|].
  eexists. split; [reflexivity|]. repeat split; assumption.
Qed.

Lemma load_transactions_ok tx_list : forall acc w acc' w',
  for_each tx_list acc BlockchainStorage.load_transaction w = Ok acc' w' ->
  stdout w' = stdout w
  /\ exists txs, acc' = acc ++ txs /\ Forall2 tx_loaded_from tx_list txs.
Proof.
  induction tx_list as [|v tx_list IH]; intros acc w acc' w' H.
  - apply ret_inv in H as [<- <-]. split; [reflexivity|]. exists []. now rewrite app_nil_r.
  - cbn [for_each] in H. apply bind_inv in H as (acc1 & w1 & H1 & H).
    apply load_transaction_ok in H1 as [Hs (tx & -> & Htx)].
    apply IH in H as [Hs' (txs & -> & Htxs)].
    split; [congruence|]. exists (tx :: txs). rewrite <- app_assoc. split; [reflexivity|].
    now constructor.
Qed.

Lemma load_block_ok acc block_data w acc' w' :
  BlockchainStorage.load_block acc block_data w = Ok acc' w' ->
  stdout w' = stdout w
  /\ exists b, acc' = acc ++ [b] /\ block_loaded_from block_data b.
Proof.
  unfold BlockchainStorage.load_block. intros H.
  apply bind_inv in H as (tx_list & w1 & H1 & H).
  apply bind_inv in H1 as (txs_value & w0 & H0 & H1).
  apply getitem_ok in H0 as [-> H0]. apply iterate_ok in H1 as [-> H1].
  apply bind_inv in H as (txs & w1 & H2 & H).
  apply load_transactions_ok in H2 as [Hs (txs' & -> & Htxs)]. cbn [app] in H.
  apply bind_inv in H as (index & w2 & H3 & H). apply getitem_as_int_ok in H3 as [-> H3].
  apply bind_inv in H as (timestamp & w2 & H4 & H). apply getitem_ok in H4 as [-> H4].
  apply bind_inv in H as (prev & w2 & H5 & H). apply getitem_as_str_ok in H5 as [-> H5].
  apply bind_inv in H as (nonce & w2 & H6 & H). apply getitem_as_int_ok in H6 as [-> H6].
  apply bind_inv in H as (b & w2 & H7 & H). rewrite Block_init_eq in H7.
  cbv zeta in H7. injection H7 as <- <-.
  apply bind_inv in H as (stored & w3 & H8 & H). apply getitem_as_str_ok in H8 as [-> H8].
  apply ret_inv in H as [<- <-].
  split; [destruct (truthy timestamp); [exact Hs|now rewrite stdout_tick]|].
  eexists. split; [reflexivity|].
  repeat split; try assumption. exists txs_value, tx_list. repeat split; assumption.
Qed.

Lemma load_blocks_ok block_list : forall acc w acc' w',
  for_each block_list acc BlockchainStorage.load_block w = Ok acc' w' ->
  stdout w' = stdout w
  /\ exists chain, acc' = acc ++ chain /\ Forall2 block_loaded_from block_list chain.
Proof.
  induction block_list as [|v block_list IH]; intros acc w acc' w' H.
  - apply ret_inv in H as [<- <-]. split; [reflexivity|]. exists []. now rewrite app_nil_r.
  - cbn [for_each] in H. apply bind_inv in H as (acc1 & w1 & H1 & H).
    apply load_block_ok in H1 as [Hs (b & -> & Hb)].
    apply IH in H as [Hs' (chain & -> & Hchain)].
    split; [congruence|]. exists (b :: chain). rewrite <- app_assoc. split; [reflexivity|].
    now constructor.
Qed.

(** What a call of [load_blockchain] that finds a file and returns a chain
    has done. *)
Lemma load_blockchain_ok fuel self w doc blockchain w' :
  dict_get (BlockchainStorage.chain_file self) (files w) = Some doc ->
  BlockchainStorage.load_blockchain fuel self w = Ok (Some blockchain) w' ->
  exists top difficulty chain_value block_list,
    doc = VDict top
    /\ stored_difficulty top = Some difficulty
    /\ dict_get "chain" top = Some chain_value
    /\ elements chain_value = Some block_list
    /\ Forall2 block_loaded_from block_list (Blockchain.chain blockchain)
    /\ blockchain = Blockchain.mk [] (Blockchain.chain blockchain) (Some difficulty)
    /\ stdout w' = stdout w
                   ++ load_report self (Blockchain.chain blockchain)
                        (Blockchain.check_chain_validity blockchain
                           (Blockchain.chain blockchain)).
Proof.
  intros Hfile H. unfold BlockchainStorage.load_blockchain in H.
  apply try_except_some in H.
  2:{ intros e w0 r w1 He. apply bind_inv in He as (u & w2 & _ & He).
      now apply ret_inv in He as [<- _]. }
  apply bind_inv in H as (present & w1 & H1 & H).
  unfold path_exists, dict_in in H1. rewrite Hfile in H1. injection H1 as <- <-.
  cbn [negb] in H.
  apply bind_inv in H as (doc' & w1 & H1 & H).
  unfold json_load in H1. rewrite Hfile in H1. injection H1 as <- <-.
  apply bind_inv in H as (top & w1 & H1 & H).
  destruct doc; try discriminate H1. apply ret_inv in H1 as [<- <-].
  apply bind_inv in H as (difficulty & w1 & H1 & H).
  assert (Hd : stored_difficulty d = Some difficulty /\ w1 = w).
  { unfold stored_difficulty. destruct (dict_get "metadata" d) as [[]|]; try discriminate H1;
      apply ret_inv in H1 as [<- <-]; now split. }
  destruct Hd as [Hd ->].
  apply bind_inv in H as (block_list & w1 & H2 & H).
  apply bind_inv in H2 as (chain_value & w0 & H0 & H2).
  apply getitem_ok in H0 as [-> H0]. apply iterate_ok in H2 as [-> H2].
  apply bind_inv in H as (chain & w1 & H3 & H).
  apply load_blocks_ok in H3 as [Hs (chain' & -> & Hchain)]. cbn [app] in H.
  exists d, difficulty, chain_value, block_list.
  cbn [Blockchain.chain] in H.
  destruct (Blockchain.check_chain_validity _ chain') eqn:Hv;
    unfold bind, print, ret in H; injection H as <- <-;
    cbn [Blockchain.chain stdout]; rewrite Hv;
    (split; [reflexivity|]); (split; [exact Hd|]); (split; [exact H0|]);
    (split; [exact H2|]); (split; [exact Hchain|]); (split; [reflexivity|]);
    unfold load_report; rewrite Hs, <- !app_assoc; reflexivity.
Qed.

(** C9, as amended.  When [load_blockchain] finds a snapshot and returns
    a chain, every rebuilt transaction carries the [tx_hash] that was
    stored, with no comparison against a recomputed one; what it reports
    is the verdict of [check_chain_validity] on the rebuilt chain, a
    warning when that fails, and the chain is returned either way. *)
Theorem load_takes_stored_tx_hash fuel self w doc blockchain w' :
  dict_get (BlockchainStorage.chain_file self) (files w) = Some doc ->
  BlockchainStorage.load_blockchain fuel self w = Ok (Some blockchain) w' ->
  (exists chain_value block_list,
      item doc "chain" = Some chain_value
      /\ elements chain_value = Some block_list
      /\ Forall2 block_loaded_from block_list (Blockchain.chain blockchain))
  /\ stdout w' = stdout w
                 ++ load_report self (Blockchain.chain blockchain)
                      (Blockchain.check_chain_validity blockchain
                         (Blockchain.chain blockchain)).
Proof.
  intros Hfile H.
  destruct (load_blockchain_ok _ _ _ _ _ _ Hfile H)
    as (top & difficulty & chain_value & block_list & -> & _ & Hc & He & Hl & _ & Hs).
  split; [|exact Hs]. exists chain_value, block_list. repeat split; assumption.
Qed.

Lemma forged_snapshot_loads difficulty :
  BlockchainStorage.load_blockchain 0 sample_storage (forged_world difficulty)
  = Ok (Some (Blockchain.mk [] [sample_genesis; forged_block] (Some difficulty)))
       (mkWorld (clock (forged_world difficulty)) 0 (isoformat (forged_world difficulty))
                (entropy (forged_world difficulty)) 0 (files (forged_world difficulty))
                (load_report sample_storage [sample_genesis; forged_block] true)).
Proof. vm_compute. reflexivity. Qed.

(** C9, as amended, at the forged snapshot. *)
Lemma load_takes_stored_tx_hash_witness :
  (exists chain_value block_list,
      item (forged_snapshot (VInt 2)) "chain" = Some chain_value
      /\ elements chain_value = Some block_list
      /\ Forall2 block_loaded_from block_list [sample_genesis; forged_block])
  /\ load_report sample_storage [sample_genesis; forged_block] true
     = [] ++ load_report sample_storage [sample_genesis; forged_block]
               (Blockchain.check_chain_validity
                  (Blockchain.mk [] [sample_genesis; forged_block] (Some (VInt 2)))
                  [sample_genesis; forged_block]).
Proof.
  apply (load_takes_stored_tx_hash 0 sample_storage (forged_world (VInt 2))
           (forged_snapshot (VInt 2))
           (Blockchain.mk [] [sample_genesis; forged_block] (Some (VInt 2)))
           _ eq_refl (forged_snapshot_loads (VInt 2))).
Defined.

(** C9 as it is worded fails: the forged snapshot stores, for its
    transaction, a [tx_hash] that is not the hash of the other stored
    fields, and [load_blockchain] returns the chain with that [tx_hash]
    and reports it valid. *)
Lemma tx_hash_mismatch_is_not_flagged :
  ~ (forall fuel self w blockchain w' b tx,
       BlockchainStorage.load_blockchain fuel self w = Ok (Some blockchain) w' ->
       In b (Blockchain.chain blockchain) -> In tx (Block.transactions b) ->
       Transaction.tx_hash tx <> Transaction.compute_hash tx ->
       In "WARNING: Loaded blockchain failed validation!" (stdout w')).
Proof.
  intros H.
  specialize (H 0%nat sample_storage (forged_world (VInt 2)) _ _ forged_block forged_tx
                (forged_snapshot_loads (VInt 2))).
  assert (Hin : In "WARNING: Loaded blockchain failed validation!"
                   (load_report sample_storage [sample_genesis; forged_block] true)).
  { apply H.
    - right. left. reflexivity.
    - left. reflexivity.
    - intros E. vm_compute in E. discriminate E. }
  vm_compute in Hin. repeat (destruct Hin as [Hin|Hin]; [discriminate Hin|]). exact Hin.
Qed.

(** *** The difficulty of a loaded instance *)

(** C10.  A chain loaded from a snapshot whose metadata records a
    difficulty [d] other than 2 reads [d] as its own [difficulty], and
    yet [is_valid_proof], [proof_of_work] and [check_chain_validity] on
    that instance ask for the two zeros of the class attribute: the
    attribute of the instance is not consulted. *)
Theorem loaded_difficulty_is_not_consulted fuel self w top metadata d blockchain w' :
  dict_get (BlockchainStorage.chain_file self) (files w) = Some (VDict top) ->
  dict_get "metadata" top = Some (VDict metadata) ->
  dict_get "difficulty" metadata = Some d ->
  d <> VInt 2 ->
  BlockchainStorage.load_blockchain fuel self w = Ok (Some blockchain) w' ->
  Blockchain.get_difficulty blockchain = d
  /\ (forall block h,
        Blockchain.is_valid_proof blockchain block h
        = startswith h "00" && String.eqb h (Block.compute_hash block))
  /\ (forall fuel' block b' h w0 w1,
        Blockchain.proof_of_work fuel' blockchain block w0 = Ok (b', h) w1 ->
        h = Block.compute_hash b'
        /\ startswith h "00" = true
        /\ forall n, 0 <= n < Block.nonce b' ->
             startswith (Block.compute_hash (Block.set_nonce block n)) "00" = false)
  /\ (forall chain,
        Blockchain.check_chain_validity blockchain chain = true <->
        linked_from "0" chain /\ hashes_recompute chain
        /\ forall b, In b chain -> Block.index b <> 0 ->
                     startswith (Block.hash b) "00" = true).
Proof.
  intros Hfile Hm Hd _ H.
  destruct (load_blockchain_ok _ _ _ _ _ _ Hfile H)
    as (top' & difficulty & _ & _ & Etop & Hsd & _ & _ & _ & Ebc & _).
  injection Etop as <-. unfold stored_difficulty in Hsd. rewrite Hm, Hd in Hsd.
  injection Hsd as <-.
  split; [rewrite Ebc; reflexivity|]. split; [reflexivity|]. split.
  - intros fuel' block b' h w0 w1 Hpow. unfold Blockchain.proof_of_work in Hpow.
    apply pow_loop_returns in Hpow as (_ & k & _ & [Hk Hlt] & -> & ->).
    cbn [Block.nonce Block.set_nonce] in *. rewrite Z.add_0_l in *.
    split; [reflexivity|]. split; [exact Hk|].
    intros n Hn. specialize (Hlt (Z.to_nat n) ltac:(lia)).
    rewrite Z.add_0_l, Z2Nat.id in Hlt by lia. exact Hlt.
  - intros chain. apply check_chain_from_true.
Qed.

(** C10 at the forged snapshot with a recorded difficulty of 5: the
    loaded instance reads 5, and a hash with two leading zeros passes. *)
Lemma loaded_difficulty_is_not_consulted_witness :
  Blockchain.get_difficulty (Blockchain.mk [] [sample_genesis; forged_block] (Some (VInt 5)))
  = VInt 5
  /\ Blockchain.is_valid_proof
       (Blockchain.mk [] [sample_genesis; forged_block] (Some (VInt 5)))
       forged_block (Block.hash forged_block)
     = startswith (Block.hash forged_block) "00"
       && String.eqb (Block.hash forged_block) (Block.compute_hash forged_block).
Proof.
  destruct (loaded_difficulty_is_not_consulted 0 sample_storage (forged_world (VInt 5))
              _ _ (VInt 5) _ _ eq_refl eq_refl eq_refl ltac:(discriminate)
              (forged_snapshot_loads (VInt 5))) as (H1 & H2 & _).
  split; [exact H1|apply H2].
Defined.

Example two_zeros_pass_under_recorded_difficulty_5 :
  Blockchain.is_valid_proof
    (Blockchain.mk [] [sample_genesis; forged_block] (Some (VInt 5)))
    forged_block (Block.hash forged_block) = true
  /\ leading_zeros (Block.hash forged_block) = 2%nat.
Proof. vm_compute. split; reflexivity. Qed.

(* ------------------------------------------------------------------ *)
(** ** Properties of zk_proofs.py *)

Lemma fromhex_chars_hex_of_byte b rest :
  fromhex_chars (hex_of_byte b ++ rest) = option_map (cons b) (fromhex_chars rest).
Proof. destruct b; reflexivity. Qed.

Lemma fromhex_hex bs : fromhex (hex bs) = Some bs.
Proof.
  unfold fromhex, hex. rewrite list_ascii_of_string_of_list_ascii.
  induction bs as [|b bs IH]; [reflexivity|].
  cbn [flat_map]. now rewrite fromhex_chars_hex_of_byte, IH.
Qed.

Lemma hex_nonempty bs : bs <> [] -> String.eqb (hex bs) EmptyString = false.
Proof. destruct bs as [|b bs]; [contradiction|]. intros _. now destruct b. Qed.

Lemma pure_ret {A} (a : A) : pure_like (ret a).
Proof. intros w. left. now exists a. Qed.

Lemma pure_raise {A} e : pure_like (@raise A e).
Proof. intros w. right. now exists e. Qed.

Lemma pure_bind {A B} (m : M A) (k : A -> M B) :
  pure_like m -> (forall a, pure_like (k a)) -> pure_like (bind m k).
Proof.
  intros Hm Hk w. unfold bind. destruct (Hm w) as [[a ->]|[e ->]]; [apply Hk|].
  right. now exists e.
Qed.

Lemma pure_lift {A} (r : exn + A) : pure_like (lift r).
Proof. destruct r; [apply pure_raise|apply pure_ret]. Qed.

Section ProofFacts.
Variable rsa : pss_scheme.
Variable self : ZKProofGenerator.t rsa.

Lemma generate_kyc_proof_eq customer_data level issuer w seconds :
  int_of_float (clock w (S (ticks w))) = inr seconds ->
  ZKProofGenerator.generate_kyc_proof rsa self customer_data level issuer w =
  bind (sign rsa (ZKProofGenerator.private_key rsa self)
             (encode (json_dumps
                        (VDict (dict_pop "proof_signature"
                                  (proof_of customer_data level issuer w seconds VNone))))))
       (fun signature =>
          ret (VDict (proof_of customer_data level issuer w seconds (VStr (hex signature)))))
       (signing_world w).
Proof.
  intros Hs. unfold ZKProofGenerator.generate_kyc_proof.
  unfold bind at 1. rewrite time_eq.
  unfold bind at 1. unfold ZKProofGenerator._generate_challenge. unfold bind at 1.
  unfold urandom at 1. unfold ret at 1.
  unfold bind at 1. unfold ZKProofGenerator._generate_proof_id.
  unfold bind at 1. unfold urandom at 1.
  unfold bind at 1. rewrite time_eq. cbn [clock ticks tick].
  unfold bind at 1. rewrite Hs. cbn [lift]. unfold ret at 1. unfold ret at 1.
  unfold bind at 1. rewrite time_eq.
  unfold ZKProofGenerator._sign_proof, ZKProofGenerator._create_commitment.
  cbn [clock ticks tick isoformat entropy drawn files stdout dict_pop dict_set String.eqb Ascii.eqb Bool.eqb].
  unfold proof_of, commitment_of, challenge_of, proof_id_of, generated_at_of,
    public_claims_of, claims_timestamp, drawn_bytes, signing_world, tick.
  cbn [clock ticks tick isoformat entropy drawn files stdout dict_pop dict_set
       String.eqb Ascii.eqb Bool.eqb].
  reflexivity.
Qed.

Lemma verify_kyc_proof_generated customer_data level issuer w seconds signature w1 :
  key_pair_ok self ->
  signature <> [] ->
  verify rsa (public_key_of rsa (ZKProofGenerator.private_key rsa self)) signature
         (encode (json_dumps
                    (VDict (dict_pop "proof_signature"
                              (proof_of customer_data level issuer w seconds VNone)))))
  = true ->
  float_ltb (float_sub (clock w1 (ticks w1)) (generated_at_of w)) ZKProofGenerator.day = true ->
  exists result w2,
    ZKProofGenerator.verify_kyc_proof rsa self
      (proof_of customer_data level issuer w seconds (VStr (hex signature))) None w1
    = Ok (VDict result) w2
    /\ dict_get "valid" result = Some (VBool true)
    /\ dict_get "verification_level" result = Some (VStr level).
Proof.
  intros Hkey Hne Hver Hage.
  unfold ZKProofGenerator.verify_kyc_proof, try_except.
  cbv beta zeta.
  assert (Hsig : dict_get "proof_signature"
                   (proof_of customer_data level issuer w seconds (VStr (hex signature)))
                 = Some (VStr (hex signature))) by reflexivity.
  rewrite Hsig. cbn [truthy]. rewrite (hex_nonempty _ Hne). cbn [negb].
  rewrite fromhex_hex.
  rewrite (bind_ok _ _ _ signature w1 eq_refl).
  assert (Hst : ZKProofGenerator._validate_proof_structure rsa self
                  (proof_of customer_data level issuer w seconds (VStr (hex signature))) w1
                = Ok true w1) by reflexivity.
  rewrite (bind_ok _ _ _ _ _ Hst).
  rewrite (bind_ok _ _ _ _ _ (time_eq w1)).
  assert (Hgen : dict_get "generated_at"
                   (proof_of customer_data level issuer w seconds (VStr (hex signature)))
                 = Some (VFloat (generated_at_of w))) by reflexivity.
  assert (Hpc : dict_get "public_claims"
                  (proof_of customer_data level issuer w seconds (VStr (hex signature)))
                = Some (public_claims_of level issuer w)) by reflexivity.
  assert (Hcopy : dict_pop "proof_signature"
                    (proof_of customer_data level issuer w seconds (VStr (hex signature)))
                  = dict_pop "proof_signature"
                      (proof_of customer_data level issuer w seconds VNone)) by reflexivity.
  rewrite Hgen, Hpc, Hcopy, Hkey, Hver.
  rewrite (bind_ok _ _ _ (float_sub (clock w1 (ticks w1)) (generated_at_of w)) (tick w1) eq_refl).
  rewrite (bind_ok _ _ _ (VStr level) (tick w1) eq_refl).
  rewrite (bind_ok _ _ _ (VStr issuer) (tick w1) eq_refl).
  rewrite (bind_ok _ _ _ _ _ (time_eq (tick w1))).
  rewrite Hage. cbn [andb negb].
  eexists _, _. split; [reflexivity|]. split; reflexivity.
Qed.

Lemma pure_contains v k : pure_like (ZKProofGenerator.contains v k).
Proof. destruct v; first [apply pure_ret|apply pure_raise]. Qed.

Lemma pure_get v k : pure_like (ZKProofGenerator.get v k).
Proof. destruct v; first [apply pure_ret|apply pure_raise]. Qed.

Lemma pure_float_minus x v : pure_like (ZKProofGenerator.float_minus x v).
Proof.
  destruct v; try apply pure_raise; try apply pure_ret;
    (apply pure_bind; [apply pure_lift|intros; apply pure_ret]).
Qed.

Lemma pure_all_claims_in v claims : pure_like (ZKProofGenerator.all_claims_in v claims).
Proof.
  induction claims as [|c claims IH]; [apply pure_ret|].
  cbn [ZKProofGenerator.all_claims_in]. apply pure_bind; [apply pure_contains|].
  intros [|]; [exact IH|apply pure_ret].
Qed.

Lemma pure_validate_proof_structure proof :
  pure_like (ZKProofGenerator._validate_proof_structure rsa self proof).
Proof.
  unfold ZKProofGenerator._validate_proof_structure.
  destruct (negb _); [apply pure_ret|apply pure_all_claims_in].
Qed.

(** [verify_kyc_proof] always returns a dict with a boolean under
    ['valid']: either a refusal with a reason, or the three verdicts and
    their conjunction. *)
Lemma verify_kyc_proof_cases proof key w :
  exists result w',
    ZKProofGenerator.verify_kyc_proof rsa self proof key w = Ok (VDict result) w'
    /\ ((dict_get "valid" result = Some (VBool false)
         /\ exists reason, dict_get "reason" result = Some (VStr reason))
        \/ exists signature_valid structure_valid proof_age,
             ZKProofGenerator.float_minus (clock w (ticks w)) (generated_at_or_0 proof) (tick w)
             = Ok proof_age (tick w)
             /\ dict_get "signature_verified" result = Some (VBool signature_valid)
             /\ dict_get "structure_valid" result = Some (VBool structure_valid)
             /\ dict_get "not_expired" result
                = Some (VBool (float_ltb proof_age ZKProofGenerator.day))
             /\ dict_get "valid" result
                = Some (VBool (signature_valid && structure_valid
                               && float_ltb proof_age ZKProofGenerator.day))
             /\ exists verification_level,
                  ZKProofGenerator.get (public_claims_or_empty proof) "verification_level"
                                       (tick w)
                  = Ok verification_level (tick w)
                  /\ dict_get "verification_level" result = Some verification_level).
Proof.
  unfold ZKProofGenerator.verify_kyc_proof. cbv beta zeta.
  fold (generated_at_or_0 proof). fold (public_claims_or_empty proof).
  match goal with |- context [try_except ?m ?h] => set (body := m); set (handler := h) end.
  assert (Hbody :
            match body w with
            | Ok r w' =>
                exists result,
                  r = VDict result
                  /\ ((dict_get "valid" result = Some (VBool false)
                       /\ exists reason, dict_get "reason" result = Some (VStr reason))
                      \/ exists signature_valid structure_valid proof_age,
                           ZKProofGenerator.float_minus (clock w (ticks w))
                                                        (generated_at_or_0 proof) (tick w)
                           = Ok proof_age (tick w)
                           /\ dict_get "signature_verified" result
                              = Some (VBool signature_valid)
                           /\ dict_get "structure_valid" result = Some (VBool structure_valid)
                           /\ dict_get "not_expired" result
                              = Some (VBool (float_ltb proof_age ZKProofGenerator.day))
                           /\ dict_get "valid" result
                              = Some (VBool (signature_valid && structure_valid
                                             && float_ltb proof_age ZKProofGenerator.day))
                           /\ exists verification_level,
                                ZKProofGenerator.get (public_claims_or_empty proof)
                                                     "verification_level" (tick w)
                                = Ok verification_level (tick w)
                                /\ dict_get "verification_level" result
                                   = Some verification_level)
            | Raise _ _ => True
            | OutOfFuel => False
            end).
  { subst body. clear handler.
    destruct (negb (truthy _)) eqn:Htruthy.
    { eexists. split; [reflexivity|]. left. split; [reflexivity|]. eexists. reflexivity. }
    match goal with |- context [bind ?m _] => set (sig_step := m) end.
    assert (Hsig : pure_like sig_step).
    { subst sig_step. destruct (match dict_get "proof_signature" proof with
                                | Some v => v
                                | None => VNone
                                end); try apply pure_raise.
      destruct (fromhex s); [apply pure_ret|apply pure_raise]. }
    unfold bind at 1. destruct (Hsig w) as [[signature ->]|[e ->]]; [|exact I].
    unfold bind at 1.
    destruct (pure_validate_proof_structure proof w) as [[st ->]|[e ->]]; [|exact I].
    unfold bind at 1. rewrite time_eq.
    unfold bind at 1.
    destruct (pure_float_minus (clock w (ticks w)) (generated_at_or_0 proof) (tick w))
      as [[age Hage]|[e He]]; rewrite ?Hage, ?He; [|exact I].
    unfold bind at 1.
    destruct (pure_get (public_claims_or_empty proof) "verification_level" (tick w))
      as [[vl Hvl]|[e He]]; rewrite ?Hvl, ?He; [|exact I].
    unfold bind at 1.
    destruct (pure_get (public_claims_or_empty proof) "issuing_institution" (tick w))
      as [[ii ->]|[e ->]]; [|exact I].
    unfold bind at 1. rewrite time_eq.
    destruct (negb (_ && _ && _)) eqn:Hov.
    - eexists. split; [reflexivity|]. right.
      exists (verify rsa match key with
                         | Some k => k
                         | None => ZKProofGenerator.public_key rsa self
                         end signature
                     (encode (json_dumps (VDict (dict_pop "proof_signature" proof))))),
             st, age.
      split; [reflexivity|]. do 4 (split; [reflexivity|]).
      exists vl. split; reflexivity.
    - eexists. split; [reflexivity|]. right.
      exists (verify rsa match key with
                         | Some k => k
                         | None => ZKProofGenerator.public_key rsa self
                         end signature
                     (encode (json_dumps (VDict (dict_pop "proof_signature" proof))))),
             st, age.
      split; [reflexivity|]. do 4 (split; [reflexivity|]).
      exists vl. split; reflexivity. }
  unfold try_except. destruct (body w) as [r w'|e w'|].
  - destruct Hbody as (result & -> & H). exists result, w'. split; [reflexivity|exact H].
  - subst handler. eexists _, _. split; [reflexivity|]. left. split; [reflexivity|].
    eexists. reflexivity.
  - contradiction.
Qed.
End ProofFacts.

Lemma toy_scheme_correct : pss_correct toy_scheme.
Proof.
  intros sk data w. exists (x01%byte :: data), w. split; [reflexivity|].
  split; [discriminate|]. cbn [verify toy_scheme]. unfold bytes_eqb.
  now destruct (list_eq_dec _ _ _).
Qed.

(** What a returning call of [generate_kyc_proof] has built. *)
Lemma generate_kyc_proof_returns rsa self customer_data level issuer w proof w1 :
  ZKProofGenerator.generate_kyc_proof rsa self customer_data level issuer w = Ok proof w1 ->
  exists seconds signature,
    int_of_float (clock w (S (ticks w))) = inr seconds
    /\ sign rsa (ZKProofGenerator.private_key rsa self)
            (encode (json_dumps
                       (VDict (dict_pop "proof_signature"
                                 (proof_of customer_data level issuer w seconds VNone)))))
            (signing_world w) = Ok signature w1
    /\ proof = VDict (proof_of customer_data level issuer w seconds (VStr (hex signature))).
Proof.
  intros H. destruct (int_of_float (clock w (S (ticks w)))) as [e|seconds] eqn:Hs.
  - exfalso. revert H. unfold ZKProofGenerator.generate_kyc_proof.
    unfold bind at 1. rewrite time_eq.
    unfold bind at 1. unfold ZKProofGenerator._generate_challenge. unfold bind at 1.
    unfold urandom at 1. unfold ret at 1.
    unfold bind at 1. unfold ZKProofGenerator._generate_proof_id.
    unfold bind at 1. unfold urandom at 1.
    unfold bind at 1. rewrite time_eq. cbn [clock ticks tick].
    unfold bind at 1. rewrite Hs. cbn [lift]. discriminate.
  - rewrite (generate_kyc_proof_eq rsa self _ _ _ _ _ Hs) in H.
    apply bind_inv in H as (signature & w' & Hsign & H). apply ret_inv in H as [<- <-].
    exists seconds, signature. repeat split. exact Hsign.
Qed.

(** C5.  With a signature scheme that accepts what it signed, and a
    generator whose public key belongs to its private key:
    [generate_kyc_proof] returns whenever the clock reading it truncates
    is finite; [verify_kyc_proof], called with the generator's own key on
    the proof just returned, answers with [valid] true as soon as the
    clock it reads is less than 86400 seconds past [generated_at]; and
    for every proof and key the answer is either a refusal with a reason
    or carries the three verdicts, with [not_expired] the test
    [now - generated_at < 86400] and [valid] their conjunction. *)
Theorem generated_proof_verifies rsa (self : ZKProofGenerator.t rsa) :
  pss_correct rsa -> key_pair_ok self ->
  (forall customer_data level issuer w seconds,
      int_of_float (clock w (S (ticks w))) = inr seconds ->
      exists proof w1,
        ZKProofGenerator.generate_kyc_proof rsa self customer_data level issuer w
        = Ok (VDict proof) w1)
  /\ (forall customer_data level issuer w proof w1 generated_at,
        ZKProofGenerator.generate_kyc_proof rsa self customer_data level issuer w
        = Ok (VDict proof) w1 ->
        dict_get "generated_at" proof = Some (VFloat generated_at) ->
        float_ltb (float_sub (clock w1 (ticks w1)) generated_at) ZKProofGenerator.day = true ->
        exists result w2,
          ZKProofGenerator.verify_kyc_proof rsa self proof None w1 = Ok (VDict result) w2
          /\ dict_get "valid" result = Some (VBool true))
  /\ (forall proof key w,
        exists result w',
          ZKProofGenerator.verify_kyc_proof rsa self proof key w = Ok (VDict result) w'
          /\ ((dict_get "valid" result = Some (VBool false)
               /\ exists reason, dict_get "reason" result = Some (VStr reason))
              \/ exists signature_valid structure_valid proof_age,
                   ZKProofGenerator.float_minus (clock w (ticks w)) (generated_at_or_0 proof)
                                                (tick w)
                   = Ok proof_age (tick w)
                   /\ dict_get "signature_verified" result = Some (VBool signature_valid)
                   /\ dict_get "structure_valid" result = Some (VBool structure_valid)
                   /\ dict_get "not_expired" result
                      = Some (VBool (float_ltb proof_age ZKProofGenerator.day))
                   /\ dict_get "valid" result
                      = Some (VBool (signature_valid && structure_valid
                                     && float_ltb proof_age ZKProofGenerator.day)))).
Proof.
  intros Hrsa Hkey. split; [|split].
  - intros customer_data level issuer w seconds Hs.
    rewrite (generate_kyc_proof_eq rsa self _ _ _ _ _ Hs).
    destruct (Hrsa (ZKProofGenerator.private_key rsa self)
                   (encode (json_dumps
                              (VDict (dict_pop "proof_signature"
                                        (proof_of customer_data level issuer w seconds VNone)))))
                   (signing_world w)) as (signature & w1 & Hsign & _ & _).
    exists (proof_of customer_data level issuer w seconds (VStr (hex signature))), w1.
    now rewrite (bind_ok _ _ _ _ _ Hsign).
  - intros customer_data level issuer w proof w1 generated_at Hgen Hg Hage.
    apply generate_kyc_proof_returns in Hgen as (seconds & signature & Hs & Hsign & Hp).
    injection Hp as ->.
    destruct (Hrsa (ZKProofGenerator.private_key rsa self)
                   (encode (json_dumps
                              (VDict (dict_pop "proof_signature"
                                        (proof_of customer_data level issuer w seconds VNone)))))
                   (signing_world w)) as (signature' & w1' & Hsign' & Hne & Hver).
    rewrite Hsign in Hsign'. injection Hsign' as <- <-.
    assert (generated_at = generated_at_of w) as ->.
    { cbn [proof_of dict_get String.eqb Ascii.eqb Bool.eqb] in Hg. now injection Hg. }
    destruct (verify_kyc_proof_generated rsa self customer_data level issuer w seconds
                signature w1 Hkey Hne Hver Hage) as (result & w2 & E & Hv & _).
    exists result, w2. split; assumption.
  - intros proof key w.
    destruct (verify_kyc_proof_cases rsa self proof key w) as (result & w' & E & H).
    exists result, w'. split; [exact E|].
    destruct H as [H|(sv & st & age & H1 & H2 & H3 & H4 & H5 & _)]; [now left|right].
    exists sv, st, age. repeat split; assumption.
Qed.

(** C5 at the stand-in scheme: John Doe's proof, verified in the world
    its generation left. *)
Lemma generated_proof_verifies_witness :
  (exists proof w1,
      ZKProofGenerator.generate_kyc_proof toy_scheme toy_generator john_doe "CDD" "Bank_A"
                                          (sample_world (flt 1700000232 0))
      = Ok (VDict proof) w1)
  /\ (exists result w2,
         ZKProofGenerator.verify_kyc_proof toy_scheme toy_generator (sample_proof "CDD") None
                                           sample_proof_world
         = Ok (VDict result) w2
         /\ dict_get "valid" result = Some (VBool true)).
Proof.
  destruct (generated_proof_verifies toy_scheme toy_generator toy_scheme_correct eq_refl)
    as (Hreturns & Hverifies & _).
  split.
  - apply (Hreturns john_doe "CDD" "Bank_A" (sample_world (flt 1700000232 0)) 1700000100).
    vm_compute. reflexivity.
  - apply (Hverifies john_doe "CDD" "Bank_A" (sample_world (flt 1700000232 0))
                     (sample_proof "CDD") sample_proof_world (flt 1700000232 0)).
    + vm_compute. reflexivity.
    + vm_compute. reflexivity.
    + vm_compute. reflexivity.
Defined.

(** C6, as amended.  What [generate_kyc_proof] puts in the proof besides
    the commitment and the signature (the challenge, the proof id, the
    two timestamps, the level and the institution) is fixed before the
    customer data is looked at; the customer data enters through the
    SHA-256 commitment alone, and through the signature over the proof
    that holds it.  The keys of the proof are its own twelve field names:
    a key or a value of the customer data occurs in the proof only where
    it coincides with one of the proof's own. *)
Theorem customer_data_enters_by_commitment_only rsa (self : ZKProofGenerator.t rsa)
    level issuer w :
  exists challenge proof_id timestamp generated_at,
    forall customer_data proof w1,
      ZKProofGenerator.generate_kyc_proof rsa self customer_data level issuer w = Ok proof w1 ->
      let commitment_hash :=
        SHA256.hexdigest
          (encode (json_dumps
                     (VDict [("customer_pii", customer_data);
                             ("verification_details",
                              VDict [("level", VStr level);
                                     ("issuer", VStr issuer);
                                     ("timestamp", VFloat timestamp)])]))) in
      let public_claims :=
        VDict [("verification_level", VStr level);
               ("issuing_institution", VStr issuer);
               ("verification_completed", VBool true);
               ("meets_compliance", VBool true);
               ("timestamp", VFloat timestamp)] in
      exists signature,
        sign rsa (ZKProofGenerator.private_key rsa self)
             (encode (json_dumps
                        (VDict [("proof_type", VStr "kyc_verification_proof");
                                ("commitment_hash", VStr commitment_hash);
                                ("challenge", VStr challenge);
                                ("public_claims", public_claims);
                                ("proof_id", VStr proof_id);
                                ("generated_at", VFloat generated_at)])))
             (signing_world w) = Ok signature w1
        /\ proof = VDict [("proof_type", VStr "kyc_verification_proof");
                          ("commitment_hash", VStr commitment_hash);
                          ("challenge", VStr challenge);
                          ("public_claims", public_claims);
                          ("proof_signature", VStr (hex signature));
                          ("proof_id", VStr proof_id);
                          ("generated_at", VFloat generated_at)]
        /\ all_keys proof
           = ["proof_type"; "commitment_hash"; "challenge"; "public_claims";
              "verification_level"; "issuing_institution"; "verification_completed";
              "meets_compliance"; "timestamp"; "proof_signature"; "proof_id";
              "generated_at"].
Proof.
  exists (challenge_of w),
         (match int_of_float (clock w (S (ticks w))) with
          | inr seconds => proof_id_of w seconds
          | inl _ => EmptyString
          end),
         (claims_timestamp w), (generated_at_of w).
  intros customer_data proof w1 H. cbv zeta.
  apply generate_kyc_proof_returns in H as (seconds & signature & Hs & Hsign & ->).
  rewrite Hs. cbv iota beta. exists signature.
  unfold proof_of, commitment_of, public_claims_of, dict_pop in *.
  cbn [String.eqb Ascii.eqb Bool.eqb] in Hsign.
  split; [exact Hsign|].
  split; [reflexivity|].
  reflexivity.
Qed.

(** C6, as amended, at John Doe's proof. *)
Lemma customer_data_enters_by_commitment_only_witness :
  exists challenge proof_id timestamp generated_at signature,
    VDict (sample_proof "CDD")
    = VDict [("proof_type", VStr "kyc_verification_proof");
             ("commitment_hash",
              VStr (SHA256.hexdigest
                      (encode (json_dumps
                                 (VDict [("customer_pii", john_doe);
                                         ("verification_details",
                                          VDict [("level", VStr "CDD");
                                                 ("issuer", VStr "Bank_A");
                                                 ("timestamp", VFloat timestamp)])])))));
             ("challenge", VStr challenge);
             ("public_claims",
              VDict [("verification_level", VStr "CDD");
                     ("issuing_institution", VStr "Bank_A");
                     ("verification_completed", VBool true);
                     ("meets_compliance", VBool true);
                     ("timestamp", VFloat timestamp)]);
             ("proof_signature", VStr (hex signature));
             ("proof_id", VStr proof_id);
             ("generated_at", VFloat generated_at)].
Proof.
  destruct (customer_data_enters_by_commitment_only toy_scheme toy_generator "CDD" "Bank_A"
              (sample_world (flt 1700000232 0)))
    as (challenge & proof_id & timestamp & generated_at & H).
  assert (Hgen : ZKProofGenerator.generate_kyc_proof toy_scheme toy_generator john_doe
                   "CDD" "Bank_A" (sample_world (flt 1700000232 0))
                 = Ok (VDict (sample_proof "CDD")) sample_proof_world)
    by (vm_compute; reflexivity).
  destruct (H john_doe (VDict (sample_proof "CDD")) sample_proof_world Hgen)
    as (signature & _ & Hshape & _).
  exists challenge, proof_id, timestamp, generated_at, signature. exact Hshape.
Defined.

Lemma coinciding_proof_generated :
  ZKProofGenerator.generate_kyc_proof toy_scheme toy_generator (VDict coinciding_data)
    "CDD" "Bank_A" (sample_world (flt 1700000232 0))
  = Ok (VDict (sample_proof_for (VDict coinciding_data) "CDD")) sample_proof_world.
Proof. vm_compute. reflexivity. Qed.

(** C6 as it is worded fails: for the customer data
    [{"verification_level": "CDD"}] and level CDD, the proof holds the
    key and the value verbatim, among its public claims. *)
Lemma proof_holds_coinciding_key_and_value :
  ~ (forall rsa (self : ZKProofGenerator.t rsa) (customer_data : dict) level issuer w proof w1,
       pss_correct rsa ->
       ZKProofGenerator.generate_kyc_proof rsa self (VDict customer_data) level issuer w
       = Ok proof w1 ->
       forall k v, In (k, v) customer_data ->
                   ~ In k (all_keys proof) /\ ~ In v (subvalues proof)).
Proof.
  intros H.
  destruct (H toy_scheme toy_generator coinciding_data "CDD" "Bank_A" _ _ _
              toy_scheme_correct coinciding_proof_generated
              "verification_level" (VStr "CDD") (or_introl eq_refl)) as [Hkey _].
  apply Hkey. vm_compute. do 4 right. left. reflexivity.
Qed.

Lemma level_value_rank level default r :
  level_rank level = Some r -> ZKProofGenerator.level_value (VStr level) default = ret r.
Proof.
  unfold level_rank, ZKProofGenerator.level_value, ZKProofGenerator.level_hierarchy.
  cbn [dict_get].
  destruct (String.eqb level "CIP"); [now intros [= <-]|].
  destruct (String.eqb level "CDD"); [now intros [= <-]|].
  destruct (String.eqb level "EDD"); [now intros [= <-]|discriminate].
Qed.

Section Sharing.
Variable rsa : pss_scheme.
Variable self : ZKProofGenerator.t rsa.
Hypothesis rsa_correct : pss_correct rsa.

Lemma sharing_refused_when_invalid original_proof requesting required w verification w1 :
  ZKProofGenerator.verify_kyc_proof rsa self original_proof None w = Ok (VDict verification) w1 ->
  dict_get "valid" verification = Some (VBool false) ->
  ZKProofGenerator.generate_cross_institution_proof rsa self original_proof requesting required w
  = Ok (VDict [("sharing_approved", VBool false);
               ("reason", VStr "Original proof is invalid");
               ("timestamp", VFloat (clock w1 (ticks w1)))]) (tick w1).
Proof.
  intros Hver Hvalid. unfold ZKProofGenerator.generate_cross_institution_proof.
  rewrite (bind_ok _ _ _ _ _ Hver).
  rewrite (bind_ok _ _ _ (VBool false) w1) by (unfold getitem; now rewrite Hvalid).
  cbn [truthy negb]. now rewrite (bind_ok _ _ _ _ _ (time_eq w1)).
Qed.

Lemma sharing_decided_by_rank original_proof requesting required w verification w1
      original_level ro rr :
  ZKProofGenerator.verify_kyc_proof rsa self original_proof None w = Ok (VDict verification) w1 ->
  dict_get "valid" verification = Some (VBool true) ->
  dict_get "verification_level" verification = Some (VStr original_level) ->
  level_rank original_level = Some ro ->
  level_rank required = Some rr ->
  exists result w2,
    ZKProofGenerator.generate_cross_institution_proof rsa self original_proof requesting
                                                      required w
    = Ok (VDict result) w2
    /\ dict_get "sharing_approved" result = Some (VBool (rr <=? ro))
    /\ (ro < rr -> exists reason, dict_get "reason" result = Some (VStr reason)).
Proof.
  intros Hver Hvalid Hlevel Hro Hrr. unfold ZKProofGenerator.generate_cross_institution_proof.
  rewrite (bind_ok _ _ _ _ _ Hver).
  rewrite (bind_ok _ _ _ (VBool true) w1) by (unfold getitem; now rewrite Hvalid).
  cbn [truthy negb]. cbv zeta. rewrite Hlevel.
  rewrite (bind_ok _ _ _ ro w1) by now rewrite (level_value_rank _ _ _ Hro).
  rewrite (bind_ok _ _ _ rr w1) by now rewrite (level_value_rank _ _ _ Hrr).
  destruct (Z.ltb ro rr) eqn:Hlt.
  - rewrite (bind_ok _ _ _ _ _ (time_eq w1)).
    eexists _, _. split; [reflexivity|]. cbn [dict_get String.eqb Ascii.eqb Bool.eqb].
    apply Z.ltb_lt in Hlt. split.
    + f_equal. f_equal. symmetry. apply Z.leb_gt. exact Hlt.
    + intros _. eexists. reflexivity.
  - apply Z.ltb_ge in Hlt.
    rewrite (bind_ok _ _ _ (match dict_get "issuing_institution" verification with
                            | Some x => x
                            | None => VNone
                            end) w1) by reflexivity.
    rewrite (bind_ok _ _ _ _ _ (time_eq w1)).
    unfold ZKProofGenerator._sign_proof.
    match goal with |- context [bind (sign rsa ?sk ?data) _ ?w0] =>
      destruct (rsa_correct sk data w0) as (signature & w2 & Hsign & _ & _)
    end.
    rewrite (bind_ok _ _ _ _ _ Hsign).
    eexists _, _. split; [reflexivity|]. cbn [dict_set dict_get String.eqb Ascii.eqb Bool.eqb].
    split.
    + f_equal. f_equal. symmetry. apply Z.leb_le. exact Hlt.
    + intros Hc. lia.
Qed.
End Sharing.

(** C7.  For every original proof, [verify_kyc_proof] gives a verdict.
    When the proof is not valid, sharing is denied with the reason
    "Original proof is invalid".  When it is valid and its level and the
    required level are among CIP, CDD and EDD, sharing is approved
    exactly when the rank of the original level is at least the rank of
    the required one, and a denial carries a reason.  In particular CIP
    against a required EDD is denied and EDD against a required CDD is
    approved. *)
Theorem cross_institution_sharing_follows_rank rsa (self : ZKProofGenerator.t rsa)
    original_proof requesting required w :
  pss_correct rsa ->
  exists verification w1 valid,
    ZKProofGenerator.verify_kyc_proof rsa self original_proof None w
    = Ok (VDict verification) w1
    /\ dict_get "valid" verification = Some (VBool valid)
    /\ (valid = false ->
        ZKProofGenerator.generate_cross_institution_proof rsa self original_proof requesting
                                                          required w
        = Ok (VDict [("sharing_approved", VBool false);
                     ("reason", VStr "Original proof is invalid");
                     ("timestamp", VFloat (clock w1 (ticks w1)))]) (tick w1))
    /\ (valid = true ->
        forall public_claims original_level ro rr,
          dict_get "public_claims" original_proof = Some (VDict public_claims) ->
          dict_get "verification_level" public_claims = Some (VStr original_level) ->
          level_rank original_level = Some ro ->
          level_rank required = Some rr ->
          exists result w2,
            ZKProofGenerator.generate_cross_institution_proof rsa self original_proof
                                                              requesting required w
            = Ok (VDict result) w2
            /\ (dict_get "sharing_approved" result = Some (VBool true) <-> rr <= ro)
            /\ (ro < rr ->
                dict_get "sharing_approved" result = Some (VBool false)
                /\ exists reason, dict_get "reason" result = Some (VStr reason))
            /\ (original_level = "CIP" -> required = "EDD" ->
                dict_get "sharing_approved" result = Some (VBool false))
            /\ (original_level = "EDD" -> required = "CDD" ->
                dict_get "sharing_approved" result = Some (VBool true))).
Proof.
  intros Hrsa.
  destruct (verify_kyc_proof_cases rsa self original_proof None w)
    as (verification & w1 & Hver & Hcases).
  assert (Hvalid : exists valid, dict_get "valid" verification = Some (VBool valid)).
  { destruct Hcases as [[H _]|(sv & st & age & _ & _ & _ & _ & H & _)]; eauto. }
  destruct Hvalid as (valid & Hvalid).
  exists verification, w1, valid. split; [exact Hver|]. split; [exact Hvalid|]. split.
  - intros ->. now apply sharing_refused_when_invalid with verification.
  - intros -> public_claims original_level ro rr Hpc Hlevel Hro Hrr.
    assert (Hvl : dict_get "verification_level" verification = Some (VStr original_level)).
    { destruct Hcases as [[H _]|(sv & st & age & _ & _ & _ & _ & _ & vl & Hget & Hvl)];
        [congruence|].
      unfold public_claims_or_empty in Hget. rewrite Hpc in Hget.
      cbn [ZKProofGenerator.get] in Hget. rewrite Hlevel in Hget.
      apply ret_inv in Hget as [<- _]. exact Hvl. }
    destruct (sharing_decided_by_rank rsa self Hrsa original_proof requesting required w
                verification w1 original_level ro rr Hver Hvalid Hvl Hro Hrr)
      as (result & w2 & E & Happroved & Hreason).
    exists result, w2. split; [exact E|]. rewrite Happroved. split; [|split; [|split]].
    + split.
      * intros [= H]. now apply Z.leb_le.
      * intros H. apply Z.leb_le in H. now rewrite H.
    + intros Hlt. split; [|now apply Hreason].
      apply Z.leb_gt in Hlt. now rewrite Hlt.
    + intros -> ->. injection Hro as <-. injection Hrr as <-. reflexivity.
    + intros -> ->. injection Hro as <-. injection Hrr as <-. reflexivity.
Qed.

(** C7 at the stand-in scheme: the two cases of the specification, and
    a proof altered after signing. *)
Lemma cross_institution_sharing_follows_rank_witness :
  (exists result w2,
      ZKProofGenerator.generate_cross_institution_proof toy_scheme toy_generator
        (sample_proof "CIP") "Bank_B" "EDD" sample_proof_world
      = Ok (VDict result) w2
      /\ dict_get "sharing_approved" result = Some (VBool false))
  /\ (exists result w2,
         ZKProofGenerator.generate_cross_institution_proof toy_scheme toy_generator
           (sample_proof "EDD") "Bank_B" "CDD" sample_proof_world
         = Ok (VDict result) w2
         /\ dict_get "sharing_approved" result = Some (VBool true))
  /\ ZKProofGenerator.generate_cross_institution_proof toy_scheme toy_generator
       tampered_proof "Bank_B" "CDD" sample_proof_world
     = Ok (VDict [("sharing_approved", VBool false);
                  ("reason", VStr "Original proof is invalid");
                  ("timestamp", VFloat (flt 1700000232 0))])
          (tick (tick (tick sample_proof_world))).
Proof.
  split; [|split].
  - destruct (cross_institution_sharing_follows_rank toy_scheme toy_generator
                (sample_proof "CIP") "Bank_B" "EDD" sample_proof_world toy_scheme_correct)
      as (verification & w1 & valid & Hver & Hvalid & _ & Hrank).
    vm_compute in Hver. injection Hver as <- <-.
    vm_compute in Hvalid. injection Hvalid as <-.
    destruct (Hrank eq_refl _ "CIP" 1 3 eq_refl eq_refl eq_refl eq_refl)
      as (result & w2 & E & _ & _ & Hcip & _).
    exists result, w2. split; [exact E|now apply Hcip].
  - destruct (cross_institution_sharing_follows_rank toy_scheme toy_generator
                (sample_proof "EDD") "Bank_B" "CDD" sample_proof_world toy_scheme_correct)
      as (verification & w1 & valid & Hver & Hvalid & _ & Hrank).
    vm_compute in Hver. injection Hver as <- <-.
    vm_compute in Hvalid. injection Hvalid as <-.
    destruct (Hrank eq_refl _ "EDD" 3 2 eq_refl eq_refl eq_refl eq_refl)
      as (result & w2 & E & _ & _ & _ & Hedd).
    exists result, w2. split; [exact E|now apply Hedd].
  - destruct (cross_institution_sharing_follows_rank toy_scheme toy_generator
                tampered_proof "Bank_B" "CDD" sample_proof_world toy_scheme_correct)
      as (verification & w1 & valid & Hver & Hvalid & Hinvalid & _).
    vm_compute in Hver. injection Hver as <- <-.
    vm_compute in Hvalid. injection Hvalid as <-.
    exact (Hinvalid eq_refl).
Defined.

(* ------------------------------------------------------------------ *)
(** ** Further properties of block.py and transaction.py *)

(** X1.  [mine()] with nothing pending returns [None] and touches nothing: not
    the chain, not the clock, not even the last block, so that it returns
    on an empty chain too.  On a chain that has a block this is the only
    way it returns [None]: mining never fails to add the block it mined.
    In particular a second [mine()] right after a successful one finds
    nothing to do. *)
Theorem mine_with_nothing_pending_is_idle :
  (forall fuel self w,
      Blockchain.unconfirmed_transactions self = [] ->
      Blockchain.mine fuel self w = Ok (None, self) w)
  /\ (forall fuel self w self' w',
        Blockchain.chain self <> [] ->
        Blockchain.mine fuel self w = Ok (None, self') w' ->
        Blockchain.unconfirmed_transactions self = [] /\ self' = self /\ w' = w)
  /\ (forall fuel self w new_block self' w' fuel' w'',
        Blockchain.mine fuel self w = Ok (Some new_block, self') w' ->
        Blockchain.mine fuel' self' w'' = Ok (None, self') w'').
Proof.
  split; [|split].
  - intros fuel self w Hq. unfold Blockchain.mine. now rewrite Hq.
  - intros fuel self w self' w' Hc Hmine.
    destruct (Blockchain.unconfirmed_transactions self) as [|tx q] eqn:Hq.
    + unfold Blockchain.mine in Hmine. rewrite Hq in Hmine.
      apply ret_inv in Hmine as [[= <-] <-]. repeat split.
    + exfalso. destruct (chain_nil_or_snoc (Blockchain.chain self)) as [E|(old & last & E)];
        [contradiction|].
      rewrite (mine_eq fuel self w old last E) in Hmine by (rewrite Hq; discriminate).
      destruct (Block.init _ _ _ _ _ _) as [cand wc| |]; try discriminate Hmine.
      destruct (Blockchain.pow_loop fuel cand wc) as [[b p] wp| |]; discriminate Hmine.
  - intros fuel self w nb self' w' fuel' w'' Hmine.
    apply mine_returns in Hmine as (old & last & cand & k & _ & _ & _ & _ & _ & _ & ->).
    reflexivity.
Qed.

(** X1 on the sample data. *)
Lemma mine_with_nothing_pending_is_idle_witness :
  Blockchain.mine 0 (Blockchain.mk [] [] None) (world_at fzero)
  = Ok (None, Blockchain.mk [] [] None) (world_at fzero)
  /\ Blockchain.unconfirmed_transactions (Blockchain.mk [] sample_mined_chain None) = []
  /\ Blockchain.mine 0 (Blockchain.mk [] sample_mined_chain None) (world_at fzero)
     = Ok (None, Blockchain.mk [] sample_mined_chain None) (world_at fzero).
Proof.
  destruct mine_with_nothing_pending_is_idle as (Hidle & Honly & Hsecond).
  assert (Hnext : Blockchain.mine 0 (Blockchain.mk [] sample_mined_chain None) (world_at fzero)
                  = Ok (None, Blockchain.mk [] sample_mined_chain None) (world_at fzero)).
  { apply (Hsecond 5%nat sample_pending (world_at (flt 1700000232 0)) sample_block_232
                   (Blockchain.mk [] sample_mined_chain None)
                   (tick (world_at (flt 1700000232 0)))).
    vm_compute. reflexivity. }
  split; [|split].
  - apply Hidle. reflexivity.
  - apply (Honly 0%nat (Blockchain.mk [] sample_mined_chain None) (world_at fzero)
                 (Blockchain.mk [] sample_mined_chain None) (world_at fzero)).
    + discriminate.
    + exact Hnext.
  - exact Hnext.
Defined.

(** X2.  The queue is first in, first out: transactions added one by one are
    all in the next mined block, behind those that were waiting already
    and in the order they were added, and the chain is not touched until
    [mine] is called. *)
Theorem queued_transactions_are_mined_in_order self txs :
  Blockchain.unconfirmed_transactions (add_all self txs)
  = Blockchain.unconfirmed_transactions self ++ txs
  /\ Blockchain.chain (add_all self txs) = Blockchain.chain self
  /\ forall fuel w new_block self' w',
       Blockchain.mine fuel (add_all self txs) w = Ok (Some new_block, self') w' ->
       Block.transactions new_block = Blockchain.unconfirmed_transactions self ++ txs
       /\ Blockchain.chain self' = Blockchain.chain self ++ [new_block]
       /\ Blockchain.unconfirmed_transactions self' = [].
Proof.
  assert (H : forall txs self,
             Blockchain.unconfirmed_transactions (add_all self txs)
             = Blockchain.unconfirmed_transactions self ++ txs
             /\ Blockchain.chain (add_all self txs) = Blockchain.chain self).
  { clear. induction txs as [|tx txs IH]; intros self.
    - cbn. now rewrite app_nil_r.
    - unfold add_all in *. cbn [fold_left]. destruct (IH (Blockchain.add_new_transaction self tx))
        as [H1 H2]. rewrite H1, H2. cbn. now rewrite <- app_assoc. }
  destruct (H txs self) as [Hq Hc]. split; [exact Hq|]. split; [exact Hc|].
  intros fuel w nb self' w' Hmine.
  apply mine_returns in Hmine as (old & last & cand & k & E & _ & Ei & _ & _ & -> & ->).
  destruct (Block_init_fields _ _ _ _ _ _ _ _ Ei) as (_ & Ht & _).
  destruct (sealed_fields cand k) as (_ & H2 & _).
  rewrite H2, Ht, Hq, Hc. cbn. repeat split; reflexivity.
Qed.

(** X2 on the sample data. *)
Lemma queued_transactions_are_mined_in_order_witness :
  Block.transactions sample_block_232 = [] ++ [sample_tx]
  /\ sample_mined_chain = [sample_genesis] ++ [sample_block_232]
  /\ @nil Transaction.t = [].
Proof.
  destruct (queued_transactions_are_mined_in_order
              (Blockchain.mk [] [sample_genesis] None) [sample_tx]) as (_ & _ & Hmine).
  apply (Hmine 5%nat (world_at (flt 1700000232 0)) sample_block_232
               (Blockchain.mk [] sample_mined_chain None)
               (tick (world_at (flt 1700000232 0)))).
  vm_compute. reflexivity.
Defined.

(** X3.  [proof_of_work] discards the nonce the block came with, changes
    nothing of the block but the nonce, and returns a hash that
    [is_valid_proof] accepts for the block as it leaves it.  [add_block]
    then appends the block exactly when it names the last block's hash as
    its predecessor. *)
Theorem proof_of_work_result_is_accepted fuel self block old last block' proof w w' :
  Blockchain.chain self = old ++ [last] ->
  Blockchain.proof_of_work fuel self block w = Ok (block', proof) w' ->
  w' = w
  /\ same_but_nonce block' block
  /\ (forall n, Blockchain.proof_of_work fuel self (Block.set_nonce block n) w
                = Ok (block', proof) w)
  /\ Blockchain.is_valid_proof self block' proof = true
  /\ (Block.previous_hash block = Block.hash last ->
      Blockchain.add_block self block' proof w
      = Ok (true, Block.set_hash block' proof,
            Blockchain.set_chain self (Blockchain.chain self ++ [Block.set_hash block' proof])) w)
  /\ (Block.previous_hash block <> Block.hash last ->
      Blockchain.add_block self block' proof w = Ok (false, block', self) w).
Proof.
  intros E Hpow. unfold Blockchain.proof_of_work in Hpow.
  pose proof Hpow as Hpow'.
  apply pow_loop_returns in Hpow as (-> & k & _ & [Hk _] & Eb & ->).
  assert (Hvalid : Blockchain.is_valid_proof self block' (Block.compute_hash block') = true).
  { unfold Blockchain.is_valid_proof. fold zero_prefix.
    fold (meets_difficulty (Block.compute_hash block')).
    rewrite Eb, Hk. now rewrite String.eqb_refl. }
  assert (Hprev : Block.previous_hash block' = Block.previous_hash block) by now rewrite Eb.
  split; [reflexivity|]. split; [rewrite Eb; now repeat split|].
  split; [|split; [exact Hvalid|]].
  - intros n. unfold Blockchain.proof_of_work. exact Hpow'.
  - rewrite (add_block_eq self block' _ w old last E), Hvalid, Hprev. split.
    + intros Hp. rewrite Hp, String.eqb_refl. reflexivity.
    + intros Hp. apply String.eqb_neq in Hp. now rewrite Hp.
Qed.

(** X3 on the sample data. *)
Lemma proof_of_work_result_is_accepted_witness :
  same_but_nonce sample_block_201 (Block.set_nonce sample_block_201 7)
  /\ Blockchain.is_valid_proof sample_pending sample_block_201 (Block.hash sample_block_201)
     = true.
Proof.
  destruct (proof_of_work_result_is_accepted 5 sample_pending
              (Block.set_nonce sample_block_201 7) [] sample_genesis
              sample_block_201 (Block.hash sample_block_201) (world_at fzero) (world_at fzero)
              eq_refl ltac:(vm_compute; reflexivity)) as (_ & Hsame & _ & Hvalid & _).
  split; [exact Hsame | exact Hvalid].
Defined.


(** X4.  The walk of [check_chain_validity] splits at any point: a chain is
    valid exactly when its front part is valid and the rest is valid from
    the hash the front part ends with.  So the empty chain is valid, and
    every prefix of a valid chain is valid: blocks cut off the end of a
    chain are not missed. *)
Theorem check_chain_validity_splits self pre post :
  Blockchain.check_chain_validity self [] = true
  /\ Blockchain.check_chain_validity self (pre ++ post)
     = Blockchain.check_chain_validity self pre
       && Blockchain.check_chain_from (last_hash "0" pre) post
  /\ (Blockchain.check_chain_validity self (pre ++ post) = true ->
      Blockchain.check_chain_validity self pre = true).
Proof.
  unfold Blockchain.check_chain_validity. split; [reflexivity|].
  rewrite check_chain_from_app. split; [reflexivity|].
  intros H. now apply andb_true_iff in H.
Qed.

(** X4 on the sample data. *)
Lemma check_chain_validity_splits_witness :
  Blockchain.check_chain_validity sample_pending [sample_genesis] = true.
Proof.
  destruct (check_chain_validity_splits sample_pending [sample_genesis] [sample_block_232])
    as (_ & _ & Hprefix).
  apply Hprefix. vm_compute. reflexivity.
Defined.

Lemma numbered_from_app pre : forall i post,
  numbered_from i (pre ++ post)
  <-> numbered_from i pre /\ numbered_from (i + Z.of_nat (List.length pre)) post.
Proof.
  induction pre as [|b pre IH]; intros i post; cbn [app numbered_from List.length].
  - rewrite Z.add_0_r. tauto.
  - rewrite IH. replace (i + 1 + Z.of_nat (List.length pre))
      with (i + Z.of_nat (S (List.length pre))) by lia. tauto.
Qed.

Lemma numbered_from_last i old last :
  numbered_from i (old ++ [last]) -> Block.index last = i + Z.of_nat (List.length old).
Proof. intros H. apply numbered_from_app in H as [_ H]. now destruct H. Qed.

Lemma built_numbered blockchain :
  built blockchain -> numbered_from 0 (Blockchain.chain blockchain).
Proof.
  intros H.
  induction H as [fuel w bc w' Hinit|bc tx _ IH|fuel bc w result bc' w' Hb IH Hmine].
  - apply init_returns in Hinit as (g & k & Eg & _ & ->).
    destruct (Block_init_fields _ _ _ _ _ _ _ _ Eg) as (Hi & Ht & _).
    destruct (sealed_fields g k) as (H1 & H2 & _).
    cbn [Blockchain.chain numbered_from]. rewrite H1, H2. repeat split; congruence.
  - exact IH.
  - destruct result as [nb|].
    + apply mine_returns in Hmine as (old & last & cand & k & E & Hq & Ei & _ & _ & -> & ->).
      destruct (Block_init_fields _ _ _ _ _ _ _ _ Ei) as (Hi & Ht & _).
      destruct (sealed_fields cand k) as (H1 & H2 & _).
      cbn [Blockchain.chain]. apply numbered_from_app. split; [exact IH|].
      rewrite E in IH. pose proof (numbered_from_last _ _ _ IH) as Hlast.
      rewrite E, length_app. cbn [List.length numbered_from].
      rewrite H1, H2, Hi, Ht, Hlast. repeat split; try lia; try congruence.
    + destruct (Blockchain.unconfirmed_transactions bc) eqn:Hq.
      * unfold Blockchain.mine in Hmine. rewrite Hq in Hmine.
        apply ret_inv in Hmine as [[= <-] _]. exact IH.
      * destruct (built_chain_valid bc Hb) as [(old & last & E) _].
        rewrite (mine_eq fuel bc w old last E) in Hmine by (rewrite Hq; discriminate).
        destruct (Block.init _ _ _ _ _ _) as [cand wc| |]; try discriminate Hmine.
        destruct (Blockchain.pow_loop fuel cand wc) as [[b p] wp| |]; discriminate Hmine.
Qed.

Lemma numbered_from_nth chain : forall k,
  numbered_from k chain ->
  forall i b, nth_error chain i = Some b ->
              Block.index b = k + Z.of_nat i
              /\ (Block.transactions b = [] <-> k + Z.of_nat i = 0).
Proof.
  induction chain as [|c chain IH]; intros k Hk i b Hi.
  - destruct i; discriminate Hi.
  - destruct Hk as (H1 & H2 & H3 & H4). destruct i as [|i].
    + injection Hi as <-. rewrite Z.add_0_r. split; [exact H1|]. split.
      * intros Ht. destruct (Z.eq_dec k 0) as [|Hne]; [assumption|]. now apply H3 in Hne.
      * exact H2.
    + cbn [nth_error] in Hi. destruct (IH (k + 1) H4 i b Hi) as [Ha Hb].
      split; [lia|]. rewrite Hb. lia.
Qed.

(** X5.  In every chain that [Blockchain()], [add_new_transaction] and
    [mine()] build, the block at position [i] has index [i], the genesis
    block holds no transaction and every block after it holds at least
    one. *)
Theorem built_chain_is_numbered blockchain i b :
  built blockchain ->
  nth_error (Blockchain.chain blockchain) i = Some b ->
  Block.index b = Z.of_nat i /\ (Block.transactions b = [] <-> i = 0%nat).
Proof.
  intros H Hi.
  destruct (numbered_from_nth _ 0 (built_numbered _ H) i b Hi) as [Ha Hb].
  split; [lia|]. rewrite Hb. lia.
Qed.

(** X5 on the sample data. *)
Lemma built_chain_is_numbered_witness :
  Block.index sample_block_232 = Z.of_nat 1
  /\ (Block.transactions sample_block_232 = [] <-> 1%nat = 0%nat).
Proof.
  apply (built_chain_is_numbered (Blockchain.mk [] sample_mined_chain None) 1 sample_block_232).
  - apply (built_mine 5%nat (Blockchain.mk [sample_tx] [sample_genesis] None)
                      (tick (tick (sample_world (flt 1700000232 0))))
                      (Some sample_block_232) _
                      (tick (tick (tick (sample_world (flt 1700000232 0)))))).
    + apply (built_add (Blockchain.mk [] [sample_genesis] None) sample_tx).
      apply (built_init 5%nat (sample_world (flt 1700000232 0)) _
                        (tick (sample_world (flt 1700000232 0)))).
      vm_compute. reflexivity.
    + vm_compute. reflexivity.
  - reflexivity.
Defined.

(** X6.  The constructors seal what they build: a new [Transaction] carries
    the hash of its own fields as [tx_hash], a new [Block] the hash of its
    own contents as [hash].  Both keep the timestamp they are given unless
    it is falsy ([None], [0], [0.0]), in which case they read the clock
    once and take the current time. *)
Theorem constructors_seal_and_stamp :
  (forall sender recipient payload timestamp signature w,
      exists tx,
        Transaction.init sender recipient payload timestamp signature w
        = Ok tx (if truthy timestamp then w else tick w)
        /\ tx = Transaction.mk sender recipient payload
                              (if truthy timestamp then timestamp
                               else VFloat (clock w (ticks w)))
                              signature (Transaction.compute_hash tx))
  /\ (forall index transactions timestamp previous_hash nonce w,
        exists block,
          Block.init index transactions timestamp previous_hash nonce w
          = Ok block (if truthy timestamp then w else tick w)
          /\ block = Block.mk index transactions
                              (if truthy timestamp then timestamp
                               else VFloat (clock w (ticks w)))
                              previous_hash nonce (Block.compute_hash block))
  /\ truthy VNone = false /\ truthy (VInt 0) = false /\ truthy (VFloat fzero) = false.
Proof.
  split; [|split; [|repeat split]].
  - intros s r p ts sig w. rewrite Transaction_init_eq. cbv zeta.
    eexists. split; [reflexivity|]. reflexivity.
  - intros i txs ts prev n w. rewrite Block_init_eq. cbv zeta.
    eexists. split; [reflexivity|]. reflexivity.
Qed.

(* ------------------------------------------------------------------ *)
(** ** Further properties of storage.py *)

Lemma quiet_ret {A} (a : A) : quiet (ret a).
Proof. intros w. now split. Qed.

Lemma quiet_raise {A} e : quiet (@raise A e).
Proof. intros w. now split. Qed.

Lemma quiet_bind {A B} (m : M A) (k : A -> M B) :
  quiet m -> (forall a, quiet (k a)) -> quiet (bind m k).
Proof.
  intros Hm Hk w. unfold bind. specialize (Hm w).
  destruct (m w) as [a w1|e w1|]; [|exact Hm|exact Hm].
  specialize (Hk a w1). destruct Hm as [Hf Hs].
  destruct (k a w1) as [b w2|e w2|]; [| |exact Hk]; now rewrite <- Hf, <- Hs.
Qed.

Lemma quiet_getitem v k : quiet (getitem v k).
Proof.
  destruct v; try apply quiet_raise. cbn [getitem].
  destruct (dict_get k d); [apply quiet_ret|apply quiet_raise].
Qed.

Lemma quiet_as_str v : quiet (as_str v).
Proof. destruct v; first [apply quiet_ret|apply quiet_raise]. Qed.

Lemma quiet_as_int v : quiet (as_int v).
Proof. destruct v; first [apply quiet_ret|apply quiet_raise]. Qed.

Lemma quiet_iterate v : quiet (iterate v).
Proof. destruct v; first [apply quiet_ret|apply quiet_raise]. Qed.

Lemma quiet_Transaction_init s r p ts sig : quiet (Transaction.init s r p ts sig).
Proof. intros w. rewrite Transaction_init_eq. cbv zeta. destruct (truthy ts); now split. Qed.

Lemma quiet_Block_init i txs ts prev n : quiet (Block.init i txs ts prev n).
Proof. intros w. rewrite Block_init_eq. cbv zeta. destruct (truthy ts); now split. Qed.

Lemma quiet_for_each {A B} (body : B -> A -> M B) (l : list A) :
  (forall acc x, quiet (body acc x)) -> forall acc, quiet (for_each l acc body).
Proof.
  intros Hb. induction l as [|x l IH]; intros acc; cbn [for_each].
  - apply quiet_ret.
  - apply quiet_bind; [apply Hb|exact IH].
Qed.

Create HintDb quiet.

#[local] Hint Resolve quiet_ret quiet_raise quiet_getitem quiet_as_str quiet_as_int
  quiet_iterate quiet_Transaction_init quiet_Block_init : quiet.

Ltac quiet_steps :=
  repeat first [ solve [auto with quiet] | apply quiet_bind; [|intros ?] | progress cbv zeta ].

Lemma quiet_load_transaction acc tx_data :
  quiet (BlockchainStorage.load_transaction acc tx_data).
Proof. unfold BlockchainStorage.load_transaction. quiet_steps. Qed.

Lemma quiet_load_block acc block_data : quiet (BlockchainStorage.load_block acc block_data).
Proof.
  unfold BlockchainStorage.load_block. quiet_steps.
  apply quiet_for_each. intros. apply quiet_load_transaction.
Qed.

Lemma load_transaction_exact acc tx w :
  truthy (Transaction.timestamp tx) = true ->
  BlockchainStorage.load_transaction acc (Transaction.to_dict tx) w = Ok (acc ++ [tx]) w.
Proof.
  intros Ht. unfold BlockchainStorage.load_transaction, Transaction.to_dict.
  unfold bind, getitem. cbn [dict_get String.eqb Ascii.eqb Bool.eqb ret as_str].
  rewrite Transaction_init_eq, Ht. cbv zeta.
  unfold bind, getitem. cbn [dict_get String.eqb Ascii.eqb Bool.eqb ret as_str].
  now destruct tx.
Qed.

Lemma load_transactions_exact txs : forall acc w,
  forallb (fun tx => truthy (Transaction.timestamp tx)) txs = true ->
  for_each (map Transaction.to_dict txs) acc BlockchainStorage.load_transaction w
  = Ok (acc ++ txs) w.
Proof.
  induction txs as [|tx txs IH]; intros acc w H.
  - cbn. now rewrite app_nil_r.
  - cbn [forallb] in H. apply andb_true_iff in H as [H1 H2].
    cbn [map for_each]. unfold bind. rewrite (load_transaction_exact acc tx w H1).
    rewrite (IH _ _ H2), <- app_assoc. reflexivity.
Qed.

Lemma load_block_exact acc b w :
  stamped b = true ->
  BlockchainStorage.load_block acc (BlockchainStorage.block_data_of b) w = Ok (acc ++ [b]) w.
Proof.
  intros H. apply andb_true_iff in H as [Hb Ht].
  unfold BlockchainStorage.load_block, BlockchainStorage.block_data_of.
  unfold bind, getitem. cbn [dict_get String.eqb Ascii.eqb Bool.eqb ret iterate as_str as_int].
  rewrite (load_transactions_exact _ [] w Ht). cbn [app].
  unfold bind, getitem. cbn [dict_get String.eqb Ascii.eqb Bool.eqb ret as_str as_int].
  rewrite Block_init_eq, Hb. cbv zeta.
  now destruct b.
Qed.

Lemma load_blocks_exact chain : forall acc w,
  forallb stamped chain = true ->
  for_each (map BlockchainStorage.block_data_of chain) acc BlockchainStorage.load_block w
  = Ok (acc ++ chain) w.
Proof.
  induction chain as [|b chain IH]; intros acc w H.
  - cbn. now rewrite app_nil_r.
  - cbn [forallb] in H. apply andb_true_iff in H as [H1 H2].
    cbn [map for_each]. unfold bind. rewrite (load_block_exact acc b w H1).
    rewrite (IH _ _ H2), <- app_assoc. reflexivity.
Qed.

(** Loading a document in the layout of [save_blockchain], whatever the
    file it is in. *)
Lemma load_document_exact fuel self w chain metadata :
  dict_get (BlockchainStorage.chain_file self) (files w) = Some (document_of chain metadata) ->
  forallb stamped chain = true ->
  BlockchainStorage.load_blockchain fuel self w
  = Ok (Some (Blockchain.mk [] chain (Some (difficulty_in metadata))))
       (printed w (load_report self chain
                     (Blockchain.check_chain_validity
                        (Blockchain.mk [] chain (Some (difficulty_in metadata))) chain))).
Proof.
  intros Hfile Hst. unfold BlockchainStorage.load_blockchain.
  apply try_except_ok.
  rewrite (bind_ok _ _ _ true w) by (unfold path_exists, dict_in; now rewrite Hfile).
  cbn [negb].
  rewrite (bind_ok _ _ _ (document_of chain metadata) w)
    by (unfold json_load; now rewrite Hfile).
  unfold document_of at 1.
  rewrite (bind_ok _ _ _ _ _ eq_refl).
  rewrite (bind_ok _ _ _ (difficulty_in metadata) w) by reflexivity.
  rewrite (bind_ok _ _ _ (map BlockchainStorage.block_data_of chain) w) by reflexivity.
  rewrite (bind_ok _ _ _ _ _ (load_blocks_exact chain [] w Hst)).
  cbn [app Blockchain.chain]. unfold load_report, printed.
  destruct (Blockchain.check_chain_validity _ chain);
    unfold bind, print, ret; cbn [stdout files clock ticks isoformat entropy drawn];
    rewrite <- !app_assoc; reflexivity.
Qed.

(** X7.  Saving and loading back restores the chain itself, every field of
    every block and transaction, when no timestamp in it is falsy; the
    loaded object records the difficulty the saved one had, and the report
    printed on loading gives the verdict [check_chain_validity] has on the
    saved chain. *)
Theorem save_then_load_restores_chain fuel path blockchain w :
  forallb stamped (Blockchain.chain blockchain) = true ->
  exists w1,
    BlockchainStorage.save_blockchain (BlockchainStorage.init path) blockchain w = Ok true w1
    /\ BlockchainStorage.load_blockchain fuel (BlockchainStorage.init path) w1
       = Ok (Some (Blockchain.mk [] (Blockchain.chain blockchain)
                                 (Some (Blockchain.get_difficulty blockchain))))
            (printed w1 (load_report (BlockchainStorage.init path) (Blockchain.chain blockchain)
                           (Blockchain.check_chain_validity blockchain
                              (Blockchain.chain blockchain)))).
Proof.
  intros Hst. set (self := BlockchainStorage.init path).
  exists (saved_world self blockchain w). split; [apply save_blockchain_eq|].
  apply (load_document_exact fuel self (saved_world self blockchain w)
           (Blockchain.chain blockchain)
           [("total_blocks", VInt (Z.of_nat (List.length (Blockchain.chain blockchain))));
            ("difficulty", Blockchain.get_difficulty blockchain);
            ("saved_at", VStr (isoformat w (clock w (ticks w))));
            ("last_block_hash", match rev (Blockchain.chain blockchain) with
                                | [] => VNone
                                | last :: _ => VStr (Block.hash last)
                                end)]); [|exact Hst].
  unfold saved_world. cbn [files].
  rewrite dict_get_set_other by apply chain_file_not_metadata_file.
  apply dict_get_set_same.
Qed.

(** X7 on the sample data. *)
Lemma save_then_load_restores_chain_witness :
  exists w1,
    BlockchainStorage.save_blockchain (BlockchainStorage.init "blockchain_data")
      (Blockchain.mk [] sample_mined_chain None) (world_at fzero) = Ok true w1
    /\ BlockchainStorage.load_blockchain 0 (BlockchainStorage.init "blockchain_data") w1
       = Ok (Some (Blockchain.mk [] sample_mined_chain (Some (VInt 2))))
            (printed w1 (load_report (BlockchainStorage.init "blockchain_data")
                           sample_mined_chain
                           (Blockchain.check_chain_validity
                              (Blockchain.mk [] sample_mined_chain None) sample_mined_chain))).
Proof.
  apply (save_then_load_restores_chain 0 "blockchain_data"
           (Blockchain.mk [] sample_mined_chain None) (world_at fzero)).
  reflexivity.
Defined.

(** X8.  The queue of pending transactions is not persisted: [save_blockchain]
    writes the same files whatever is waiting in it, and the object
    [load_blockchain] builds from a file has an empty queue. *)
Theorem pending_transactions_are_not_persisted :
  (forall self blockchain queue w,
      BlockchainStorage.save_blockchain self
        (Blockchain.set_unconfirmed_transactions blockchain queue) w
      = BlockchainStorage.save_blockchain self blockchain w)
  /\ (forall fuel self w doc loaded w',
        dict_get (BlockchainStorage.chain_file self) (files w) = Some doc ->
        BlockchainStorage.load_blockchain fuel self w = Ok (Some loaded) w' ->
        Blockchain.unconfirmed_transactions loaded = []).
Proof.
  split.
  - intros self blockchain queue w. now rewrite !save_blockchain_eq.
  - intros fuel self w doc loaded w' Hfile Hload.
    destruct (load_blockchain_ok fuel self w doc loaded w' Hfile Hload)
      as (top & d & cv & bl & _ & _ & _ & _ & _ & -> & _).
    reflexivity.
Qed.

(** X8 on the sample data. *)
Lemma pending_transactions_are_not_persisted_witness :
  BlockchainStorage.save_blockchain sample_storage sample_pending (world_at fzero)
  = BlockchainStorage.save_blockchain sample_storage
      (Blockchain.mk [] [sample_genesis] None) (world_at fzero)
  /\ Blockchain.unconfirmed_transactions
       (Blockchain.mk [] [sample_genesis; forged_block] (Some (VInt 2))) = [].
Proof.
  destruct pending_transactions_are_not_persisted as [Hsave Hload]. split.
  - apply (Hsave sample_storage (Blockchain.mk [] [sample_genesis] None) [sample_tx]).
  - apply (Hload 0%nat sample_storage (forged_world (VInt 2)) (forged_snapshot (VInt 2))
                 (Blockchain.mk [] [sample_genesis; forged_block] (Some (VInt 2)))
                 (mkWorld (clock (forged_world (VInt 2))) 0 (isoformat (forged_world (VInt 2)))
                          (entropy (forged_world (VInt 2))) 0 (files (forged_world (VInt 2)))
                          (load_report sample_storage [sample_genesis; forged_block] true))).
    + reflexivity.
    + apply forged_snapshot_loads.
Defined.

(** X9.  [save_blockchain] writes two files and no other: the chain file,
    and the metadata file with the very metadata object the chain file
    holds.  The metadata count the blocks and name the hash of the last
    one, [null] for a chain without a block. *)
Theorem save_blockchain_writes_two_files path blockchain w :
  exists w1 saved_at,
    BlockchainStorage.save_blockchain (BlockchainStorage.init path) blockchain w = Ok true w1
    /\ dict_get (BlockchainStorage.chain_file (BlockchainStorage.init path)) (files w1)
       = Some (VDict [("chain", VList (map BlockchainStorage.block_data_of
                                          (Blockchain.chain blockchain)));
                      ("metadata", metadata_of blockchain saved_at)])
    /\ dict_get (BlockchainStorage.metadata_file (BlockchainStorage.init path)) (files w1)
       = Some (metadata_of blockchain saved_at)
    /\ item (metadata_of blockchain saved_at) "total_blocks"
       = Some (VInt (Z.of_nat (List.length (Blockchain.chain blockchain))))
    /\ item (metadata_of blockchain saved_at) "last_block_hash"
       = Some (match rev (Blockchain.chain blockchain) with
               | [] => VNone
               | last :: _ => VStr (Block.hash last)
               end)
    /\ forall other,
         other <> BlockchainStorage.chain_file (BlockchainStorage.init path) ->
         other <> BlockchainStorage.metadata_file (BlockchainStorage.init path) ->
         dict_get other (files w1) = dict_get other (files w).
Proof.
  set (self := BlockchainStorage.init path).
  exists (saved_world self blockchain w), (isoformat w (clock w (ticks w))).
  split; [apply save_blockchain_eq|]. unfold saved_world. cbn [files].
  split; [|split; [|split; [|split]]].
  - rewrite dict_get_set_other by apply chain_file_not_metadata_file.
    apply dict_get_set_same.
  - apply dict_get_set_same.
  - reflexivity.
  - reflexivity.
  - intros other H1 H2. now rewrite !dict_get_set_other.
Qed.

(** X9 on the sample data. *)
Lemma save_blockchain_writes_two_files_witness :
  exists w1,
    BlockchainStorage.save_blockchain (BlockchainStorage.init "blockchain_data") sample_pending
                                      (world_at fzero) = Ok true w1
    /\ dict_get "elsewhere.json" (files w1) = dict_get "elsewhere.json" (files (world_at fzero)).
Proof.
  destruct (save_blockchain_writes_two_files "blockchain_data" sample_pending (world_at fzero))
    as (w1 & saved_at & Hsave & _ & _ & _ & _ & Hother).
  exists w1. split; [exact Hsave|].
  apply Hother; intros H; vm_compute in H; discriminate H.
Defined.

(** *** Loading without a file, and loading what is not a snapshot *)

Lemma load_blockchain_never_raises fuel self w e w' :
  BlockchainStorage.load_blockchain fuel self w <> Raise e w'.
Proof.
  unfold BlockchainStorage.load_blockchain, try_except.
  match goal with |- context [match ?body w with _ => _ end] => destruct (body w) end;
    discriminate.
Qed.

(** X10.  Without a chain file, [load_blockchain] says so and returns what
    [Blockchain()] builds: a valid chain of one block, the genesis block,
    mined at the current time.  No file is written.  The call returns as
    soon as the fuel reaches a nonce that meets the difficulty. *)
Theorem load_without_snapshot_starts_afresh fuel self w cand w1 n :
  dict_get (BlockchainStorage.chain_file self) (files w) = None ->
  Block.init 0 [] (VFloat (clock w (ticks w))) "0" 0
             (tick (printed w ["No saved blockchain found. Creating new blockchain."]))
  = Ok cand w1 ->
  startswith (Block.compute_hash (Block.set_nonce cand (Z.of_nat n)))
             (str_mul "0" Blockchain.difficulty) = true ->
  (n <= fuel)%nat ->
  exists genesis,
    BlockchainStorage.load_blockchain fuel self w
    = Ok (Some (Blockchain.mk [] [genesis] None)) w1
    /\ Blockchain.init fuel (printed w ["No saved blockchain found. Creating new blockchain."])
       = Ok (Blockchain.mk [] [genesis] None) w1
    /\ Block.index genesis = 0
    /\ Block.transactions genesis = []
    /\ Blockchain.check_chain_validity (Blockchain.mk [] [genesis] None) [genesis] = true
    /\ files w1 = files w
    /\ stdout w1 = stdout w ++ ["No saved blockchain found. Creating new blockchain."].
Proof.
  intros Hfile Ei Hn Hle.
  set (w0 := printed w ["No saved blockchain found. Creating new blockchain."]) in *.
  destruct (Block_init_fields _ _ _ _ _ _ _ _ Ei) as (Hi & Ht & _ & Hnonce & _).
  destruct (first_nonce_exists cand n Hnonce Hn) as (k & Hk_le & Hk).
  destruct (sealed_fields cand k) as (H1 & H2 & _).
  assert (Hinit : Blockchain.init fuel w0 = Ok (Blockchain.mk [] [sealed cand k] None) w1).
  { rewrite init_eq. change (clock w0 (ticks w0)) with (clock w (ticks w)). rewrite Ei.
    rewrite (pow_loop_finds fuel cand k w1 Hk ltac:(lia)).
    rewrite Hnonce, Z.add_0_l. reflexivity. }
  assert (Hw1 : files w1 = files w /\ stdout w1 = stdout w0).
  { pose proof (quiet_Block_init 0 [] (VFloat (clock w (ticks w))) "0" 0 (tick w0)) as Hq.
    rewrite Ei in Hq. exact Hq. }
  exists (sealed cand k). split; [|split; [exact Hinit|]].
  - unfold BlockchainStorage.load_blockchain. apply try_except_ok.
    rewrite (bind_ok _ _ _ false w) by (unfold path_exists, dict_in; now rewrite Hfile).
    cbn [negb]. rewrite (bind_ok _ _ _ tt w0) by reflexivity.
    now rewrite (bind_ok _ _ _ _ _ Hinit).
  - split; [congruence|]. split; [congruence|].
    split; [exact (genesis_chain_valid _ _ _ _ _ _ Ei Hk)|]. exact Hw1.
Qed.

(** X10 on the sample data. *)
Lemma load_without_snapshot_starts_afresh_witness :
  exists genesis,
    BlockchainStorage.load_blockchain 5 sample_storage (world_at (flt 1700000069 0))
    = Ok (Some (Blockchain.mk [] [genesis] None))
         (tick (printed (world_at (flt 1700000069 0))
                        ["No saved blockchain found. Creating new blockchain."]))
    /\ Blockchain.init 5 (printed (world_at (flt 1700000069 0))
                                  ["No saved blockchain found. Creating new blockchain."])
       = Ok (Blockchain.mk [] [genesis] None)
            (tick (printed (world_at (flt 1700000069 0))
                           ["No saved blockchain found. Creating new blockchain."]))
    /\ Block.index genesis = 0
    /\ Block.transactions genesis = []
    /\ Blockchain.check_chain_validity (Blockchain.mk [] [genesis] None) [genesis] = true
    /\ files (tick (printed (world_at (flt 1700000069 0))
                            ["No saved blockchain found. Creating new blockchain."]))
       = files (world_at (flt 1700000069 0))
    /\ stdout (tick (printed (world_at (flt 1700000069 0))
                             ["No saved blockchain found. Creating new blockchain."]))
       = stdout (world_at (flt 1700000069 0))
         ++ ["No saved blockchain found. Creating new blockchain."].
Proof.
  apply (load_without_snapshot_starts_afresh 5 sample_storage (world_at (flt 1700000069 0))
           sample_genesis _ 0).
  - reflexivity.
  - vm_compute. reflexivity.
  - vm_compute. reflexivity.
  - lia.
Defined.

(** What [load_blockchain] does with a chain file that is there. *)
Lemma load_blockchain_of_file fuel self w doc :
  dict_get (BlockchainStorage.chain_file self) (files w) = Some doc ->
  exists result w',
    BlockchainStorage.load_blockchain fuel self w = Ok result w'
    /\ files w' = files w
    /\ match result with
       | None => exists e,
           stdout w' = stdout w ++ [("Error loading blockchain: " ++ str_exn e)%string]
       | Some _ => item doc "chain" <> None
       end.
Proof.
  intros Hfile. unfold BlockchainStorage.load_blockchain, try_except.
  rewrite (bind_ok _ _ _ true w) by (unfold path_exists, dict_in; now rewrite Hfile).
  cbn [negb].
  rewrite (bind_ok _ _ _ doc w) by (unfold json_load; now rewrite Hfile).
  assert (Hfail : forall e w0, files w0 = files w -> stdout w0 = stdout w ->
            exists (result : option Blockchain.t) w',
              (print ("Error loading blockchain: " ++ str_exn e);;; ret None) w0
              = Ok result w'
              /\ files w' = files w
              /\ match result with
                 | None => exists e,
                     stdout w' = stdout w ++ [("Error loading blockchain: " ++ str_exn e)%string]
                 | Some _ => item doc "chain" <> None
                 end).
  { intros e w0 Hf Hs. eexists _, _. split; [reflexivity|]. cbn [files stdout].
    split; [exact Hf|]. exists e. now rewrite Hs. }
  destruct doc as [| | | | | |top]; try (apply (Hfail TypeError w); reflexivity).
  assert (Hchain : forall (difficulty : value),
            exists result w',
              match
                (block_list <- bind (getitem (VDict top) "chain") iterate ;;
                 chain <- for_each block_list [] BlockchainStorage.load_block ;;
                 let blockchain := Blockchain.mk [] chain (Some difficulty) in
                 print ("Blockchain loaded successfully from "
                        ++ BlockchainStorage.chain_file self) ;;;
                 print ("Total blocks: " ++ str_of_int (Z.of_nat (List.length chain))) ;;;
                 if Blockchain.check_chain_validity blockchain (Blockchain.chain blockchain) then
                   print "Loaded blockchain is valid." ;;;
                   ret (Some blockchain)
                 else
                   print "WARNING: Loaded blockchain failed validation!" ;;;
                   ret (Some blockchain)) w
              with
              | Raise e w0 =>
                  (print ("Error loading blockchain: " ++ str_exn e);;; ret None) w0
              | r => r
              end = Ok result w'
              /\ files w' = files w
              /\ match result with
                 | None => exists e,
                     stdout w' = stdout w ++ [("Error loading blockchain: " ++ str_exn e)%string]
                 | Some _ => item (VDict top) "chain" <> None
                 end).
  { intros difficulty. unfold bind at 1. unfold bind at 1. cbn [getitem].
    destruct (dict_get "chain" top) as [cv|] eqn:Hc;
      [|apply (Hfail KeyError w); reflexivity].
    cbn [ret]. pose proof (quiet_iterate cv w) as Hit.
    destruct (iterate cv w) as [bl w0|e w0|]; [|apply (Hfail e w0); tauto|contradiction].
    destruct Hit as [Hf0 Hs0]. unfold bind at 1.
    pose proof (quiet_for_each BlockchainStorage.load_block bl quiet_load_block [] w0) as Hq.
    destruct (for_each bl [] BlockchainStorage.load_block w0) as [chain w1|e w1|];
      [|apply (Hfail e w1); destruct Hq; congruence|contradiction].
    destruct Hq as [Hf1 Hs1].
    destruct (Blockchain.check_chain_validity _ _);
      (eexists _, _; split; [reflexivity|]; cbn [files stdout Blockchain.chain item];
       split; [congruence|rewrite Hc; discriminate]). }
  unfold bind at 1. cbn [ret].
  destruct (dict_get "metadata" top) as [m|] eqn:Hm.
  - destruct m as [| | | | | |metadata]; try (apply (Hfail AttributeError w); reflexivity).
    unfold bind at 1. cbn [ret]. apply Hchain.
  - unfold bind at 1. cbn [ret]. apply Hchain.
Qed.

(** X11.  When the chain file is there, [load_blockchain] returns whatever the
    file holds, without mining and without writing a file: either a chain,
    or [None] with one line that reports the error.  It returns [None] in
    particular for a document that is not an object or has no ["chain"]
    entry. *)
Theorem load_blockchain_reports_what_it_cannot_read fuel self w doc :
  dict_get (BlockchainStorage.chain_file self) (files w) = Some doc ->
  exists result w',
    BlockchainStorage.load_blockchain fuel self w = Ok result w'
    /\ files w' = files w
    /\ (result = None ->
        exists detail,
          stdout w' = stdout w ++ [("Error loading blockchain: " ++ detail)%string])
    /\ (item doc "chain" = None -> result = None).
Proof.
  intros Hfile.
  destruct (load_blockchain_of_file fuel self w doc Hfile) as (result & w' & E & Hfiles & H).
  exists result, w'. split; [exact E|]. split; [exact Hfiles|]. split.
  - intros ->. destruct H as [e H]. now exists (str_exn e).
  - intros Hnone. destruct result; [contradiction|reflexivity].
Qed.

(** X11 on the sample data. *)
Lemma load_blockchain_reports_what_it_cannot_read_witness :
  exists w',
    BlockchainStorage.load_blockchain 0 sample_storage
      (stored (BlockchainStorage.chain_file sample_storage) (VDict [("metadata", VDict [])]))
    = Ok None w'.
Proof.
  destruct (load_blockchain_reports_what_it_cannot_read 0 sample_storage
              (stored (BlockchainStorage.chain_file sample_storage)
                      (VDict [("metadata", VDict [])]))
              (VDict [("metadata", VDict [])]) eq_refl)
    as (result & w' & E & _ & _ & Hnone).
  exists w'. rewrite <- (Hnone eq_refl). exact E.
Defined.

(** X12.  A snapshot whose ["chain"] is empty loads, and is reported valid,
    as a blockchain without a block.  On a chain without a block [mine()]
    with a transaction pending and [add_block] both raise [IndexError],
    before anything is read or written. *)
Theorem empty_chain_cannot_grow :
  (forall self,
      Blockchain.chain self = [] ->
      (forall fuel w,
          Blockchain.unconfirmed_transactions self <> [] ->
          Blockchain.mine fuel self w = Raise IndexError w)
      /\ (forall block proof w, Blockchain.add_block self block proof w = Raise IndexError w))
  /\ (forall fuel self w metadata,
        dict_get (BlockchainStorage.chain_file self) (files w)
        = Some (VDict [("chain", VList []); ("metadata", VDict metadata)]) ->
        exists loaded,
          BlockchainStorage.load_blockchain fuel self w
          = Ok (Some loaded) (printed w (load_report self [] true))
          /\ Blockchain.chain loaded = []).
Proof.
  split.
  - intros self E. split.
    + intros fuel w Hq. unfold Blockchain.mine.
      destruct (Blockchain.unconfirmed_transactions self); [congruence|].
      unfold bind. now rewrite (last_block_nil self w E).
    + intros block proof w. unfold Blockchain.add_block, bind.
      now rewrite (last_block_nil self w E).
  - intros fuel self w metadata Hfile.
    exists (Blockchain.mk [] [] (Some (difficulty_in metadata))). split; [|reflexivity].
    apply (load_document_exact fuel self w [] metadata Hfile). reflexivity.
Qed.

(** X12 on the sample data. *)
Lemma empty_chain_cannot_grow_witness :
  Blockchain.mine 5 (Blockchain.mk [sample_tx] [] (Some (VInt 2))) (world_at fzero)
  = Raise IndexError (world_at fzero)
  /\ exists loaded,
       BlockchainStorage.load_blockchain 0 sample_storage
         (stored (BlockchainStorage.chain_file sample_storage)
                 (VDict [("chain", VList []); ("metadata", VDict [])]))
       = Ok (Some loaded)
            (printed (stored (BlockchainStorage.chain_file sample_storage)
                             (VDict [("chain", VList []); ("metadata", VDict [])]))
                     (load_report sample_storage [] true))
       /\ Blockchain.chain loaded = [].
Proof.
  destruct empty_chain_cannot_grow as [Hempty Hload]. split.
  - apply (Hempty (Blockchain.mk [sample_tx] [] (Some (VInt 2))) eq_refl). discriminate.
  - apply (Hload 0%nat sample_storage _ []). reflexivity.
Defined.

(** *** Backups *)

Lemma create_backup_eq self blockchain name w :
  BlockchainStorage.create_backup self blockchain (Some name) w
  = Ok true (backed_up_world self blockchain name w).
Proof.
  unfold BlockchainStorage.create_backup, try_except, backed_up_world, document_of,
    backup_metadata_of.
  unfold bind at 1. cbn [ret]. unfold bind at 1. unfold now_isoformat.
  destruct (chain_nil_or_snoc (Blockchain.chain blockchain)) as [E|(old & last & E)].
  - rewrite E. reflexivity.
  - unfold bind at 1.
    assert (Hl : forall w0, match Blockchain.chain blockchain with
                 | [] => ret VNone
                 | _ :: _ => last0 <- Blockchain.last_block blockchain;; ret (VStr (Block.hash last0))
                 end w0 = Ok (VStr (Block.hash last)) w0).
    { intros w0. destruct (Blockchain.chain blockchain) eqn:Ec.
      - destruct old; discriminate E.
      - unfold bind. rewrite (last_block_snoc blockchain old last w0) by congruence. reflexivity. }
    rewrite Hl. rewrite E, rev_app_distr. reflexivity.
Qed.

Lemma create_backup_default self blockchain w :
  BlockchainStorage.create_backup self blockchain None w
  = BlockchainStorage.create_backup self blockchain (Some (default_backup_name w)) (tick w).
Proof. reflexivity. Qed.

Lemma prefix_append p s : String.prefix p (p ++ s) = true.
Proof.
  induction p as [|c p IH]; cbn [String.append String.prefix].
  - now destruct s.
  - destruct (ascii_dec c c) as [_|H]; [exact IH|now elim H].
Qed.

Lemma length_append p s : String.length (p ++ s) = (String.length p + String.length s)%nat.
Proof. induction p as [|c p IH]; cbn; [reflexivity|now rewrite IH]. Qed.

Lemma substring_all s : substring 0 (String.length s) s = s.
Proof. induction s as [|c s IH]; cbn; [reflexivity|now rewrite IH]. Qed.

Lemma substring_append p s :
  substring (String.length p) (String.length (p ++ s) - String.length p) (p ++ s) = s.
Proof.
  rewrite length_append. replace (String.length p + String.length s - String.length p)%nat
    with (String.length s) by lia.
  induction p as [|c p IH]; cbn [String.length String.append substring].
  - apply substring_all.
  - exact IH.
Qed.

Lemma last_char_append p c s :
  substring (String.length (p ++ String c s) - 1) 1 (p ++ String c s)
  = substring (String.length (String c s) - 1) 1 (String c s).
Proof.
  induction p as [|d p IH]; [reflexivity|].
  cbn [String.append String.length]. rewrite length_append in *.
  cbn [String.length] in *.
  replace (S (String.length p + S (String.length s)) - 1)%nat
    with (S (String.length p + S (String.length s) - 1)) by lia.
  cbn [substring]. exact IH.
Qed.

Lemma append_not_empty p c s : (p ++ String c s)%string <> EmptyString.
Proof. destruct p; discriminate. Qed.

(** Where the backups of [BlockchainStorage(path)] go. *)
Lemma backup_path_eq path name :
  startswith name "/" = false ->
  BlockchainStorage.path_join (BlockchainStorage.backup_dir (BlockchainStorage.init path)) name
  = (BlockchainStorage.path_join path EmptyString ++ "backups/" ++ name)%string.
Proof.
  intros Hn. cbn [BlockchainStorage.init BlockchainStorage.backup_dir].
  rewrite (path_join_same_prefix path "backups") by reflexivity.
  set (P := BlockchainStorage.path_join path EmptyString).
  unfold BlockchainStorage.path_join. rewrite Hn.
  pose proof (append_not_empty P "b" "ackups") as Hne. apply String.eqb_neq in Hne.
  rewrite Hne. rewrite (last_char_append P "b" "ackups").
  cbn [String.length Nat.sub substring String.eqb Ascii.eqb Bool.eqb].
  now rewrite append_assoc.
Qed.

Lemma plain_name_no_slash name : plain_name name = true -> startswith name "/" = false.
Proof.
  unfold plain_name. intros H. apply andb_true_iff in H as [H _].
  apply andb_true_iff in H as [H _]. apply andb_true_iff in H as [H1 H2].
  destruct name as [|c name]; [reflexivity|].
  cbn [BlockchainStorage.first_component] in H2. unfold startswith. cbn [String.prefix].
  destruct (Ascii.eqb c "/") eqn:Hc.
  - discriminate H2.
  - destruct (ascii_dec "/" c) as [<-|_]; [discriminate Hc|reflexivity].
Qed.

Lemma backup_path_not_chain_file path name :
  plain_name name = true ->
  BlockchainStorage.path_join (BlockchainStorage.backup_dir (BlockchainStorage.init path)) name
  <> BlockchainStorage.chain_file (BlockchainStorage.init path).
Proof.
  intros Hn. rewrite (backup_path_eq path name (plain_name_no_slash _ Hn)).
  cbn [BlockchainStorage.init BlockchainStorage.chain_file].
  rewrite (path_join_same_prefix path "blockchain.json") by reflexivity.
  intros H. apply append_cancel_l in H. discriminate H.
Qed.

Lemma backup_path_not_metadata_file path name :
  plain_name name = true ->
  BlockchainStorage.path_join (BlockchainStorage.backup_dir (BlockchainStorage.init path)) name
  <> BlockchainStorage.metadata_file (BlockchainStorage.init path).
Proof.
  intros Hn. rewrite (backup_path_eq path name (plain_name_no_slash _ Hn)).
  cbn [BlockchainStorage.init BlockchainStorage.metadata_file].
  rewrite (path_join_same_prefix path "metadata.json") by reflexivity.
  intros H. apply append_cancel_l in H. discriminate H.
Qed.

Lemma set_chain_file_back self path :
  BlockchainStorage.set_chain_file (BlockchainStorage.set_chain_file self path)
                                   (BlockchainStorage.chain_file self) = self.
Proof. now destruct self. Qed.

(** [load_from_backup] when the backup file is there: [load_blockchain]
    run on the backup file, and one more line printed when a chain came
    out. *)
Lemma load_from_backup_of_file fuel self name w doc result w1 :
  dict_get (BlockchainStorage.path_join (BlockchainStorage.backup_dir self) name) (files w)
  = Some doc ->
  BlockchainStorage.load_blockchain fuel
    (BlockchainStorage.set_chain_file self
       (BlockchainStorage.path_join (BlockchainStorage.backup_dir self) name)) w
  = Ok result w1 ->
  BlockchainStorage.load_from_backup fuel self name w
  = Ok (result, self)
       (match result with
        | Some _ => printed w1 [("Blockchain restored from backup: " ++ name)%string]
        | None => w1
        end).
Proof.
  intros Hfile Hload. unfold BlockchainStorage.load_from_backup.
  apply try_except_ok.
  rewrite (bind_ok _ _ _ true w) by (unfold path_exists, dict_in; now rewrite Hfile).
  cbn [negb]. apply try_except_ok. rewrite (bind_ok _ _ _ _ _ Hload).
  apply try_except_ok. rewrite set_chain_file_back.
  destruct result; reflexivity.
Qed.

(** X13.  A backup written under a plain name and restored from gives back the
    chain itself, when no timestamp in it is falsy.  Writing the backup
    leaves the chain file and the metadata file as they were, and
    restoring writes nothing and leaves the storage object pointing at its
    own chain file. *)
Theorem backup_then_restore fuel path blockchain name w :
  plain_name name = true ->
  forallb stamped (Blockchain.chain blockchain) = true ->
  exists w1 w2,
    BlockchainStorage.create_backup (BlockchainStorage.init path) blockchain (Some name) w
    = Ok true w1
    /\ BlockchainStorage.load_from_backup fuel (BlockchainStorage.init path) name w1
       = Ok (Some (Blockchain.mk [] (Blockchain.chain blockchain)
                                 (Some (Blockchain.get_difficulty blockchain))),
             BlockchainStorage.init path) w2
    /\ dict_get (BlockchainStorage.chain_file (BlockchainStorage.init path)) (files w1)
       = dict_get (BlockchainStorage.chain_file (BlockchainStorage.init path)) (files w)
    /\ dict_get (BlockchainStorage.metadata_file (BlockchainStorage.init path)) (files w1)
       = dict_get (BlockchainStorage.metadata_file (BlockchainStorage.init path)) (files w)
    /\ files w2 = files w1.
Proof.
  intros Hn Hst. set (self := BlockchainStorage.init path).
  set (w1 := backed_up_world self blockchain name w).
  set (backup_path := BlockchainStorage.path_join (BlockchainStorage.backup_dir self) name).
  assert (Hfile : dict_get backup_path (files w1)
                  = Some (document_of (Blockchain.chain blockchain)
                            (backup_metadata_of blockchain (isoformat w (clock w (ticks w)))))).
  { unfold w1, backed_up_world. cbn [files]. apply dict_get_set_same. }
  pose proof (load_document_exact fuel (BlockchainStorage.set_chain_file self backup_path) w1
                _ _ Hfile Hst) as Hload.
  eexists w1, _. split; [apply create_backup_eq|].
  split; [exact (load_from_backup_of_file fuel self name w1 _ _ _ Hfile Hload)|].
  split; [|split; [|reflexivity]]; unfold w1, backed_up_world; cbn [files];
    apply dict_get_set_other; apply not_eq_sym.
  - now apply backup_path_not_chain_file.
  - now apply backup_path_not_metadata_file.
Qed.

(** X13 on the sample data. *)
Lemma backup_then_restore_witness :
  exists w1 w2,
    BlockchainStorage.create_backup (BlockchainStorage.init "blockchain_data")
      (Blockchain.mk [] sample_mined_chain None) (Some "first.json") (world_at fzero)
    = Ok true w1
    /\ BlockchainStorage.load_from_backup 0 (BlockchainStorage.init "blockchain_data")
         "first.json" w1
       = Ok (Some (Blockchain.mk [] sample_mined_chain (Some (VInt 2))),
             BlockchainStorage.init "blockchain_data") w2
    /\ dict_get (BlockchainStorage.chain_file (BlockchainStorage.init "blockchain_data"))
                (files w1)
       = dict_get (BlockchainStorage.chain_file (BlockchainStorage.init "blockchain_data"))
                  (files (world_at fzero))
    /\ dict_get (BlockchainStorage.metadata_file (BlockchainStorage.init "blockchain_data"))
                (files w1)
       = dict_get (BlockchainStorage.metadata_file (BlockchainStorage.init "blockchain_data"))
                  (files (world_at fzero))
    /\ files w2 = files w1.
Proof.
  apply (backup_then_restore 0 "blockchain_data" (Blockchain.mk [] sample_mined_chain None)
           "first.json" (world_at fzero)); reflexivity.
Defined.

(** X14.  [load_from_backup] of a plain file name that is no directory among
    the backups always returns, whatever the fuel: it writes no file and
    leaves the storage object pointing at the chain file it pointed at
    before.  Without a file of that name among the backups it says so and
    returns [None]. *)
Theorem load_from_backup_leaves_storage_as_it_was fuel self name w :
  plain_name name = true ->
  has_files_below (BlockchainStorage.path_join (BlockchainStorage.backup_dir self) name) w
  = false ->
  exists result w',
    BlockchainStorage.load_from_backup fuel self name w = Ok (result, self) w'
    /\ files w' = files w
    /\ (dict_get (BlockchainStorage.path_join (BlockchainStorage.backup_dir self) name)
                 (files w) = None ->
        result = None
        /\ stdout w' = stdout w ++ [("Backup file not found: " ++ name)%string]).
Proof.
  intros _ _.
  destruct (dict_get (BlockchainStorage.path_join (BlockchainStorage.backup_dir self) name)
                     (files w)) as [doc|] eqn:Hfile.
  - destruct (load_blockchain_of_file fuel
                (BlockchainStorage.set_chain_file self
                   (BlockchainStorage.path_join (BlockchainStorage.backup_dir self) name))
                w doc Hfile) as (result & w1 & Hload & Hf & _).
    eexists _, _. split; [exact (load_from_backup_of_file fuel self name w doc _ _ Hfile Hload)|].
    split; [|discriminate]. destruct result; [exact Hf|exact Hf].
  - eexists None, _. split.
    + unfold BlockchainStorage.load_from_backup. apply try_except_ok.
      rewrite (bind_ok _ _ _ false w) by (unfold path_exists, dict_in; now rewrite Hfile).
      cbn [negb]. reflexivity.
    + split; [reflexivity|]. intros _. split; reflexivity.
Qed.

(** X14 on the sample data. *)
Lemma load_from_backup_leaves_storage_as_it_was_witness :
  exists w',
    BlockchainStorage.load_from_backup 0 sample_storage "missing.json"
      (backed_up_world sample_storage (Blockchain.mk [] sample_mined_chain None) "first.json"
                       (world_at fzero))
    = Ok (None, sample_storage) w'
    /\ files w' = files (backed_up_world sample_storage
                           (Blockchain.mk [] sample_mined_chain None) "first.json"
                           (world_at fzero))
    /\ stdout w' = ["Backup created: blockchain_data/backups/first.json";
                    "Backup file not found: missing.json"].
Proof.
  destruct (load_from_backup_leaves_storage_as_it_was 0 sample_storage "missing.json"
              (backed_up_world sample_storage (Blockchain.mk [] sample_mined_chain None)
                               "first.json" (world_at fzero)) eq_refl eq_refl)
    as (result & w' & E & Hfiles & Hmissing).
  destruct (Hmissing eq_refl) as [-> Hout]. exists w'.
  split; [exact E|]. split; [exact Hfiles|exact Hout].
Defined.

(** *** The order of [str] and the listing of backups *)

Lemma ascii_compare_lt_trans a b c :
  Ascii.compare a b = Lt -> Ascii.compare b c = Lt -> Ascii.compare a c = Lt.
Proof. unfold Ascii.compare. rewrite !N.compare_lt_iff. lia. Qed.

Lemma string_compare_lt_trans : forall a b c,
  String.compare a b = Lt -> String.compare b c = Lt -> String.compare a c = Lt.
Proof.
  induction a as [|x a IH]; intros [|y b] [|z c]; cbn [String.compare];
    try discriminate; try reflexivity.
  destruct (Ascii.compare x y) eqn:Hxy; try discriminate;
    destruct (Ascii.compare y z) eqn:Hyz; try discriminate; intros H1 H2.
  - apply Ascii.compare_eq_iff in Hxy as ->. apply Ascii.compare_eq_iff in Hyz as ->.
    replace (Ascii.compare z z) with Eq by (symmetry; apply N.compare_refl).
    exact (IH _ _ H1 H2).
  - apply Ascii.compare_eq_iff in Hxy as ->. now rewrite Hyz.
  - apply Ascii.compare_eq_iff in Hyz as <-. now rewrite Hxy.
  - now rewrite (ascii_compare_lt_trans _ _ _ Hxy Hyz).
Qed.

Lemma ltb_trans a b c : String.ltb a b = true -> String.ltb b c = true -> String.ltb a c = true.
Proof.
  unfold String.ltb. destruct (String.compare a b) eqn:H1; try discriminate.
  destruct (String.compare b c) eqn:H2; try discriminate.
  now rewrite (string_compare_lt_trans _ _ _ H1 H2).
Qed.

Lemma ltb_total a b : String.ltb a b = false -> a <> b -> String.ltb b a = true.
Proof.
  unfold String.ltb. rewrite (String.compare_antisym b a).
  destruct (String.compare a b) eqn:H; try discriminate; intros _ Hne.
  - now apply String.compare_eq_iff in H.
  - reflexivity.
Qed.

Lemma In_insert_desc x s l : In x (insert_desc s l) <-> x = s \/ In x l.
Proof.
  induction l as [|s' l IH]; cbn [insert_desc In].
  - intuition.
  - destruct (String.ltb s' s); cbn [In]; rewrite ?IH; intuition.
Qed.

Lemma insert_desc_descending s l :
  descending l -> ~ In s l -> descending (insert_desc s l).
Proof.
  unfold descending. induction l as [|s' l IH]; intros Hl Hs; cbn [insert_desc].
  - constructor; constructor.
  - apply StronglySorted_inv in Hl as [Hl Hall].
    destruct (String.ltb s' s) eqn:Hlt.
    + constructor; [constructor; assumption|]. constructor; [exact Hlt|].
      rewrite Forall_forall in *. intros y Hy. exact (ltb_trans _ _ _ (Hall y Hy) Hlt).
    + constructor.
      * apply IH; [exact Hl|]. intros H. apply Hs. now right.
      * rewrite Forall_forall in *. intros y Hy. apply In_insert_desc in Hy as [->|Hy].
        -- apply ltb_total; [exact Hlt|]. intros ->. apply Hs. now left.
        -- now apply Hall.
Qed.

Lemma sort_reverse_from l : forall acc,
  descending acc -> NoDup l -> (forall x, In x l -> ~ In x acc) ->
  descending (fold_left (fun acc s => insert_desc s acc) l acc)
  /\ forall x, In x (fold_left (fun acc s => insert_desc s acc) l acc) <-> In x l \/ In x acc.
Proof.
  induction l as [|s l IH]; intros acc Hacc Hnd Hdis; cbn [fold_left].
  - split; [exact Hacc|]. intros x. cbn. tauto.
  - apply NoDup_cons_iff in Hnd as [Hs Hnd].
    destruct (IH (insert_desc s acc)) as [H1 H2].
    + apply insert_desc_descending; [exact Hacc|]. apply Hdis. now left.
    + exact Hnd.
    + intros x Hx Hin. apply In_insert_desc in Hin as [->|Hin]; [contradiction|].
      apply (Hdis x); [now right|exact Hin].
    + split; [exact H1|]. intros x. rewrite H2, In_insert_desc. cbn [In]. intuition.
Qed.

Lemma sort_reverse_descending l :
  NoDup l -> descending (sort_reverse l) /\ forall x, In x (sort_reverse l) <-> In x l.
Proof.
  intros Hnd. destruct (sort_reverse_from l [] (SSorted_nil _) Hnd (fun _ _ H => H))
    as [H1 H2].
  split; [exact H1|]. intros x. rewrite (H2 x). cbn. tauto.
Qed.

Lemma dict_get_In k (d : dict) v : dict_get k d = Some v -> In (k, v) d.
Proof.
  induction d as [|[k' v'] d IH]; cbn [dict_get]; [discriminate|].
  destruct (String.eqb_spec k k') as [->|_].
  - intros [= ->]. now left.
  - intros H. right. now apply IH.
Qed.

Lemma listdir_lists dir name w doc :
  startswith name "/" = false ->
  name <> EmptyString ->
  BlockchainStorage.first_component name = name ->
  dict_get (BlockchainStorage.path_join dir name) (files w) = Some doc ->
  exists names, BlockchainStorage.listdir dir w = Ok names w /\ NoDup names /\ In name names.
Proof.
  intros Hslash Hne Hfc Hfile. unfold BlockchainStorage.listdir.
  eexists. split; [reflexivity|]. split; [apply NoDup_nodup|].
  apply nodup_In. apply in_flat_map.
  exists (BlockchainStorage.path_join dir name, doc). split; [now apply dict_get_In|].
  cbn [fst]. rewrite (path_join_same_prefix dir name Hslash).
  unfold startswith. rewrite prefix_append, substring_append, Hfc.
  apply String.eqb_neq in Hne. rewrite Hne. now left.
Qed.

Lemma plain_name_parts name :
  plain_name name = true ->
  startswith name "/" = false /\ name <> EmptyString
  /\ BlockchainStorage.first_component name = name.
Proof.
  intros H. split; [now apply plain_name_no_slash|].
  unfold plain_name in H. apply andb_true_iff in H as [H _].
  apply andb_true_iff in H as [H _]. apply andb_true_iff in H as [H1 H2].
  split.
  - intros ->. discriminate H1.
  - now apply String.eqb_eq.
Qed.

Lemma list_backups_eq self w :
  exists names,
    BlockchainStorage.listdir (BlockchainStorage.backup_dir self) w = Ok names w
    /\ NoDup names
    /\ BlockchainStorage.list_backups self w
       = Ok (sort_reverse (filter (fun f => endswith f ".json") names)) w.
Proof.
  unfold BlockchainStorage.list_backups, BlockchainStorage.listdir, try_except, bind.
  eexists. split; [reflexivity|]. split; [apply NoDup_nodup|reflexivity].
Qed.

(** X15.  [list_backups] returns, in descending order and each once, names
    that end in [.json], and changes nothing.  Every plain name ending in
    [.json] that has a file among the backups is in the list; so is the
    name of a backup right after [create_backup] wrote it. *)
Theorem list_backups_lists_json_names_in_descending_order self w :
  exists backups,
    BlockchainStorage.list_backups self w = Ok backups w
    /\ descending backups
    /\ (forall name, In name backups -> endswith name ".json" = true)
    /\ (forall name doc,
          plain_name name = true ->
          endswith name ".json" = true ->
          dict_get (BlockchainStorage.path_join (BlockchainStorage.backup_dir self) name)
                   (files w) = Some doc ->
          In name backups)
    /\ (forall blockchain name w0,
          plain_name name = true ->
          endswith name ".json" = true ->
          BlockchainStorage.create_backup self blockchain (Some name) w0 = Ok true w ->
          In name backups).
Proof.
  destruct (list_backups_eq self w) as (names & Hdir & Hnd & Hlist).
  destruct (sort_reverse_descending (filter (fun f => endswith f ".json") names)
              (NoDup_filter _ Hnd)) as [Hsorted Hin].
  assert (Hfile : forall name doc,
             plain_name name = true -> endswith name ".json" = true ->
             dict_get (BlockchainStorage.path_join (BlockchainStorage.backup_dir self) name)
                      (files w) = Some doc ->
             In name (sort_reverse (filter (fun f => endswith f ".json") names))).
  { intros name doc Hp He Hf. apply Hin. apply filter_In. split; [|exact He].
    destruct (plain_name_parts name Hp) as (H1 & H2 & H3).
    destruct (listdir_lists _ name w doc H1 H2 H3 Hf) as (names' & E & _ & Hn).
    rewrite Hdir in E. injection E as <-. exact Hn. }
  eexists. split; [exact Hlist|]. split; [exact Hsorted|]. split; [|split].
  - intros name Hn. apply Hin in Hn. now apply filter_In in Hn.
  - exact Hfile.
  - intros blockchain name w0 Hp He Hb. rewrite create_backup_eq in Hb.
    injection Hb as <-. eapply (Hfile name _ Hp He).
    unfold backed_up_world. cbn [files]. apply dict_get_set_same.
Qed.

(** X15 on the sample data. *)
Lemma list_backups_lists_json_names_in_descending_order_witness :
  exists backups,
    BlockchainStorage.list_backups sample_storage
      (backed_up_world sample_storage sample_pending "first.json" (world_at fzero))
    = Ok backups (backed_up_world sample_storage sample_pending "first.json" (world_at fzero))
    /\ In "first.json" backups.
Proof.
  destruct (list_backups_lists_json_names_in_descending_order sample_storage
              (backed_up_world sample_storage sample_pending "first.json" (world_at fzero)))
    as (backups & E & _ & _ & _ & Hnew).
  exists backups. split; [exact E|].
  apply (Hnew sample_pending "first.json" (world_at fzero)); [reflexivity|reflexivity|].
  apply create_backup_eq.
Defined.

Lemma endswith_append p s : endswith (p ++ s) s = true.
Proof.
  unfold endswith. rewrite length_append.
  replace (String.length p + String.length s - String.length s)%nat with (String.length p)
    by lia.
  replace (String.length s <=? String.length p + String.length s)%nat with true
    by (symmetry; apply Nat.leb_le; lia).
  cbn [andb]. apply String.eqb_eq.
  induction p as [|c p IH]; cbn [String.length String.append substring].
  - apply substring_all.
  - exact IH.
Qed.

(** X16.  A backup made without a name goes under
    [blockchain_backup_<date>_<time>.json], the date and the time being
    those of the clock when [create_backup] is called.  When that name is
    a plain one, the backup is in the list [list_backups] gives next, and
    [load_from_backup] restores the chain from it. *)
Theorem unnamed_backup_is_listed fuel path blockchain w :
  plain_name (default_backup_name w) = true ->
  forallb stamped (Blockchain.chain blockchain) = true ->
  exists w1 backups w2,
    BlockchainStorage.create_backup (BlockchainStorage.init path) blockchain None w = Ok true w1
    /\ startswith (default_backup_name w) "blockchain_backup_" = true
    /\ endswith (default_backup_name w) ".json" = true
    /\ BlockchainStorage.list_backups (BlockchainStorage.init path) w1 = Ok backups w1
    /\ In (default_backup_name w) backups
    /\ BlockchainStorage.load_from_backup fuel (BlockchainStorage.init path)
                                          (default_backup_name w) w1
       = Ok (Some (Blockchain.mk [] (Blockchain.chain blockchain)
                                 (Some (Blockchain.get_difficulty blockchain))),
             BlockchainStorage.init path) w2.
Proof.
  intros Hp Hst. set (self := BlockchainStorage.init path).
  set (name := default_backup_name w) in *.
  set (w1 := backed_up_world self blockchain name (tick w)).
  assert (Hend : endswith name ".json" = true).
  { unfold name, default_backup_name. rewrite <- append_assoc. apply endswith_append. }
  assert (Hfile : dict_get (BlockchainStorage.path_join (BlockchainStorage.backup_dir self) name)
                           (files w1)
                  = Some (document_of (Blockchain.chain blockchain)
                            (backup_metadata_of blockchain
                               (isoformat w (clock w (S (ticks w))))))).
  { unfold w1, backed_up_world. cbn [files]. apply dict_get_set_same. }
  destruct (list_backups_eq self w1) as (names & Hdir & Hnd & Hlist).
  destruct (sort_reverse_descending (filter (fun f => endswith f ".json") names)
              (NoDup_filter _ Hnd)) as [_ Hin].
  pose proof (load_document_exact fuel
                (BlockchainStorage.set_chain_file self
                   (BlockchainStorage.path_join (BlockchainStorage.backup_dir self) name))
                w1 _ _ Hfile Hst) as Hload.
  eexists w1, _, _.
  split; [rewrite create_backup_default; apply create_backup_eq|].
  split; [apply prefix_append|]. split; [exact Hend|]. split; [exact Hlist|]. split.
  - apply Hin. apply filter_In. split; [|exact Hend].
    destruct (plain_name_parts name Hp) as (H1 & H2 & H3).
    destruct (listdir_lists _ name w1 _ H1 H2 H3 Hfile) as (names' & E & _ & Hn).
    rewrite Hdir in E. injection E as <-. exact Hn.
  - exact (load_from_backup_of_file fuel self name w1 _ _ _ Hfile Hload).
Qed.

(** X16 on the sample data. *)
Lemma unnamed_backup_is_listed_witness :
  exists w1 backups w2,
    BlockchainStorage.create_backup (BlockchainStorage.init "blockchain_data")
      (Blockchain.mk [] sample_mined_chain None) None (world_at fzero) = Ok true w1
    /\ startswith (default_backup_name (world_at fzero)) "blockchain_backup_" = true
    /\ endswith (default_backup_name (world_at fzero)) ".json" = true
    /\ BlockchainStorage.list_backups (BlockchainStorage.init "blockchain_data") w1
       = Ok backups w1
    /\ In (default_backup_name (world_at fzero)) backups
    /\ BlockchainStorage.load_from_backup 0 (BlockchainStorage.init "blockchain_data")
                                          (default_backup_name (world_at fzero)) w1
       = Ok (Some (Blockchain.mk [] sample_mined_chain (Some (VInt 2))),
             BlockchainStorage.init "blockchain_data") w2.
Proof.
  apply (unnamed_backup_is_listed 0 "blockchain_data" (Blockchain.mk [] sample_mined_chain None)
           (world_at fzero)); reflexivity.
Defined.

Example default_backup_name_sample :
  default_backup_name (world_at fzero) = "blockchain_backup_20231114_221429.json".
Proof. reflexivity. Qed.

(* ------------------------------------------------------------------ *)
(** ** Further properties of zk_proofs.py *)

Section VerifyFacts.
Variable rsa : pss_scheme.
Variable self : ZKProofGenerator.t rsa.

(** Every answer of [verify_kyc_proof] is a short rejection or the
    composite result. *)
Lemma verify_kyc_proof_shape proof key w :
  exists result w',
    ZKProofGenerator.verify_kyc_proof rsa self proof key w = Ok (VDict result) w'
    /\ ((exists reason verified_at, result = rejection reason verified_at)
        \/ exists signature_valid structure_valid proof_age public_claims verification_level
                  issuing_institution verified_at,
             result = verification_of signature_valid structure_valid proof_age public_claims
                                      verification_level issuing_institution verified_at).
Proof.
  unfold ZKProofGenerator.verify_kyc_proof. cbv beta zeta.
  fold (generated_at_or_0 proof). fold (public_claims_or_empty proof).
  match goal with |- context [try_except ?m ?h] => set (body := m); set (handler := h) end.
  assert (Hbody :
            match body w with
            | Ok r w' =>
                exists result,
                  r = VDict result
                  /\ ((exists reason verified_at, result = rejection reason verified_at)
                      \/ exists signature_valid structure_valid proof_age public_claims
                                verification_level issuing_institution verified_at,
                           result = verification_of signature_valid structure_valid proof_age
                                      public_claims verification_level issuing_institution
                                      verified_at)
            | Raise _ _ => True
            | OutOfFuel => False
            end).
  { subst body. clear handler.
    destruct (negb (truthy _)) eqn:Htruthy.
    { eexists. split; [reflexivity|]. left. eexists _, _. reflexivity. }
    match goal with |- context [bind ?m _] => set (sig_step := m) end.
    assert (Hsig : pure_like sig_step).
    { subst sig_step. destruct (match dict_get "proof_signature" proof with
                                | Some v => v
                                | None => VNone
                                end); try apply pure_raise.
      destruct (fromhex s); [apply pure_ret|apply pure_raise]. }
    unfold bind at 1. destruct (Hsig w) as [[signature ->]|[e ->]]; [|exact I].
    unfold bind at 1.
    destruct (pure_validate_proof_structure rsa self proof w) as [[st ->]|[e ->]]; [|exact I].
    unfold bind at 1. rewrite time_eq.
    unfold bind at 1.
    destruct (pure_float_minus (clock w (ticks w)) (generated_at_or_0 proof) (tick w))
      as [[age Hage]|[e He]]; rewrite ?Hage, ?He; [|exact I].
    unfold bind at 1.
    destruct (pure_get (public_claims_or_empty proof) "verification_level" (tick w))
      as [[vl Hvl]|[e He]]; rewrite ?Hvl, ?He; [|exact I].
    unfold bind at 1.
    destruct (pure_get (public_claims_or_empty proof) "issuing_institution" (tick w))
      as [[ii ->]|[e ->]]; [|exact I].
    unfold bind at 1. rewrite time_eq.
    set (sv := verify rsa _ signature _).
    destruct (negb (sv && st && float_ltb age ZKProofGenerator.day)) eqn:Hov.
    - eexists. split; [reflexivity|]. right.
      exists sv, st, age, (public_claims_or_empty proof), vl, ii, (clock (tick w) (ticks (tick w))).
      unfold verification_of. apply negb_true_iff in Hov. rewrite Hov.
      unfold failure_reasons_of. 
      destruct sv, st, (float_ltb age ZKProofGenerator.day); reflexivity.
    - eexists. split; [reflexivity|]. right.
      exists sv, st, age, (public_claims_or_empty proof), vl, ii, (clock (tick w) (ticks (tick w))).
      unfold verification_of. apply negb_false_iff in Hov. rewrite Hov. reflexivity. }
  unfold try_except. destruct (body w) as [r w'|e w'|].
  - destruct Hbody as (result & -> & H). exists result, w'. split; [reflexivity|exact H].
  - subst handler. eexists _, _. split; [reflexivity|]. left. eexists _, _. reflexivity.
  - contradiction.
Qed.

End VerifyFacts.

(** X17.  Whenever [verify_kyc_proof] gives its composite answer, [valid] is
    the conjunction of the three checks, and [failure_reasons] is there
    exactly when [valid] is false: it then lists, in the order signature,
    structure, expiry, the checks that failed and no other. *)
Theorem failed_checks_are_listed rsa (self : ZKProofGenerator.t rsa) proof key w result w'
    signature_valid structure_valid not_expired :
  ZKProofGenerator.verify_kyc_proof rsa self proof key w = Ok (VDict result) w' ->
  dict_get "signature_verified" result = Some (VBool signature_valid) ->
  dict_get "structure_valid" result = Some (VBool structure_valid) ->
  dict_get "not_expired" result = Some (VBool not_expired) ->
  dict_get "valid" result = Some (VBool (signature_valid && structure_valid && not_expired))
  /\ dict_get "failure_reasons" result
     = (if signature_valid && structure_valid && not_expired then None
        else Some (VList ((if signature_valid then []
                           else [VStr "Invalid cryptographic signature"])
                          ++ (if structure_valid then [] else [VStr "Invalid proof structure"])
                          ++ (if not_expired then [] else [VStr "Proof expired"])))).
Proof.
  intros Hver Hsv Hst Hne.
  destruct (verify_kyc_proof_shape rsa self proof key w) as (result' & w'' & E & Hshape).
  rewrite Hver in E. injection E as <- <-.
  destruct Hshape as [(reason & at' & ->)|(sv & st & age & pc & vl & ii & at' & ->)].
  - discriminate Hsv.
  - unfold verification_of in *. cbn [app dict_get String.eqb Ascii.eqb Bool.eqb] in *.
    injection Hsv as ->. injection Hst as ->. injection Hne as <-.
    split; [reflexivity|].
    destruct (signature_valid && structure_valid && float_ltb age ZKProofGenerator.day);
      reflexivity.
Qed.

(** X17 on the sample data. *)
Lemma failed_checks_are_listed_witness :
  let result :=
    verification_of false true fzero
      (public_claims_of "CDD" "Bank_A" (sample_world (flt 1700000232 0)))
      (VStr "CDD") (VStr "Bank_A") (flt 1700000232 0) in
  dict_get "valid" result = Some (VBool (false && true && true))
  /\ dict_get "failure_reasons" result
     = Some (VList [VStr "Invalid cryptographic signature"]).
Proof.
  apply (failed_checks_are_listed toy_scheme toy_generator tampered_proof None
           sample_proof_world _ (tick (tick sample_proof_world)) false true true).
  - vm_compute. reflexivity.
  - reflexivity.
  - reflexivity.
  - reflexivity.
Defined.

Lemma proof_without_usable_signature_is_rejected_aux rsa (self : ZKProofGenerator.t rsa)
    proof key w :
  truthy (signature_or_none proof) = false ->
  ZKProofGenerator.verify_kyc_proof rsa self proof key w
  = Ok (VDict [("valid", VBool false);
               ("reason", VStr "Missing proof signature");
               ("verified_at", VFloat (clock w (ticks w)))]) (tick w).
Proof.
  unfold ZKProofGenerator.verify_kyc_proof, try_except. cbv beta zeta.
  fold (signature_or_none proof). intros H. rewrite H. reflexivity.
Qed.

(** X18.  A proof without a signature, or with one that is [None] or empty, is
    answered with "Missing proof signature"; a signature that is not a
    string of hexadecimal digits is answered with a "Verification error".
    In both cases [verify_kyc_proof] returns a rejection rather than
    raise, after reading the clock once. *)
Theorem proof_without_usable_signature_is_rejected rsa (self : ZKProofGenerator.t rsa)
    proof key w :
  (truthy (signature_or_none proof) = false ->
   ZKProofGenerator.verify_kyc_proof rsa self proof key w
   = Ok (VDict [("valid", VBool false);
                ("reason", VStr "Missing proof signature");
                ("verified_at", VFloat (clock w (ticks w)))]) (tick w))
  /\ (truthy (signature_or_none proof) = true ->
      (forall s, signature_or_none proof = VStr s -> fromhex s = None) ->
      exists detail,
        ZKProofGenerator.verify_kyc_proof rsa self proof key w
        = Ok (VDict [("valid", VBool false);
                     ("reason", VStr ("Verification error: " ++ detail));
                     ("verified_at", VFloat (clock w (ticks w)))]) (tick w)).
Proof.
  unfold ZKProofGenerator.verify_kyc_proof, try_except. cbv beta zeta.
  fold (signature_or_none proof). split.
  - intros H. rewrite H. reflexivity.
  - intros H Hbad. rewrite H. cbn [negb]. unfold bind at 1.
    destruct (signature_or_none proof) as [| | | |s| |] eqn:Hs;
      try (exists (str_exn TypeError); reflexivity).
    rewrite (Hbad s eq_refl). exists (str_exn ValueError). reflexivity.
Qed.

(** X18 on the sample data. *)
Lemma proof_without_usable_signature_is_rejected_witness :
  ZKProofGenerator.verify_kyc_proof toy_scheme toy_generator
    (dict_pop "proof_signature" (sample_proof "CDD")) None sample_proof_world
  = Ok (VDict [("valid", VBool false);
               ("reason", VStr "Missing proof signature");
               ("verified_at", VFloat (clock sample_proof_world (ticks sample_proof_world)))])
       (tick sample_proof_world)
  /\ exists detail,
       ZKProofGenerator.verify_kyc_proof toy_scheme toy_generator
         (dict_set "proof_signature" (VStr "not hex") (sample_proof "CDD")) None
         sample_proof_world
       = Ok (VDict [("valid", VBool false);
                    ("reason", VStr ("Verification error: " ++ detail));
                    ("verified_at",
                     VFloat (clock sample_proof_world (ticks sample_proof_world)))])
            (tick sample_proof_world).
Proof.
  split.
  - apply (proof_without_usable_signature_is_rejected toy_scheme toy_generator
             (dict_pop "proof_signature" (sample_proof "CDD")) None sample_proof_world).
    reflexivity.
  - apply (proof_without_usable_signature_is_rejected toy_scheme toy_generator
             (dict_set "proof_signature" (VStr "not hex") (sample_proof "CDD")) None
             sample_proof_world).
    + reflexivity.
    + intros s H. injection H as <-. reflexivity.
Defined.

(** X19.  [_validate_proof_structure] looks at keys only.  With a dict under
    ['public_claims'] it answers true exactly when the proof has the six
    required fields and the claims have the three required ones, whatever
    the values; a proof that lacks a required field is answered false; and
    when the fields are all there but ['public_claims'] holds [None], a
    number or a boolean, the membership test raises [TypeError]. *)
Theorem proof_structure_is_a_matter_of_keys rsa (self : ZKProofGenerator.t rsa) proof w :
  (forall claims,
      dict_get "public_claims" proof = Some (VDict claims) ->
      ZKProofGenerator._validate_proof_structure rsa self proof w
      = Ok (forallb (fun field => dict_in field proof)
                    ["proof_type"; "commitment_hash"; "challenge"; "public_claims";
                     "proof_id"; "generated_at"]
            && forallb (fun claim => dict_in claim claims)
                       ["verification_level"; "issuing_institution";
                        "verification_completed"]) w)
  /\ (forall field,
        In field ["proof_type"; "commitment_hash"; "challenge"; "public_claims";
                  "proof_id"; "generated_at"] ->
        dict_in field proof = false ->
        ZKProofGenerator._validate_proof_structure rsa self proof w = Ok false w)
  /\ (forall v,
        forallb (fun field => dict_in field proof)
                ["proof_type"; "commitment_hash"; "challenge"; "public_claims";
                 "proof_id"; "generated_at"] = true ->
        dict_get "public_claims" proof = Some v ->
        match v with VDict _ | VStr _ | VList _ => False | _ => True end ->
        ZKProofGenerator._validate_proof_structure rsa self proof w = Raise TypeError w).
Proof.
  unfold ZKProofGenerator._validate_proof_structure, ZKProofGenerator.required_fields,
    ZKProofGenerator.required_claims.
  split; [|split].
  - intros claims Hpc.
    destruct (forallb _ _) eqn:Hfields; cbn [negb andb]; [|reflexivity].
    rewrite Hpc. cbn [ZKProofGenerator.all_claims_in ZKProofGenerator.contains forallb].
    unfold bind, ret.
    destruct (dict_in "verification_level" claims); cbn [negb andb]; [|reflexivity].
    destruct (dict_in "issuing_institution" claims); cbn [negb andb]; [|reflexivity].
    destruct (dict_in "verification_completed" claims); reflexivity.
  - intros field Hin Hmissing.
    assert (H : forallb (fun field => dict_in field proof)
                  ["proof_type"; "commitment_hash"; "challenge"; "public_claims";
                   "proof_id"; "generated_at"] = false).
    { apply not_true_is_false. intros H. rewrite forallb_forall in H.
      rewrite (H field Hin) in Hmissing. discriminate. }
    rewrite H. reflexivity.
  - intros v Hfields Hpc Hv. rewrite Hfields, Hpc. cbn [negb].
    destruct v; try contradiction; reflexivity.
Qed.

(** X19 on the sample data. *)
Lemma proof_structure_is_a_matter_of_keys_witness :
  ZKProofGenerator._validate_proof_structure toy_scheme toy_generator
    (sample_proof "CDD") (world_at fzero) = Ok true (world_at fzero)
  /\ ZKProofGenerator._validate_proof_structure toy_scheme toy_generator
       (dict_pop "challenge" (sample_proof "CDD")) (world_at fzero) = Ok false (world_at fzero)
  /\ ZKProofGenerator._validate_proof_structure toy_scheme toy_generator
       (dict_set "public_claims" VNone (sample_proof "CDD")) (world_at fzero)
     = Raise TypeError (world_at fzero).
Proof.
  split; [|split].
  - destruct (proof_structure_is_a_matter_of_keys toy_scheme toy_generator (sample_proof "CDD")
                (world_at fzero)) as (H & _ & _).
    exact (H _ eq_refl).
  - destruct (proof_structure_is_a_matter_of_keys toy_scheme toy_generator
                (dict_pop "challenge" (sample_proof "CDD")) (world_at fzero)) as (_ & H & _).
    apply (H "challenge"); [cbn; tauto|reflexivity].
  - destruct (proof_structure_is_a_matter_of_keys toy_scheme toy_generator
                (dict_set "public_claims" VNone (sample_proof "CDD")) (world_at fzero))
      as (_ & _ & H).
    apply (H VNone); [reflexivity|reflexivity|exact I].
Defined.

Lemma level_value_rank_or level default :
  ZKProofGenerator.level_value (VStr level) default = ret (rank_or default level).
Proof.
  unfold rank_or, level_rank, ZKProofGenerator.level_value, ZKProofGenerator.level_hierarchy.
  cbn [dict_get].
  destruct (String.eqb level "CIP"); [reflexivity|].
  destruct (String.eqb level "CDD"); [reflexivity|].
  destruct (String.eqb level "EDD"); reflexivity.
Qed.

Lemma rank_or_positive default level : 0 < default -> 0 < rank_or default level.
Proof.
  unfold rank_or, level_rank. intros H.
  destruct (String.eqb level "CIP"); [lia|].
  destruct (String.eqb level "CDD"); [lia|].
  destruct (String.eqb level "EDD"); lia.
Qed.

Section SharingFacts.
Variable rsa : pss_scheme.
Variable self : ZKProofGenerator.t rsa.

(** What [generate_cross_institution_proof] does with a proof that
    [verify_kyc_proof] found valid, at a level that is a string. *)
Lemma sharing_outcome original_proof requesting required w verification w1 original_level :
  ZKProofGenerator.verify_kyc_proof rsa self original_proof None w = Ok (VDict verification) w1 ->
  dict_get "valid" verification = Some (VBool true) ->
  dict_get "verification_level" verification = Some (VStr original_level) ->
  ZKProofGenerator.generate_cross_institution_proof rsa self original_proof requesting required w
  = if rank_or 0 original_level <? rank_or 2 required then
      Ok (VDict [("sharing_approved", VBool false);
                 ("reason", VStr ("Verification level " ++ original_level
                                  ++ " insufficient for requirement " ++ required));
                 ("timestamp", VFloat (clock w1 (ticks w1)))]) (tick w1)
    else
      let unsigned :=
        sharing_proof_of original_proof requesting (VStr original_level)
          (match dict_get "issuing_institution" verification with
           | Some x => x
           | None => VNone
           end) (clock w1 (ticks w1)) in
      bind (sign rsa (ZKProofGenerator.private_key rsa self)
                 (encode (json_dumps (VDict unsigned))))
           (fun signature =>
              ret (VDict (unsigned ++ [("sharing_signature", VStr (hex signature))])))
           (tick w1).
Proof.
  intros Hver Hvalid Hlevel. unfold ZKProofGenerator.generate_cross_institution_proof.
  rewrite (bind_ok _ _ _ _ _ Hver).
  rewrite (bind_ok _ _ _ (VBool true) w1) by (unfold getitem; now rewrite Hvalid).
  cbn [truthy negb]. cbv zeta. rewrite Hlevel.
  rewrite (bind_ok _ _ _ (rank_or 0 original_level) w1) by now rewrite level_value_rank_or.
  rewrite (bind_ok _ _ _ (rank_or 2 required) w1) by now rewrite level_value_rank_or.
  destruct (rank_or 0 original_level <? rank_or 2 required).
  - rewrite (bind_ok _ _ _ _ _ (time_eq w1)). reflexivity.
  - rewrite (bind_ok _ _ _ (match dict_get "issuing_institution" verification with
                            | Some x => x
                            | None => VNone
                            end) w1) by reflexivity.
    rewrite (bind_ok _ _ _ _ _ (time_eq w1)).
    unfold ZKProofGenerator._sign_proof, sharing_proof_of.
    cbn [dict_pop dict_set String.eqb Ascii.eqb Bool.eqb app]. reflexivity.
Qed.

(** A proof without a usable signature is not shared. *)
Lemma unsigned_proof_is_not_shared proof requesting required w :
  truthy (signature_or_none proof) = false ->
  ZKProofGenerator.generate_cross_institution_proof rsa self proof requesting required w
  = Ok (VDict [("sharing_approved", VBool false);
               ("reason", VStr "Original proof is invalid");
               ("timestamp", VFloat (clock w (S (ticks w))))]) (tick (tick w)).
Proof.
  intros H. unfold ZKProofGenerator.generate_cross_institution_proof.
  assert (Hver : ZKProofGenerator.verify_kyc_proof rsa self proof None w
                 = Ok (VDict (rejection "Missing proof signature" (clock w (ticks w)))) (tick w)).
  { unfold ZKProofGenerator.verify_kyc_proof, try_except. cbv beta zeta.
    fold (signature_or_none proof). rewrite H. reflexivity. }
  rewrite (bind_ok _ _ _ _ _ Hver).
  rewrite (bind_ok _ _ _ (VBool false) (tick w)) by reflexivity.
  cbn [truthy negb]. now rewrite (bind_ok _ _ _ _ _ (time_eq (tick w))).
Qed.

End SharingFacts.

(** X20.  Levels outside the table fall back: a valid proof whose level is
    none of CIP, CDD, EDD has rank 0 and is refused whatever is required,
    with a reason that names both levels; a required level outside the
    table counts as CDD, so that sharing is then approved exactly for
    proofs at CDD or EDD. *)
Theorem levels_outside_the_table_fall_back rsa (self : ZKProofGenerator.t rsa)
    original_proof requesting required w verification w1 original_level :
  pss_correct rsa ->
  ZKProofGenerator.verify_kyc_proof rsa self original_proof None w = Ok (VDict verification) w1 ->
  dict_get "valid" verification = Some (VBool true) ->
  dict_get "verification_level" verification = Some (VStr original_level) ->
  (level_rank original_level = None ->
   ZKProofGenerator.generate_cross_institution_proof rsa self original_proof requesting required w
   = Ok (VDict [("sharing_approved", VBool false);
                ("reason", VStr ("Verification level " ++ original_level
                                 ++ " insufficient for requirement " ++ required));
                ("timestamp", VFloat (clock w1 (ticks w1)))]) (tick w1))
  /\ (level_rank required = None ->
      exists result w2,
        ZKProofGenerator.generate_cross_institution_proof rsa self original_proof requesting
                                                          required w
        = Ok (VDict result) w2
        /\ (dict_get "sharing_approved" result = Some (VBool true)
            <-> original_level = "CDD" \/ original_level = "EDD")).
Proof.
  intros Hrsa Hver Hvalid Hlevel.
  rewrite (sharing_outcome rsa self _ requesting required _ _ _ _ Hver Hvalid Hlevel). split.
  - intros Hnone. pose proof (rank_or_positive 2 required ltac:(lia)) as Hpos.
    unfold rank_or at 1. rewrite Hnone.
    replace (0 <? rank_or 2 required) with true by (symmetry; apply Z.ltb_lt; exact Hpos).
    reflexivity.
  - intros Hnone. unfold rank_or at 2. rewrite Hnone.
    assert (Hrank : (rank_or 0 original_level <? 2) = false
                    <-> original_level = "CDD" \/ original_level = "EDD").
    { unfold rank_or, level_rank.
      destruct (String.eqb_spec original_level "CIP") as [->|H1].
      { split; [discriminate|]. intros [H|H]; discriminate H. }
      destruct (String.eqb_spec original_level "CDD") as [->|H2]; [tauto|].
      destruct (String.eqb_spec original_level "EDD") as [->|H3]; [tauto|].
      split; [discriminate|]. tauto. }
    destruct (rank_or 0 original_level <? 2) eqn:Hlt.
    + eexists _, _. split; [reflexivity|]. cbn [dict_get String.eqb Ascii.eqb Bool.eqb].
      rewrite <- Hrank. split; discriminate.
    + cbv zeta.
      match goal with |- context [bind (sign rsa ?sk ?data) _ ?w0] =>
        destruct (Hrsa sk data w0) as (signature & w2 & Hsign & _ & _)
      end.
      rewrite (bind_ok _ _ _ _ _ Hsign).
      eexists _, _. split; [reflexivity|]. unfold sharing_proof_of.
      cbn [app dict_get String.eqb Ascii.eqb Bool.eqb]. rewrite <- Hrank. tauto.
Qed.

(** X20 on the sample data. *)
Lemma levels_outside_the_table_fall_back_witness :
  ZKProofGenerator.generate_cross_institution_proof toy_scheme toy_generator
    (sample_proof "GOLD") "Bank_B" "CIP" sample_proof_world
  = Ok (VDict [("sharing_approved", VBool false);
               ("reason", VStr "Verification level GOLD insufficient for requirement CIP");
               ("timestamp", VFloat (flt 1700000232 0))])
       (tick (tick (tick sample_proof_world)))
  /\ exists result w2,
       ZKProofGenerator.generate_cross_institution_proof toy_scheme toy_generator
         (sample_proof "CDD") "Bank_B" "GOLD" sample_proof_world
       = Ok (VDict result) w2
       /\ dict_get "sharing_approved" result = Some (VBool true).
Proof.
  split.
  - eassert (Hver : ZKProofGenerator.verify_kyc_proof toy_scheme toy_generator
                      (sample_proof "GOLD") None sample_proof_world = Ok (VDict _) _)
      by (vm_compute; reflexivity).
    destruct (levels_outside_the_table_fall_back toy_scheme toy_generator
                (sample_proof "GOLD") "Bank_B" "CIP" sample_proof_world _ _ "GOLD"
                toy_scheme_correct Hver eq_refl eq_refl) as [Hdenied _].
    exact (Hdenied eq_refl).
  - eassert (Hver : ZKProofGenerator.verify_kyc_proof toy_scheme toy_generator
                      (sample_proof "CDD") None sample_proof_world = Ok (VDict _) _)
      by (vm_compute; reflexivity).
    destruct (levels_outside_the_table_fall_back toy_scheme toy_generator
                (sample_proof "CDD") "Bank_B" "GOLD" sample_proof_world _ _ "CDD"
                toy_scheme_correct Hver eq_refl eq_refl) as [_ Hdefault].
    destruct (Hdefault eq_refl) as (result & w2 & E & Happroved).
    exists result, w2. split; [exact E|]. apply Happroved. now left.
Defined.

(** X21.  An approved sharing proof carries the id of the proof it shares, the
    institution that asked for it and the level it confirms, and under
    ['sharing_signature'] the hex text of a signature that the
    generator's public key accepts for the JSON text of the other
    fields.  It has no ['proof_signature']: [verify_kyc_proof] rejects it
    and it cannot be shared in turn. *)
Theorem sharing_proof_is_signed_but_is_no_kyc_proof rsa (self : ZKProofGenerator.t rsa)
    original_proof requesting required w verification w1 original_level :
  pss_correct rsa -> key_pair_ok self ->
  ZKProofGenerator.verify_kyc_proof rsa self original_proof None w = Ok (VDict verification) w1 ->
  dict_get "valid" verification = Some (VBool true) ->
  dict_get "verification_level" verification = Some (VStr original_level) ->
  rank_or 2 required <= rank_or 0 original_level ->
  exists sharing_proof signature w2,
    ZKProofGenerator.generate_cross_institution_proof rsa self original_proof requesting
                                                      required w
    = Ok (VDict sharing_proof) w2
    /\ dict_get "sharing_approved" sharing_proof = Some (VBool true)
    /\ dict_get "original_proof_id" sharing_proof
       = Some (match dict_get "proof_id" original_proof with Some v => v | None => VNone end)
    /\ dict_get "requesting_institution" sharing_proof = Some (VStr requesting)
    /\ dict_get "verification_level_confirmed" sharing_proof = Some (VStr original_level)
    /\ dict_get "sharing_signature" sharing_proof = Some (VStr (hex signature))
    /\ verify rsa (ZKProofGenerator.public_key rsa self) signature
              (encode (json_dumps (VDict (dict_pop "sharing_signature" sharing_proof)))) = true
    /\ (forall key w3,
          ZKProofGenerator.verify_kyc_proof rsa self sharing_proof key w3
          = Ok (VDict [("valid", VBool false);
                       ("reason", VStr "Missing proof signature");
                       ("verified_at", VFloat (clock w3 (ticks w3)))]) (tick w3))
    /\ (forall requesting' required' w3,
          ZKProofGenerator.generate_cross_institution_proof rsa self sharing_proof requesting'
                                                            required' w3
          = Ok (VDict [("sharing_approved", VBool false);
                       ("reason", VStr "Original proof is invalid");
                       ("timestamp", VFloat (clock w3 (S (ticks w3))))]) (tick (tick w3))).
Proof.
  intros Hrsa Hkey Hver Hvalid Hlevel Hrank.
  rewrite (sharing_outcome rsa self _ requesting required _ _ _ _ Hver Hvalid Hlevel).
  replace (rank_or 0 original_level <? rank_or 2 required) with false
    by (symmetry; apply Z.ltb_ge; exact Hrank).
  cbv zeta.
  match goal with |- context [bind (sign rsa ?sk ?data) _ ?w0] =>
    destruct (Hrsa sk data w0) as (signature & w2 & Hsign & _ & Hverify)
  end.
  rewrite (bind_ok _ _ _ _ _ Hsign). rewrite <- Hkey in Hverify.
  eexists _, signature, w2. split; [reflexivity|].
  unfold sharing_proof_of in *.
  cbn [app dict_get dict_pop String.eqb Ascii.eqb Bool.eqb].
  do 5 (split; [reflexivity|]). split; [exact Hverify|]. split.
  - intros key w3.
    apply proof_without_usable_signature_is_rejected_aux. reflexivity.
  - intros requesting' required' w3.
    apply unsigned_proof_is_not_shared. reflexivity.
Qed.

(** X21 on the sample data. *)
Lemma sharing_proof_is_signed_but_is_no_kyc_proof_witness :
  exists sharing_proof w2,
    ZKProofGenerator.generate_cross_institution_proof toy_scheme toy_generator
      (sample_proof "EDD") "Bank_B" "CDD" sample_proof_world
    = Ok (VDict sharing_proof) w2
    /\ dict_get "sharing_approved" sharing_proof = Some (VBool true)
    /\ dict_get "requesting_institution" sharing_proof = Some (VStr "Bank_B")
    /\ ZKProofGenerator.generate_cross_institution_proof toy_scheme toy_generator
         sharing_proof "Bank_C" "CIP" w2
       = Ok (VDict [("sharing_approved", VBool false);
                    ("reason", VStr "Original proof is invalid");
                    ("timestamp", VFloat (clock w2 (S (ticks w2))))]) (tick (tick w2)).
Proof.
  eassert (Hver : ZKProofGenerator.verify_kyc_proof toy_scheme toy_generator
                    (sample_proof "EDD") None sample_proof_world = Ok (VDict _) _)
    by (vm_compute; reflexivity).
  destruct (sharing_proof_is_signed_but_is_no_kyc_proof toy_scheme toy_generator
              (sample_proof "EDD") "Bank_B" "CDD" sample_proof_world _ _ "EDD"
              toy_scheme_correct eq_refl Hver eq_refl eq_refl ltac:(vm_compute; discriminate))
    as (sharing_proof & signature & w2 & E & Happroved & _ & Hreq & _ & _ & _ & _ & Hshare).
  exists sharing_proof, w2. split; [exact E|]. split; [exact Happroved|].
  split; [exact Hreq|]. apply Hshare.
Defined.

(** *** The shape of digests *)

Lemma round_length st kw :
  List.length st = 8%nat -> List.length (SHA256.round st kw) = 8%nat.
Proof.
  destruct st as [|a [|b [|c [|d [|e [|f [|g [|h [|]]]]]]]]]; intros H; try discriminate H;
    reflexivity.
Qed.

Lemma fold_round_length l : forall st,
  List.length st = 8%nat -> List.length (fold_left SHA256.round l st) = 8%nat.
Proof.
  induction l as [|kw l IH]; intros st H; cbn [fold_left]; [exact H|].
  apply IH. now apply round_length.
Qed.

Lemma compress_length st block :
  List.length st = 8%nat -> List.length (SHA256.compress st block) = 8%nat.
Proof.
  intros H. unfold SHA256.compress. rewrite length_map, length_combine, fold_round_length, H
    by exact H. reflexivity.
Qed.

Lemma blocks_length fuel : forall ws st,
  List.length st = 8%nat -> List.length (SHA256.blocks fuel ws st) = 8%nat.
Proof.
  induction fuel as [|fuel IH]; intros ws st H; cbn [SHA256.blocks]; [exact H|].
  destruct ws; [exact H|]. apply IH. now apply compress_length.
Qed.

Lemma length_flat_map_8 {A} (f : A -> list ascii) l :
  (forall x, List.length (f x) = 8%nat) -> List.length (flat_map f l) = (8 * List.length l)%nat.
Proof.
  intros H. induction l as [|x l IH]; [reflexivity|].
  cbn [flat_map List.length]. rewrite length_app, H, IH. lia.
Qed.

Lemma length_string_of_list_ascii l :
  String.length (string_of_list_ascii l) = List.length l.
Proof. induction l as [|c l IH]; cbn; [reflexivity|now rewrite IH]. Qed.

Lemma hex_digit_is_hex d : 0 <= d < 16 -> In (SHA256.hex_digit d) hex_characters.
Proof.
  intros H.
  assert (Hd : d = 0 \/ d = 1 \/ d = 2 \/ d = 3 \/ d = 4 \/ d = 5 \/ d = 6 \/ d = 7
               \/ d = 8 \/ d = 9 \/ d = 10 \/ d = 11 \/ d = 12 \/ d = 13 \/ d = 14 \/ d = 15)
    by lia.
  repeat (destruct Hd as [->|Hd]; [vm_compute; tauto|]). subst d. vm_compute. tauto.
Qed.

Lemma nibble_range x : 0 <= Z.land x 0xF < 16.
Proof.
  change 0xF with (Z.ones 4). rewrite Z.land_ones by lia. apply Z.mod_pos_bound. lia.
Qed.

Lemma hex_word_is_hex w : Forall (fun c => In c hex_characters) (SHA256.hex_word w).
Proof.
  unfold SHA256.hex_word. apply Forall_map. apply Forall_forall. intros i _.
  apply hex_digit_is_hex, nibble_range.
Qed.

Lemma hexdigest_shape data :
  String.length (SHA256.hexdigest data) = 64%nat /\ lowercase_hex (SHA256.hexdigest data).
Proof.
  with_strategy transparent [SHA256.hexdigest] unfold SHA256.hexdigest.
  split.
  - rewrite length_string_of_list_ascii.
    rewrite (length_flat_map_8 SHA256.hex_word) by (intros; reflexivity).
    unfold SHA256.digest_words. rewrite blocks_length; reflexivity.
  - unfold lowercase_hex. rewrite list_ascii_of_string_of_list_ascii.
    apply Forall_flat_map. apply Forall_forall. intros w _. apply hex_word_is_hex.
Qed.

Lemma substring_shape n : forall s,
  (n <= String.length s)%nat -> lowercase_hex s ->
  String.length (substring 0 n s) = n /\ lowercase_hex (substring 0 n s).
Proof.
  unfold lowercase_hex. induction n as [|n IH]; intros s Hn Hs.
  - destruct s; cbn; split; constructor.
  - destruct s as [|c s]; [cbn in Hn; lia|]. cbn [substring String.length list_ascii_of_string].
    cbn [list_ascii_of_string] in Hs. apply Forall_cons_iff in Hs as [Hc Hs].
    destruct (IH s) as [H1 H2]; [cbn in Hn; lia|exact Hs|].
    split; [now rewrite H1|]. now constructor.
Qed.

(** X22.  Every digest is 64 lowercase hexadecimal characters: the hash a
    transaction or a block computes for itself, and the commitment and the
    challenge of a generated proof.  The id of a generated proof is 16 such
    characters. *)
Theorem digests_are_lowercase_hex :
  (forall tx,
      String.length (Transaction.compute_hash tx) = 64%nat
      /\ lowercase_hex (Transaction.compute_hash tx))
  /\ (forall block,
        String.length (Block.compute_hash block) = 64%nat
        /\ lowercase_hex (Block.compute_hash block))
  /\ (forall rsa (self : ZKProofGenerator.t rsa) customer_data level issuer w proof w1,
        ZKProofGenerator.generate_kyc_proof rsa self customer_data level issuer w
        = Ok (VDict proof) w1 ->
        exists commitment_hash challenge proof_id,
          dict_get "commitment_hash" proof = Some (VStr commitment_hash)
          /\ dict_get "challenge" proof = Some (VStr challenge)
          /\ dict_get "proof_id" proof = Some (VStr proof_id)
          /\ String.length commitment_hash = 64%nat /\ lowercase_hex commitment_hash
          /\ String.length challenge = 64%nat /\ lowercase_hex challenge
          /\ String.length proof_id = 16%nat /\ lowercase_hex proof_id).
Proof.
  split; [|split].
  - intros tx. with_strategy transparent [Transaction.compute_hash]
      unfold Transaction.compute_hash. apply hexdigest_shape.
  - intros b. with_strategy transparent [Block.compute_hash] unfold Block.compute_hash.
    apply hexdigest_shape.
  - intros rsa self customer_data level issuer w proof w1 Hgen.
    apply generate_kyc_proof_returns in Hgen as (seconds & signature & _ & _ & [= ->]).
    unfold proof_of, commitment_of, challenge_of, proof_id_of.
    cbn [dict_get String.eqb Ascii.eqb Bool.eqb].
    eexists _, _, _. do 3 (split; [reflexivity|]).
    split; [apply hexdigest_shape|]. split; [apply hexdigest_shape|].
    split; [apply hexdigest_shape|]. split; [apply hexdigest_shape|].
    apply substring_shape; [|apply hexdigest_shape].
    match goal with |- context [SHA256.hexdigest ?d] =>
      destruct (hexdigest_shape d) as [-> _] end. lia.
Qed.

(** X22 on the sample data. *)
Lemma digests_are_lowercase_hex_witness :
  exists commitment_hash challenge proof_id,
    dict_get "commitment_hash" (sample_proof "CDD") = Some (VStr commitment_hash)
    /\ dict_get "challenge" (sample_proof "CDD") = Some (VStr challenge)
    /\ dict_get "proof_id" (sample_proof "CDD") = Some (VStr proof_id)
    /\ String.length commitment_hash = 64%nat /\ lowercase_hex commitment_hash
    /\ String.length challenge = 64%nat /\ lowercase_hex challenge
    /\ String.length proof_id = 16%nat /\ lowercase_hex proof_id.
Proof.
  destruct digests_are_lowercase_hex as (_ & _ & Hproof).
  apply (Hproof toy_scheme toy_generator john_doe "CDD" "Bank_A"
                (sample_world (flt 1700000232 0)) (sample_proof "CDD") sample_proof_world).
  vm_compute. reflexivity.
Defined.

(* ------------------------------------------------------------------ *)
(** ** Properties of the proof manager and of the PEM text of keys *)

Lemma assoc_get_set_same {A} k (v : A) d : assoc_get k (assoc_set k v d) = Some v.
Proof.
  induction d as [|[k' v'] d IH]; cbn [assoc_set assoc_get].
  - now rewrite String.eqb_refl.
  - destruct (String.eqb k k') eqn:E; cbn [assoc_get]; rewrite ?String.eqb_refl, ?E; auto.
Qed.

Lemma assoc_get_set_other {A} k k' (v : A) d :
  k <> k' -> assoc_get k (assoc_set k' v d) = assoc_get k d.
Proof.
  intros Hne. induction d as [|[k'' v''] d IH]; cbn [assoc_set assoc_get].
  - apply String.eqb_neq in Hne. now rewrite Hne.
  - destruct (String.eqb k' k'') eqn:E; cbn [assoc_get].
    + apply String.eqb_eq in E. subst k''. apply String.eqb_neq in Hne. now rewrite Hne.
    + now rewrite IH.
Qed.

Lemma toy_codec_correct : pem_correct toy_codec.
Proof. intros []. exists "KEY". split; reflexivity. Qed.

Lemma toy_keygen_ok : keygen_ok toy_scheme.
Proof. intros n w. exists tt, w. repeat split. Qed.

Section ManagerFacts.
Variable rsa : pss_scheme.
Variable pem : pem_codec rsa.

(** A proof that [generate_kyc_proof] built, verified under the
    generator's public key by any generator object. *)
Lemma verify_generated_under_key (zkp : ZKProofGenerator.t rsa) pk
      customer_data level issuer w seconds signature w1 :
  signature <> [] ->
  verify rsa pk signature
         (encode (json_dumps
                    (VDict (dict_pop "proof_signature"
                              (proof_of customer_data level issuer w seconds VNone)))))
  = true ->
  float_ltb (float_sub (clock w1 (ticks w1)) (generated_at_of w)) ZKProofGenerator.day = true ->
  exists result w2,
    ZKProofGenerator.verify_kyc_proof rsa zkp
      (proof_of customer_data level issuer w seconds (VStr (hex signature))) (Some pk) w1
    = Ok (VDict result) w2
    /\ dict_get "valid" result = Some (VBool true).
Proof.
  intros Hne Hver Hage.
  unfold ZKProofGenerator.verify_kyc_proof, try_except.
  cbv beta zeta.
  assert (Hsig : dict_get "proof_signature"
                   (proof_of customer_data level issuer w seconds (VStr (hex signature)))
                 = Some (VStr (hex signature))) by reflexivity.
  rewrite Hsig. cbn [truthy]. rewrite (hex_nonempty _ Hne). cbn [negb].
  rewrite fromhex_hex.
  rewrite (bind_ok _ _ _ signature w1 eq_refl).
  assert (Hst : ZKProofGenerator._validate_proof_structure rsa zkp
                  (proof_of customer_data level issuer w seconds (VStr (hex signature))) w1
                = Ok true w1) by reflexivity.
  rewrite (bind_ok _ _ _ _ _ Hst).
  rewrite (bind_ok _ _ _ _ _ (time_eq w1)).
  assert (Hgen : dict_get "generated_at"
                   (proof_of customer_data level issuer w seconds (VStr (hex signature)))
                 = Some (VFloat (generated_at_of w))) by reflexivity.
  assert (Hpc : dict_get "public_claims"
                  (proof_of customer_data level issuer w seconds (VStr (hex signature)))
                = Some (public_claims_of level issuer w)) by reflexivity.
  assert (Hcopy : dict_pop "proof_signature"
                    (proof_of customer_data level issuer w seconds (VStr (hex signature)))
                  = dict_pop "proof_signature"
                      (proof_of customer_data level issuer w seconds VNone)) by reflexivity.
  rewrite Hgen, Hpc, Hcopy, Hver.
  rewrite (bind_ok _ _ _ (float_sub (clock w1 (ticks w1)) (generated_at_of w)) (tick w1) eq_refl).
  rewrite (bind_ok _ _ _ (VStr level) (tick w1) eq_refl).
  rewrite (bind_ok _ _ _ (VStr issuer) (tick w1) eq_refl).
  rewrite (bind_ok _ _ _ _ _ (time_eq (tick w1))).
  rewrite Hage. cbn [andb negb].
  eexists _, _. split; reflexivity.
Qed.

Lemma register_institution_loaded manager institution text pk w :
  keygen_ok rsa ->
  load_pem_public_key pem (encode text) = inr pk ->
  exists w',
    ZKProofManager.register_institution rsa pem manager institution text w
    = Ok (true,
          ZKProofManager.mk rsa
            (assoc_set institution pk (ZKProofManager.institution_keys rsa manager))
            (ZKProofManager.proof_store rsa manager)) w'.
Proof.
  intros Hgen Hload. unfold ZKProofManager.register_institution, ZKProofGenerator.init.
  destruct (Hgen 2048 w) as (sk & w' & Hsk & _ & _).
  exists w'. apply try_except_ok. unfold bind at 1. unfold bind at 1. rewrite Hsk. cbn [ret].
  unfold ZKProofGenerator.load_public_key_from_pem. rewrite Hload. reflexivity.
Qed.

Lemma register_institution_refused manager institution text e w :
  keygen_ok rsa ->
  load_pem_public_key pem (encode text) = inl e ->
  exists w',
    ZKProofManager.register_institution rsa pem manager institution text w
    = Ok (false, manager) w'.
Proof.
  intros Hgen Hload. unfold ZKProofManager.register_institution, ZKProofGenerator.init.
  destruct (Hgen 2048 w) as (sk & w' & Hsk & _ & _).
  unfold try_except. unfold bind at 1. unfold bind at 1. rewrite Hsk. cbn [ret].
  unfold ZKProofGenerator.load_public_key_from_pem. rewrite Hload. cbn [lift raise].
  eexists. reflexivity.
Qed.

End ManagerFacts.

(** X23.  [register_institution] keeps, under the institution's id, the key
    that the PEM text loads as, replacing a key registered before under
    that id and touching neither the other institutions nor the stored
    proofs; when the text does not load it answers false and leaves the
    manager as it was.  The text [get_public_key_pem] gives for a
    generator registers that generator's public key. *)
Theorem registration_keeps_the_key_of_the_pem_text rsa (pem : pem_codec rsa)
    (manager : ZKProofManager.t rsa) institution text w :
  keygen_ok rsa ->
  (forall pk,
      load_pem_public_key pem (encode text) = inr pk ->
      exists manager' w',
        ZKProofManager.register_institution rsa pem manager institution text w
        = Ok (true, manager') w'
        /\ assoc_get institution (ZKProofManager.institution_keys rsa manager') = Some pk
        /\ (forall other, other <> institution ->
                          assoc_get other (ZKProofManager.institution_keys rsa manager')
                          = assoc_get other (ZKProofManager.institution_keys rsa manager))
        /\ ZKProofManager.proof_store rsa manager' = ZKProofManager.proof_store rsa manager)
  /\ (forall e,
        load_pem_public_key pem (encode text) = inl e ->
        exists w',
          ZKProofManager.register_institution rsa pem manager institution text w
          = Ok (false, manager) w')
  /\ (pem_correct pem ->
      forall (issuer : ZKProofGenerator.t rsa) w0,
        exists issued,
          ZKProofGenerator.get_public_key_pem rsa pem issuer w0 = Ok issued w0
          /\ load_pem_public_key pem (encode issued)
             = inr (ZKProofGenerator.public_key rsa issuer)).
Proof.
  intros Hgen. split; [|split].
  - intros pk Hload.
    destruct (register_institution_loaded rsa pem manager institution text pk w Hgen Hload)
      as (w' & E).
    eexists _, w'. split; [exact E|]. cbn [ZKProofManager.institution_keys
                                            ZKProofManager.proof_store].
    split; [apply assoc_get_set_same|]. split; [|reflexivity].
    intros other Hne. now apply assoc_get_set_other.
  - intros e Hload. exact (register_institution_refused rsa pem manager institution text e w
                             Hgen Hload).
  - intros Hpem issuer w0.
    destruct (Hpem (ZKProofGenerator.public_key rsa issuer)) as (issued & Hdec & Hload).
    exists issued. split; [|exact Hload].
    unfold ZKProofGenerator.get_public_key_pem. now rewrite Hdec.
Qed.

(** X23 on the sample data. *)
Lemma registration_keeps_the_key_of_the_pem_text_witness :
  (exists manager' w',
      ZKProofManager.register_institution toy_scheme toy_codec (ZKProofManager.init toy_scheme)
        "Bank_A" "KEY" (world_at fzero)
      = Ok (true, manager') w'
      /\ assoc_get "Bank_A" (ZKProofManager.institution_keys toy_scheme manager') = Some tt)
  /\ (exists w',
         ZKProofManager.register_institution toy_scheme toy_codec
           (ZKProofManager.init toy_scheme) "Bank_A" "not a key" (world_at fzero)
         = Ok (false, ZKProofManager.init toy_scheme) w')
  /\ exists issued,
       ZKProofGenerator.get_public_key_pem toy_scheme toy_codec toy_generator (world_at fzero)
       = Ok issued (world_at fzero)
       /\ load_pem_public_key toy_codec (encode issued) = inr tt.
Proof.
  split; [|split].
  - destruct (registration_keeps_the_key_of_the_pem_text toy_scheme toy_codec
                (ZKProofManager.init toy_scheme) "Bank_A" "KEY" (world_at fzero) toy_keygen_ok)
      as (Hloaded & _ & _).
    destruct (Hloaded tt eq_refl) as (manager' & w' & E & Hkey & _).
    exists manager', w'. split; [exact E|exact Hkey].
  - destruct (registration_keeps_the_key_of_the_pem_text toy_scheme toy_codec
                (ZKProofManager.init toy_scheme) "Bank_A" "not a key" (world_at fzero)
                toy_keygen_ok) as (_ & Hrefused & _).
    exact (Hrefused ValueError eq_refl).
  - destruct (registration_keeps_the_key_of_the_pem_text toy_scheme toy_codec
                (ZKProofManager.init toy_scheme) "Bank_A" "KEY" (world_at fzero) toy_keygen_ok)
      as (_ & _ & Hissued).
    exact (Hissued toy_codec_correct toy_generator (world_at fzero)).
Defined.

(** X24.  [verify_stored_proof] answers "Proof not found" for an id that
    [store_proof] was not given, whether or not the institution is known,
    and "Institution not registered" for a stored proof and an unknown
    institution; neither answer makes a generator.  A proof stored under
    an id is found under it, and the proofs under other ids stay. *)
Theorem stored_proofs_are_looked_up_by_id rsa (manager : ZKProofManager.t rsa)
    proof_id institution w :
  (assoc_get proof_id (ZKProofManager.proof_store rsa manager) = None ->
   ZKProofManager.verify_stored_proof rsa manager proof_id institution w
   = Ok (VDict [("valid", VBool false);
                ("reason", VStr "Proof not found");
                ("verified_at", VFloat (clock w (ticks w)))]) (tick w))
  /\ (forall proof,
        assoc_get proof_id (ZKProofManager.proof_store rsa manager) = Some proof ->
        assoc_get institution (ZKProofManager.institution_keys rsa manager) = None ->
        ZKProofManager.verify_stored_proof rsa manager proof_id institution w
        = Ok (VDict [("valid", VBool false);
                     ("reason", VStr "Institution not registered");
                     ("verified_at", VFloat (clock w (ticks w)))]) (tick w))
  /\ (forall proof,
        fst (ZKProofManager.store_proof rsa manager proof_id proof) = true
        /\ assoc_get proof_id
             (ZKProofManager.proof_store rsa
                (snd (ZKProofManager.store_proof rsa manager proof_id proof)))
           = Some proof
        /\ (forall other, other <> proof_id ->
               assoc_get other
                 (ZKProofManager.proof_store rsa
                    (snd (ZKProofManager.store_proof rsa manager proof_id proof)))
               = assoc_get other (ZKProofManager.proof_store rsa manager))
        /\ ZKProofManager.institution_keys rsa
             (snd (ZKProofManager.store_proof rsa manager proof_id proof))
           = ZKProofManager.institution_keys rsa manager).
Proof.
  split; [|split].
  - intros H. unfold ZKProofManager.verify_stored_proof. now rewrite H.
  - intros proof H1 H2. unfold ZKProofManager.verify_stored_proof. now rewrite H1, H2.
  - intros proof. cbn [ZKProofManager.store_proof fst snd ZKProofManager.proof_store
                         ZKProofManager.institution_keys].
    split; [reflexivity|]. split; [apply assoc_get_set_same|]. split; [|reflexivity].
    intros other Hne. now apply assoc_get_set_other.
Qed.

(** X24 on the sample data. *)
Lemma stored_proofs_are_looked_up_by_id_witness :
  ZKProofManager.verify_stored_proof toy_scheme (ZKProofManager.init toy_scheme)
    "0123456789abcdef" "Bank_A" (world_at fzero)
  = Ok (VDict [("valid", VBool false);
               ("reason", VStr "Proof not found");
               ("verified_at", VFloat fzero)]) (tick (world_at fzero))
  /\ ZKProofManager.verify_stored_proof toy_scheme
       (snd (ZKProofManager.store_proof toy_scheme (ZKProofManager.init toy_scheme)
                                        "0123456789abcdef" (sample_proof "CDD")))
       "0123456789abcdef" "Bank_A" (world_at fzero)
     = Ok (VDict [("valid", VBool false);
                  ("reason", VStr "Institution not registered");
                  ("verified_at", VFloat fzero)]) (tick (world_at fzero)).
Proof.
  split.
  - destruct (stored_proofs_are_looked_up_by_id toy_scheme (ZKProofManager.init toy_scheme)
                "0123456789abcdef" "Bank_A" (world_at fzero)) as (H & _ & _).
    exact (H eq_refl).
  - destruct (stored_proofs_are_looked_up_by_id toy_scheme
                (snd (ZKProofManager.store_proof toy_scheme (ZKProofManager.init toy_scheme)
                                                 "0123456789abcdef" (sample_proof "CDD")))
                "0123456789abcdef" "Bank_A" (world_at fzero)) as (_ & H & _).
    exact (H (sample_proof "CDD") eq_refl eq_refl).
Defined.

(** X25.  A proof that a generator issued, stored under any id, verifies as
    valid through the manager when the institution named is registered
    with that generator's public key and the proof is less than a day
    old: the fresh generator that [verify_stored_proof] makes for the
    check does not matter. *)
Theorem stored_proof_of_registered_issuer_verifies rsa (issuer : ZKProofGenerator.t rsa)
    (manager : ZKProofManager.t rsa) customer_data level name w0 proof w1 generated_at
    proof_id institution w :
  pss_correct rsa -> keygen_ok rsa -> key_pair_ok issuer ->
  ZKProofGenerator.generate_kyc_proof rsa issuer customer_data level name w0
  = Ok (VDict proof) w1 ->
  dict_get "generated_at" proof = Some (VFloat generated_at) ->
  assoc_get institution (ZKProofManager.institution_keys rsa manager)
  = Some (ZKProofGenerator.public_key rsa issuer) ->
  float_ltb (float_sub (clock w (ticks w)) generated_at) ZKProofGenerator.day = true ->
  exists result w',
    ZKProofManager.verify_stored_proof rsa
      (snd (ZKProofManager.store_proof rsa manager proof_id proof)) proof_id institution w
    = Ok (VDict result) w'
    /\ dict_get "valid" result = Some (VBool true).
Proof.
  intros Hrsa Hgen Hkey Hproof Hat Hreg Hfresh.
  apply generate_kyc_proof_returns in Hproof as (seconds & signature & _ & Hsign & [= ->]).
  injection Hat as <-.
  match type of Hsign with sign rsa ?sk ?data ?w0 = _ =>
    destruct (Hrsa sk data w0) as (signature' & w1' & Hsign' & Hne & Hver)
  end.
  rewrite Hsign in Hsign'. injection Hsign' as <- <-.
  unfold ZKProofManager.verify_stored_proof.
  cbn [ZKProofManager.store_proof snd ZKProofManager.proof_store
       ZKProofManager.institution_keys].
  rewrite assoc_get_set_same, Hreg. unfold ZKProofGenerator.init.
  destruct (Hgen 2048 w) as (sk & w' & Hsk & Hclock & Hticks).
  unfold bind at 1. unfold bind at 1. rewrite Hsk. cbn [ret].
  apply verify_generated_under_key; [exact Hne| |].
  - rewrite Hkey. exact Hver.
  - now rewrite Hclock, Hticks.
Qed.

(** X25 on the sample data. *)
Lemma stored_proof_of_registered_issuer_verifies_witness :
  exists result w',
    ZKProofManager.verify_stored_proof toy_scheme
      (snd (ZKProofManager.store_proof toy_scheme
              (ZKProofManager.mk toy_scheme [("Bank_A", tt)] [])
              "0123456789abcdef" (sample_proof "CDD")))
      "0123456789abcdef" "Bank_A" sample_proof_world
    = Ok (VDict result) w'
    /\ dict_get "valid" result = Some (VBool true).
Proof.
  apply (stored_proof_of_registered_issuer_verifies toy_scheme toy_generator
           (ZKProofManager.mk toy_scheme [("Bank_A", tt)] [])
           john_doe "CDD" "Bank_A" (sample_world (flt 1700000232 0)) (sample_proof "CDD")
           sample_proof_world (flt 1700000232 0) "0123456789abcdef" "Bank_A"
           sample_proof_world toy_scheme_correct toy_keygen_ok eq_refl).
  - vm_compute. reflexivity.
  - reflexivity.
  - reflexivity.
  - vm_compute. reflexivity.
Defined.

(* ------------------------------------------------------------------ *)
(** ** Properties of the JSON text that is hashed, and of utils.py *)

Lemma string_compare_refl a : String.compare a a = Eq.
Proof.
  induction a as [|c a IH]; [reflexivity|]. cbn [String.compare].
  replace (Ascii.compare c c) with Eq by (symmetry; apply N.compare_refl). exact IH.
Qed.

Lemma ltb_irrefl a : String.ltb a a = false.
Proof. unfold String.ltb. now rewrite string_compare_refl. Qed.

Lemma In_insert_item x kv l : In x (insert_item kv l) <-> x = kv \/ In x l.
Proof.
  induction l as [|kv' l IH]; cbn [insert_item In].
  - intuition.
  - destruct (String.ltb (fst kv) (fst kv')); cbn [In]; rewrite ?IH; intuition.
Qed.

Lemma insert_item_ascending kv l :
  ascending_keys l -> ~ In (fst kv) (map fst l) -> ascending_keys (insert_item kv l).
Proof.
  unfold ascending_keys. induction l as [|kv' l IH]; intros Hl Hk; cbn [insert_item].
  - constructor; constructor.
  - apply StronglySorted_inv in Hl as [Hl Hall].
    destruct (String.ltb (fst kv) (fst kv')) eqn:Hlt.
    + constructor; [constructor; assumption|]. constructor; [exact Hlt|].
      rewrite Forall_forall in *. intros y Hy. exact (ltb_trans _ _ _ Hlt (Hall y Hy)).
    + constructor.
      * apply IH; [exact Hl|]. intros H. apply Hk. now right.
      * rewrite Forall_forall in *. intros y Hy. apply In_insert_item in Hy as [->|Hy].
        -- apply ltb_total; [exact Hlt|]. intros E. apply Hk. left. now symmetry.
        -- now apply Hall.
Qed.

Lemma sort_items_from l : forall acc,
  ascending_keys acc -> NoDup (map fst l) ->
  (forall k, In k (map fst l) -> ~ In k (map fst acc)) ->
  ascending_keys (fold_left (fun acc kv => insert_item kv acc) l acc)
  /\ forall x, In x (fold_left (fun acc kv => insert_item kv acc) l acc) <-> In x l \/ In x acc.
Proof.
  induction l as [|kv l IH]; intros acc Hacc Hnd Hdis; cbn [fold_left].
  - split; [exact Hacc|]. intros x. cbn. tauto.
  - cbn [map] in Hnd. apply NoDup_cons_iff in Hnd as [Hk Hnd].
    destruct (IH (insert_item kv acc)) as [H1 H2].
    + apply insert_item_ascending; [exact Hacc|]. apply Hdis. now left.
    + exact Hnd.
    + intros k Hin Hacc'. apply in_map_iff in Hacc' as (x & <- & Hx).
      apply In_insert_item in Hx as [->|Hx]; [contradiction|].
      apply (Hdis (fst x)); [now right|]. now apply in_map.
    + split; [exact H1|]. intros x. rewrite H2, In_insert_item. cbn [In]. intuition.
Qed.

Lemma sort_items_ascending l :
  NoDup (map fst l) ->
  ascending_keys (sort_items l) /\ forall x, In x (sort_items l) <-> In x l.
Proof.
  intros Hnd. destruct (sort_items_from l [] (SSorted_nil _) Hnd (fun _ _ H => H))
    as [H1 H2].
  split; [exact H1|]. intros x. rewrite (H2 x). cbn. tauto.
Qed.

(** Two lists in ascending order of their keys with the same items are
    the same list. *)
Lemma ascending_keys_unique {A} (l1 : list (string * A)) : forall l2,
  ascending_keys l1 -> ascending_keys l2 -> (forall x, In x l1 <-> In x l2) -> l1 = l2.
Proof.
  unfold ascending_keys. induction l1 as [|a l1 IH]; intros l2 H1 H2 Hin.
  - destruct l2 as [|b l2]; [reflexivity|]. exfalso. apply (Hin b). now left.
  - destruct l2 as [|b l2]; [exfalso; apply (Hin a); now left|].
    apply StronglySorted_inv in H1 as [H1 Ha]. apply StronglySorted_inv in H2 as [H2 Hb].
    rewrite Forall_forall in Ha, Hb.
    assert (Hab : a = b).
    { destruct (proj1 (Hin a) (or_introl eq_refl)) as [E|Hal2]; [now symmetry|].
      destruct (proj2 (Hin b) (or_introl eq_refl)) as [E|Hbl1]; [exact E|].
      pose proof (ltb_trans _ _ _ (Ha b Hbl1) (Hb a Hal2)) as Hcyc.
      rewrite ltb_irrefl in Hcyc. discriminate. }
    subst b. f_equal. apply IH; [exact H1|exact H2|].
    intros x. split; intros Hx.
    + destruct (proj1 (Hin x) (or_intror Hx)) as [E|H]; [|exact H].
      subst x. specialize (Ha a Hx). rewrite ltb_irrefl in Ha. discriminate.
    + destruct (proj2 (Hin x) (or_intror Hx)) as [E|H]; [|exact H].
      subst x. specialize (Hb a Hx). rewrite ltb_irrefl in Hb. discriminate.
Qed.

Lemma sort_items_same_items l1 l2 :
  NoDup (map fst l1) -> NoDup (map fst l2) -> (forall x, In x l1 <-> In x l2) ->
  sort_items l1 = sort_items l2.
Proof.
  intros Hn1 Hn2 Hin.
  destruct (sort_items_ascending l1 Hn1) as [Ha1 Hi1].
  destruct (sort_items_ascending l2 Hn2) as [Ha2 Hi2].
  apply ascending_keys_unique; [exact Ha1|exact Ha2|].
  intros x. now rewrite Hi1, Hi2.
Qed.

Lemma json_dumps_dict d :
  json_dumps (VDict d)
  = ("{" ++ String.concat ", "
              (map (fun kv => json_str (fst kv) ++ ": " ++ snd kv)
                   (sort_items (map (fun kv => (fst kv, json_dumps (snd kv))) d)))
         ++ "}")%string.
Proof. with_strategy transparent [json_dumps] reflexivity. Qed.

Lemma json_dumps_same_items d1 d2 :
  NoDup (map fst d1) -> NoDup (map fst d2) -> (forall kv, In kv d1 <-> In kv d2) ->
  json_dumps (VDict d1) = json_dumps (VDict d2).
Proof.
  intros Hn1 Hn2 Hin. rewrite !json_dumps_dict.
  rewrite (sort_items_same_items (map (fun kv => (fst kv, json_dumps (snd kv))) d1)
                                 (map (fun kv => (fst kv, json_dumps (snd kv))) d2));
    [reflexivity| | |].
  - now rewrite map_map.
  - now rewrite map_map.
  - intros x. rewrite !in_map_iff. split; intros (kv & <- & Hkv); exists kv;
      (split; [reflexivity|now apply Hin]).
Qed.

(** X26.  What is hashed does not depend on the order in which a dict was
    filled: two payloads with the same items give a transaction the same
    hash, two customer records with the same items give the same
    commitment, and [hash_data] gives two such dicts the same digest. *)
Theorem hashes_do_not_depend_on_key_order d1 d2 :
  NoDup (map fst d1) -> NoDup (map fst d2) -> (forall kv, In kv d1 <-> In kv d2) ->
  json_dumps (VDict d1) = json_dumps (VDict d2)
  /\ (forall sender recipient timestamp signature h1 h2,
        Transaction.compute_hash
          (Transaction.mk sender recipient (VDict d1) timestamp signature h1)
        = Transaction.compute_hash
            (Transaction.mk sender recipient (VDict d2) timestamp signature h2))
  /\ (forall rsa (self : ZKProofGenerator.t rsa) level issuer timestamp,
        ZKProofGenerator._create_commitment rsa self
          (VDict [("customer_pii", VDict d1);
                  ("verification_details",
                   VDict [("level", VStr level); ("issuer", VStr issuer);
                          ("timestamp", VFloat timestamp)])])
        = ZKProofGenerator._create_commitment rsa self
            (VDict [("customer_pii", VDict d2);
                    ("verification_details",
                     VDict [("level", VStr level); ("issuer", VStr issuer);
                            ("timestamp", VFloat timestamp)])]))
  /\ Utils.hash_data (VDict d1) = Utils.hash_data (VDict d2).
Proof.
  intros Hn1 Hn2 Hin. pose proof (json_dumps_same_items d1 d2 Hn1 Hn2 Hin) as Hjson.
  split; [exact Hjson|]. split; [|split].
  - intros s r ts sig h1 h2.
    with_strategy transparent [Transaction.compute_hash] unfold Transaction.compute_hash.
    cbn [Transaction.sender Transaction.recipient Transaction.payload Transaction.timestamp
         Transaction.signature].
    rewrite !(json_dumps_dict (_ :: _)). cbn [map fst snd]. now rewrite Hjson.
  - intros rsa self level issuer ts. unfold ZKProofGenerator._create_commitment.
    rewrite !(json_dumps_dict (("customer_pii", _) :: _)). cbn [map fst snd].
    now rewrite Hjson.
  - unfold Utils.hash_data. now rewrite Hjson.
Qed.

(** X26 on the sample data. *)
Lemma hashes_do_not_depend_on_key_order_witness :
  json_dumps (VDict [("kyc_id", VStr "kyc_001"); ("status", VStr "APPROVED")])
  = json_dumps (VDict [("status", VStr "APPROVED"); ("kyc_id", VStr "kyc_001")])
  /\ Utils.hash_data (VDict [("kyc_id", VStr "kyc_001"); ("status", VStr "APPROVED")])
     = Utils.hash_data (VDict [("status", VStr "APPROVED"); ("kyc_id", VStr "kyc_001")]).
Proof.
  destruct (hashes_do_not_depend_on_key_order
              [("kyc_id", VStr "kyc_001"); ("status", VStr "APPROVED")]
              [("status", VStr "APPROVED"); ("kyc_id", VStr "kyc_001")])
    as (Hjson & _ & _ & Hhash).
  - repeat constructor; cbn; intuition discriminate.
  - repeat constructor; cbn; intuition discriminate.
  - intros kv. cbn. tauto.
  - split; [exact Hjson|exact Hhash].
Defined.

(** X27.  [hash_data] hashes a value that is not a dict through its [str]
    text, so that it gives a number, a boolean or [None] the digest of the
    string that spells it; and a level passes [validate_kyc_level] exactly
    when it is one of the three that
    [generate_cross_institution_proof] ranks. *)
Theorem hash_data_reads_text_and_levels_are_three :
  (forall v, match v with VDict _ => False | _ => True end ->
             Utils.hash_data v = SHA256.hexdigest (encode (str v))
             /\ Utils.hash_data v = Utils.hash_data (VStr (str v)))
  /\ Utils.hash_data (VInt 1) = Utils.hash_data (VStr "1")
  /\ (forall level,
        Utils.validate_kyc_level level = true
        <-> level = "CIP" \/ level = "CDD" \/ level = "EDD")
  /\ (forall level,
        Utils.validate_kyc_level level = dict_in level ZKProofGenerator.level_hierarchy).
Proof.
  split; [|split; [|split]].
  - intros v Hv. destruct v; try contradiction; split; reflexivity.
  - reflexivity.
  - intros level. unfold Utils.validate_kyc_level. cbn [existsb].
    rewrite !orb_true_iff, !String.eqb_eq. intuition discriminate.
  - intros level. unfold Utils.validate_kyc_level, ZKProofGenerator.level_hierarchy, dict_in.
    cbn [existsb dict_get].
    destruct (String.eqb level "CIP"); [reflexivity|].
    destruct (String.eqb level "CDD"); [reflexivity|].
    destruct (String.eqb level "EDD"); reflexivity.
Qed.

(** X27 on the sample data. *)
Lemma hash_data_reads_text_and_levels_are_three_witness :
  Utils.hash_data (VBool true) = Utils.hash_data (VStr "True")
  /\ Utils.validate_kyc_level "EDD" = true.
Proof.
  destruct hash_data_reads_text_and_levels_are_three as (Htext & _ & Hlevels & _). split.
  - exact (proj2 (Htext (VBool true) I)).
  - apply Hlevels. right. right. reflexivity.
Defined.
